(** * ParkGenius: the wait-time estimation engine and the comfort index

    A shallow embedding of two route modules of the application:

    - the weather route ([calculateComfortIndex]), and
    - the predictions route ([generateWaitTimePrediction],
      [predictWaitTime], [generatePredictionFactors],
      [findAlternativeAttractions]).

    Conventions of the embedding.

    - A JavaScript [number] is an exact rational ([Q]); the rounding of
      binary64 arithmetic is outside the model.  Integer database columns
      are [Z], and so is a look-ahead window, a number of minutes (an
      integer of magnitude below 10^21, which [toString()] prints in
      decimal digits).
    - An instant (a [Date], a [timestamp] column) is its number of
      milliseconds since the epoch, a [Z].  [getHours] and [getDay] read
      the host's local time, which is the instant shifted by the host's
      offset from UTC.
    - A nullable column or a JSON property that the code guards ([x || d],
      [x?.y]) is an [option]; the other columns hold a value.
    - The two ambient effects of the module, the system clock
      ([new Date()], [Date.now()]) and [Math.random()], are read from a
      [World] through a small state monad.
    - The Supabase client is an interface of four queries, each answering
      with a [{ data, error }] pair or rejecting. *)

From Stdlib Require Import ZArith QArith Qround Lia Lqa.
From stdpp Require Import gmap strings list sorting pretty.

Local Open Scope Z_scope.

(** ** Numbers *)

Definition Qltb (a b : Q) : bool := negb (Qle_bool b a).

(** The functions of the [Math] object that the routes call. *)
Module Math.

(** [Math.max(a, b)] *)
Definition max (a b : Q) : Q := if Qle_bool a b then b else a.

(** [Math.min(a, b)] *)
Definition min (a b : Q) : Q := if Qle_bool a b then a else b.

(** [Math.abs(x)] *)
Definition abs (x : Q) : Q := if Qle_bool 0 x then x else (- x)%Q.

(** [Math.round(x)]: the nearest integer, a tie going up. *)
Definition round (x : Q) : Q := inject_Z (Qfloor (x + 0.5)).

End Math.

(** ** The weather route: the comfort index *)

Definition calculateComfortIndex (temperature humidity windSpeed : Q) : Q :=
  (* Convert Celsius to Fahrenheit for comfort calculation *)
  let tempF := (temperature * 9 / 5 + 32)%Q in
  let comfort := 100%Q in
  (* Temperature comfort *)
  let comfort :=
    if Qltb tempF 60 || Qltb 90 tempF
    then (comfort - Math.abs (75 - tempF) * 2)%Q else comfort in
  (* Humidity comfort *)
  let comfort :=
    if Qltb humidity 30 || Qltb 70 humidity
    then (comfort - Math.abs (50 - humidity) * 0.5)%Q else comfort in
  (* Wind factor *)
  let windChillFactor :=
    if Qltb 5 windSpeed then Math.max 0.9 (1 - windSpeed * 0.02)%Q else 1%Q in
  let comfort := (comfort * windChillFactor)%Q in
  Math.max 0 (Math.min 100 (Math.round comfort)).

(** The comfort index as the specification words it: the penalties are
    subtractions guarded by "outside the band", the wind factor applies
    above 5 only, and the score is clamped to [[0,100]] and then rounded. *)
Definition outside (lo hi x : Q) : bool := negb (Qle_bool lo x && Qle_bool x hi).

Definition clamp (lo hi x : Q) : Q :=
  if Qltb x lo then lo else if Qltb hi x then hi else x.

Definition comfortIndex_spec (temperature humidity windSpeed : Q) : Q :=
  let tempF := (temperature * 9 / 5 + 32)%Q in
  let s0 := 100%Q in
  let s1 := if outside 60 90 tempF then (s0 - 2 * Math.abs (75 - tempF))%Q else s0 in
  let s2 := if outside 30 70 humidity then (s1 - 0.5 * Math.abs (50 - humidity))%Q else s1 in
  let s3 := if Qltb 5 windSpeed then (s2 * Math.max 0.9 (1 - 0.02 * windSpeed))%Q else s2 in
  Math.round (clamp 0 100 s3).

(** Celsius reading of a Fahrenheit temperature. *)
Definition celsius_of_fahrenheit (f : Q) : Q := ((f - 32) * 5 / 9)%Q.

(** ** Instants and local time

    [tz t] is the host's offset from UTC, in milliseconds, at the instant
    [t]; 1 January 1970 was a Thursday (day 4). *)

Definition getHours (tz : Z → Z) (t : Z) : Z := ((t + tz t) `div` 3600000) `mod` 24.

Definition getDay (tz : Z → Z) (t : Z) : Z := ((t + tz t) `div` 86400000 + 4) `mod` 7.

(** ** The data model (the columns and properties that the routes read) *)

Inductive attraction_status := open | closed | down | delayed.

Global Instance attraction_status_eq_dec : EqDecision attraction_status.
Proof. solve_decision. Defined.

(** [attractions.details], a JSON object; a property may be missing. *)
Record Details := { thrill_level : option Z }.

Module Attraction.
Record t := mk {
  id : string;
  park_id : string;
  type : string;
  details : option Details;
  current_status : attraction_status;
  wait_time : option Z;
}.
End Attraction.

Module WaitTime.
Record t := mk {
  attraction_id : string;
  wait_minutes : Z;
  timestamp : Z;
}.
End WaitTime.

(** [weather_data.current_conditions], a JSON object. *)
Record Conditions := {
  temperature : option Q;
  precipitation : option Q;
}.

Module WeatherData.
Record t := mk {
  park_id : string;
  timestamp : Z;
  current_conditions : Conditions;
}.
End WeatherData.

Record Estimate := {
  predicted_wait : Q;
  confidence : Q;
}.

Module WaitTimePrediction.
Record t := mk {
  attraction_id : string;
  current_wait : Z;
  predictions : gmap string Estimate;
  factors : list string;
  alternative_attractions : list string;
  last_updated : Z;
  confidence_interval : string;
}.
End WaitTimePrediction.

(** ** JavaScript's treatment of missing properties *)

(** [x || d] on an integer property: a missing value and 0 are falsy. *)
Definition or_else_Z (x : option Z) (d : Z) : Z :=
  match x with
  | Some v => if v =? 0 then d else v
  | None => d
  end.

(** [x || d] on a number. *)
Definition or_else (x : option Q) (d : Q) : Q :=
  match x with
  | Some v => if Qeq_bool v 0 then d else v
  | None => d
  end.

(** [x > c] and [x < c]: a comparison with [undefined] is false. *)
Definition gt (x : option Q) (c : Q) : bool :=
  match x with Some v => Qltb c v | None => false end.

Definition lt (x : option Q) (c : Q) : bool :=
  match x with Some v => Qltb v c | None => false end.

(** [attraction.details?.thrill_level] *)
Definition details_thrill_level (attraction : Attraction.t) : option Z :=
  d ← Attraction.details attraction; thrill_level d.

(** ** The ambient effects: the system clock and [Math.random]

    A [World] holds every reading the clock will give and every number
    [Math.random()] will return, with the count of those already taken. *)

Record World := {
  clock_at : nat → Z;
  random_at : nat → Q;
  clock_reads : nat;
  random_draws : nat;
}.

Definition IO (A : Type) : Type := World → A * World.

Global Instance IO_ret : MRet IO := λ A x w, (x, w).

Global Instance IO_bind : MBind IO := λ A B f m w, let '(a, w') := m w in f a w'.

(** [new Date()], as its instant; [Date.now()] reads the same clock. *)
Definition new_Date : IO Z := λ w,
  (clock_at w (clock_reads w),
   {| clock_at := clock_at w; random_at := random_at w;
      clock_reads := S (clock_reads w); random_draws := random_draws w |}).

Definition Date_now : IO Z := new_Date.

(** [Math.random()] *)
Definition Math_random : IO Q := λ w,
  (random_at w (random_draws w),
   {| clock_at := clock_at w; random_at := random_at w;
      clock_reads := clock_reads w; random_draws := S (random_draws w) |}).

(** [for (const x of xs) { acc = body x acc }] *)
Fixpoint for_of {A S : Type} (xs : list A) (body : A → S → IO S) (acc : S) : IO S :=
  match xs with
  | [] => mret acc
  | x :: xs' => acc' ← body x acc; for_of xs' body acc'
  end.

(** ** The Supabase client

    Awaiting a query either resolves to a [{ data, error }] pair or
    rejects, which takes control to the enclosing [catch]. *)

Inductive response (A : Type) : Type :=
  | Resolved (data : option A) (error : option string)
  | Rejected.
Arguments Resolved {A} data error.
Arguments Rejected {A}.

(** The four queries that the predictions route builds, by the arguments
    that vary. *)
Record Supabase := {
  (* from('attractions').select('*').eq('id', id).single() *)
  attraction_by_id : string → response Attraction.t;
  (* from('wait_times').select('*').eq('attraction_id', id)
       .gte('timestamp', since).order('timestamp', desc).limit(168) *)
  recent_wait_times : string → Z → response (list WaitTime.t);
  (* from('weather_data').select('current_conditions').eq('park_id', park)
       .order('timestamp', desc).limit(1).single() *)
  latest_weather : string → response WeatherData.t;
  (* from('attractions').select('id, name, wait_time').eq('park_id', park)
       .eq('type', type).eq('current_status', 'open').lt('wait_time', wait)
       .order('wait_time', asc).limit(3) *)
  open_attractions_below : string → string → Z → response (list Attraction.t);
}.

(** *** A client over tables that answers every query

    The filters keep the rows on which the comparison is true (a NULL
    compares true with nothing), [order] is a stable sort with NULLs last
    when ascending, [limit n] keeps the first [n] rows, and [single]
    reports an error unless exactly one row is left. *)

Record Database := {
  attractions : list Attraction.t;
  wait_times : list WaitTime.t;
  weather_data : list WeatherData.t;
}.

Definition single {A : Type} (rows : list A) : response A :=
  match rows with
  | [r] => Resolved (Some r) None
  | _ => Resolved None (Some "PGRST116")
  end.

Definition wait_below (wait : Z) (a : Attraction.t) : Prop :=
  match Attraction.wait_time a with Some w => w < wait | None => False end.

Global Instance wait_below_dec wait a : Decision (wait_below wait a).
Proof. unfold wait_below. destruct (Attraction.wait_time a); apply _. Defined.

(** The rows kept by [eq('park_id', park)], [eq('type', type)],
    [eq('current_status', 'open')] and [lt('wait_time', wait)]. *)
Definition alternative_to (park type : string) (wait : Z) (a : Attraction.t) : Prop :=
  Attraction.park_id a = park ∧ Attraction.type a = type
  ∧ Attraction.current_status a = open ∧ wait_below wait a.

Global Instance alternative_to_dec park type wait a :
  Decision (alternative_to park type wait a).
Proof. unfold alternative_to. apply _. Defined.

Definition wait_ascending (a b : Attraction.t) : Prop :=
  match Attraction.wait_time a, Attraction.wait_time b with
  | Some x, Some y => x ≤ y
  | _, None => True
  | None, Some _ => False
  end.

Global Instance wait_ascending_dec a b : Decision (wait_ascending a b).
Proof.
  unfold wait_ascending.
  destruct (Attraction.wait_time a), (Attraction.wait_time b); apply _.
Defined.

Definition newest_first (a b : WaitTime.t) : Prop :=
  WaitTime.timestamp b ≤ WaitTime.timestamp a.

Global Instance newest_first_dec a b : Decision (newest_first a b).
Proof. unfold newest_first. apply _. Defined.

Definition latest_first (a b : WeatherData.t) : Prop :=
  WeatherData.timestamp b ≤ WeatherData.timestamp a.

Global Instance latest_first_dec a b : Decision (latest_first a b).
Proof. unfold latest_first. apply _. Defined.

Definition database_client (db : Database) : Supabase := {|
  attraction_by_id id :=
    single (filter (λ a, Attraction.id a = id) (attractions db));
  recent_wait_times id since :=
    Resolved
      (Some (take 168 (merge_sort newest_first
         (filter (λ r, WaitTime.attraction_id r = id ∧ since ≤ WaitTime.timestamp r)
            (wait_times db)))))
      None;
  latest_weather park :=
    single (take 1 (merge_sort latest_first
      (filter (λ r, WeatherData.park_id r = park) (weather_data db))));
  open_attractions_below park type wait :=
    Resolved
      (Some (take 3 (merge_sort wait_ascending
         (filter (alternative_to park type wait) (attractions db)))))
      None;
|}.

(** ** The predictions route: [predictWaitTime] *)

(** The base prediction and the confidence after the adjustments for the
    time of day, the day of the week, the thrill level and the weather
    (the statements from "Base prediction on current wait time" to the end
    of "Weather adjustments"). *)
Definition adjustments (hour dayOfWeek : Z) (currentWait : Q)
    (weather : option Conditions) (attraction : Attraction.t) : Q * Q :=
  (* Base prediction on current wait time *)
  let prediction := currentWait in
  let confidence := 0.8%Q in
  (* Time-based adjustments *)
  let prediction :=
    if (11 <=? hour) && (hour <=? 15) then (prediction * 1.3)%Q
    else if (16 <=? hour) && (hour <=? 20) then (prediction * 1.1)%Q
    else if (hour <=? 9) || (21 <=? hour) then (prediction * 0.7)%Q
    else prediction in
  (* Day of week adjustments *)
  let prediction :=
    if (dayOfWeek =? 0) || (dayOfWeek =? 6) then (prediction * 1.2)%Q
    else prediction in
  (* Thrill level adjustments *)
  let thrillLevel := or_else_Z (details_thrill_level attraction) 3 in
  let prediction :=
    if 4 <=? thrillLevel then (prediction * 1.1)%Q else prediction in
  (* Weather adjustments *)
  match weather with
  | Some weather =>
      let temp := or_else (temperature weather) 25 in
      let precipitation := or_else (precipitation weather) 0 in
      let prediction :=
        if Qltb 30 temp then
          if bool_decide (Attraction.type attraction = "dark_ride")
          then (prediction * 1.2)%Q else (prediction * 0.9)%Q
        else prediction in
      if Qltb 0 precipitation then
        if bool_decide (Attraction.type attraction = "dark_ride")
           || bool_decide (Attraction.type attraction = "show")
        then ((prediction * 1.5)%Q, (confidence * 0.9)%Q)
        else ((prediction * 0.6)%Q, (confidence * 0.8)%Q)
      else (prediction, confidence)
  | None => (prediction, confidence)
  end.

(** [history.filter(h => Math.abs(new Date(h.timestamp).getHours() - hour) <= 1)] *)
Definition similarTimes (tz : Z → Z) (hour : Z) (history : list WaitTime.t)
    : list WaitTime.t :=
  filter (λ h, Z.abs (getHours tz (WaitTime.timestamp h) - hour) ≤ 1) history.

(** [similarTimes.reduce((sum, h) => sum + h.wait_minutes, 0) / similarTimes.length] *)
Definition avgHistoricalWait (similar : list WaitTime.t) : Q :=
  let total := foldl (λ sum h, sum + WaitTime.wait_minutes h) 0 similar in
  (inject_Z total / inject_Z (Z.of_nat (length similar)))%Q.

(** "Historical pattern matching" *)
Definition historicalPatternMatching (tz : Z → Z) (hour : Z)
    (history : list WaitTime.t) (pc : Q * Q) : Q * Q :=
  let '(prediction, confidence) := pc in
  if (0 <? length history)%nat then
    let similar := similarTimes tz hour history in
    if (0 <? length similar)%nat then
      (* Blend current prediction with historical average *)
      ((prediction * 0.7 + avgHistoricalWait similar * 0.3)%Q, (confidence * 1.1)%Q)
    else
      (prediction, (confidence * 0.9)%Q)
  else pc.

(** The prediction and the confidence just before "Apply randomness for
    natural variation". *)
Definition preJitter (tz : Z → Z) (hour dayOfWeek : Z) (currentWait : Q)
    (history : list WaitTime.t) (weather : option Conditions)
    (attraction : Attraction.t) : Q * Q :=
  historicalPatternMatching tz hour history
    (adjustments hour dayOfWeek currentWait weather attraction).

(** "Apply randomness for natural variation", [random] being the draw. *)
Definition naturalVariation (random : Q) (prediction : Q) : Q :=
  let variance := 0.1%Q in
  let randomFactor := (1 + (random - 0.5) * variance)%Q in
  (prediction * randomFactor)%Q.

(** "Ensure reasonable bounds" and the returned object. *)
Definition reasonableBounds (prediction confidence : Q) : Estimate :=
  let prediction := Math.max 0 (Math.min 180 (Math.round prediction)) in
  let confidence := Math.max 0.3 (Math.min 1.0 confidence) in
  {| predicted_wait := prediction;
     confidence := (Math.round (confidence * 100) / 100)%Q |}.

Definition predictWaitTime (tz : Z → Z) (attractionId : string) (currentWait : Q)
    (minutesAhead : Z) (history : list WaitTime.t) (weather : option Conditions)
    (attraction : Attraction.t) : IO Estimate :=
  now ← new_Date;
  let futureTime := now + minutesAhead * 60 * 1000 in
  let hour := getHours tz futureTime in
  let dayOfWeek := getDay tz futureTime in
  let '(prediction, confidence) :=
    preJitter tz hour dayOfWeek currentWait history weather attraction in
  random ← Math_random;
  let prediction := naturalVariation random prediction in
  mret (reasonableBounds prediction confidence).

(** ** [generatePredictionFactors] *)

Definition push_if (b : bool) (factors : list string) (factor : string) : list string :=
  if b then factors ++ [factor] else factors.

Definition generatePredictionFactors (tz : Z → Z) (history : list WaitTime.t)
    (weather : option Conditions) (attraction : Attraction.t) : IO (list string) :=
  let factors := ["historical_patterns"; "time_of_day"] in
  let factors :=
    match weather with
    | Some weather =>
        let factors := factors ++ ["weather_conditions"] in
        let factors := push_if (gt (precipitation weather) 0) factors "precipitation" in
        push_if (gt (temperature weather) 30 || lt (temperature weather) 10)
          factors "temperature_extreme"
    | None => factors
    end in
  let factors :=
    push_if (match details_thrill_level attraction with
             | Some l => 4 <=? l | None => false end)
      factors "high_thrill_attraction" in
  now ← new_Date;
  let factors :=
    push_if ((getDay tz now =? 0) || (getDay tz now =? 6)) factors "weekend" in
  let factors :=
    push_if ((11 <=? getHours tz now) && (getHours tz now <=? 15)) factors "peak_hours" in
  mret factors.

(** ** [findAlternativeAttractions] *)

Definition findAlternativeAttractions (supabase : Supabase)
    (parkId attractionType : string) (currentWait : Z) : list string :=
  match open_attractions_below supabase parkId attractionType currentWait with
  | Resolved (Some alternatives) None => Attraction.id <$> alternatives
  | Resolved _ _ => []
  | Rejected => []
  end.

(** ** [generateWaitTimePrediction] *)

(** The part of the function after the three lookups: the loop over the
    windows, the factors, the alternatives and the returned object.  The
    key of an entry, [minutes.toString()], is the decimal string of the
    window: that is what JavaScript prints for an integer of magnitude
    below 10^21, the windows that the model covers (from there on it
    prints an exponent, as in "1e+21"). *)
Definition estimate (tz : Z → Z) (supabase : Supabase) (attractionId : string)
    (timeWindows : list Z) (attraction : Attraction.t)
    (waitTimeHistory : option (list WaitTime.t))
    (weatherData : option WeatherData.t) : IO WaitTimePrediction.t :=
  let history := default [] waitTimeHistory in
  let weather := WeatherData.current_conditions <$> weatherData in
  let currentWait := or_else_Z (Attraction.wait_time attraction) 0 in
  predictions ←
    for_of timeWindows
      (λ minutes (predictions : gmap string Estimate),
         prediction ← predictWaitTime tz attractionId (inject_Z currentWait)
                        minutes history weather attraction;
         mret (<[pretty minutes := prediction]> predictions))
      ∅;
  factors ← generatePredictionFactors tz history weather attraction;
  let alternatives :=
    findAlternativeAttractions supabase (Attraction.park_id attraction)
      (Attraction.type attraction) currentWait in
  last_updated ← new_Date;
  mret {|
    WaitTimePrediction.attraction_id := attractionId;
    WaitTimePrediction.current_wait := currentWait;
    WaitTimePrediction.predictions := predictions;
    WaitTimePrediction.factors := factors;
    WaitTimePrediction.alternative_attractions := alternatives;
    WaitTimePrediction.last_updated := last_updated;
    WaitTimePrediction.confidence_interval := "±10 minutes";
  |}.

Definition generateWaitTimePrediction (tz : Z → Z) (supabase : Supabase)
    (attractionId : string) (timeWindows : list Z)
    : IO (option WaitTimePrediction.t) :=
  (* Get attraction details *)
  match attraction_by_id supabase attractionId with
  | Resolved (Some attraction) None =>
      (* Get recent wait time history *)
      now ← Date_now;
      match recent_wait_times supabase attractionId
              (now - 7 * 24 * 60 * 60 * 1000) with
      | Resolved waitTimeHistory None =>
          (* Get current weather data *)
          match latest_weather supabase (Attraction.park_id attraction) with
          | Resolved weatherData _ =>
              prediction ← estimate tz supabase attractionId timeWindows
                              attraction waitTimeHistory weatherData;
              mret (Some prediction)
          | Rejected => mret None
          end
      | Resolved _ (Some historyError) => mret None
      | Rejected => mret None
      end
  | Resolved _ _ => mret None
  | Rejected => mret None
  end.

(** ** Sample data *)

Definition utc : Z → Z := λ _, 0.

(** A world whose clock always reads [now] and whose random source always
    returns [u]. *)
Definition frozen (now : Z) (u : Q) : World := {|
  clock_at := λ _, now;
  random_at := λ _, u;
  clock_reads := 0;
  random_draws := 0;
|}.

(** Thursday 1 January 1970, 12:45 UTC. *)
Definition thursday_1245 : Z := 45900000.

Definition coaster : Attraction.t := {|
  Attraction.id := "space-coaster";
  Attraction.park_id := "magic-kingdom";
  Attraction.type := "roller_coaster";
  Attraction.details := Some {| thrill_level := Some 5 |};
  Attraction.current_status := open;
  Attraction.wait_time := Some 40;
|}.

(** An observation of the coaster at 03:00 UTC of the same Thursday. *)
Definition night_observation : WaitTime.t := {|
  WaitTime.attraction_id := "space-coaster";
  WaitTime.wait_minutes := 10;
  WaitTime.timestamp := 10800000;
|}.

(** An observation of the coaster at 23:00 UTC of the same Thursday. *)
Definition late_observation : WaitTime.t := {|
  WaitTime.attraction_id := "space-coaster";
  WaitTime.wait_minutes := 25;
  WaitTime.timestamp := 82800000;
|}.

(** An observation of the coaster at 13:30 UTC of the same Thursday. *)
Definition midday_observation : WaitTime.t := {|
  WaitTime.attraction_id := "space-coaster";
  WaitTime.wait_minutes := 50;
  WaitTime.timestamp := 48600000;
|}.

Definition log_flume : Attraction.t := {|
  Attraction.id := "log-flume";
  Attraction.park_id := "magic-kingdom";
  Attraction.type := "water_ride";
  Attraction.details := Some {| thrill_level := Some 3 |};
  Attraction.current_status := open;
  Attraction.wait_time := Some 20;
|}.

Definition haunted_house : Attraction.t := {|
  Attraction.id := "haunted-house";
  Attraction.park_id := "magic-kingdom";
  Attraction.type := "dark_ride";
  Attraction.details := Some {| thrill_level := Some 2 |};
  Attraction.current_status := open;
  Attraction.wait_time := Some 30;
|}.

(** 24 °C with rain, and the same snapshot without the rain. *)
Definition rainy : Conditions :=
  {| temperature := Some 24%Q; precipitation := Some 1.2%Q |}.

Definition without_rain (weather : Conditions) : Conditions :=
  {| temperature := temperature weather; precipitation := Some 0%Q |}.

Definition ride (id type : string) (status : attraction_status)
    (wait : option Z) : Attraction.t := {|
  Attraction.id := id;
  Attraction.park_id := "magic-kingdom";
  Attraction.type := type;
  Attraction.details := None;
  Attraction.current_status := status;
  Attraction.wait_time := wait;
|}.

Definition magic_kingdom : Database := {|
  attractions :=
    [ coaster; log_flume; haunted_house;
      ride "speedway" "roller_coaster" open (Some 35);
      ride "mine-train" "roller_coaster" open (Some 25);
      ride "old-coaster" "roller_coaster" closed (Some 5);
      ride "rocket" "roller_coaster" open (Some 30);
      ride "kiddie-coaster" "roller_coaster" open None;
      ride "big-thunder" "roller_coaster" open (Some 15) ];
  wait_times := [midday_observation; night_observation; late_observation];
  weather_data := [];
|}.

(** A client that answers the history query with [r], and one that answers
    the weather query with [r]; the other queries go to [client]. *)
Definition with_history (client : Supabase) (r : response (list WaitTime.t))
    : Supabase := {|
  attraction_by_id := attraction_by_id client;
  recent_wait_times := λ _ _, r;
  latest_weather := latest_weather client;
  open_attractions_below := open_attractions_below client;
|}.

Definition with_weather (client : Supabase) (r : response WeatherData.t)
    : Supabase := {|
  attraction_by_id := attraction_by_id client;
  recent_wait_times := recent_wait_times client;
  latest_weather := λ _, r;
  open_attractions_below := open_attractions_below client;
|}.

(** ** Worlds with the same sources

    Two worlds have the same sources when, from the positions they are at,
    their clocks give the same readings and their random sources the same
    draws. *)
Definition same_sources (w1 w2 : World) : Prop :=
  (∀ k, clock_at w1 (clock_reads w1 + k)%nat = clock_at w2 (clock_reads w2 + k)%nat)
  ∧ (∀ k, random_at w1 (random_draws w1 + k)%nat
          = random_at w2 (random_draws w2 + k)%nat).

(** A computation is deterministic when, run in two worlds with the same
    sources, it returns the same value and leaves worlds with the same
    sources. *)
Definition deterministic {A : Type} (m : IO A) : Prop :=
  ∀ w1 w2, same_sources w1 w2 →
    fst (m w1) = fst (m w2) ∧ same_sources (snd (m w1)) (snd (m w2)).

(** The frozen world after some readings and draws. *)
Definition frozen_later (now : Z) (u : Q) : World := {|
  clock_at := λ _, now;
  random_at := λ _, u;
  clock_reads := 7;
  random_draws := 3;
|}.

(** The attraction with its [details] column empty, and the snapshot
    without its temperature. *)
Definition without_details (attraction : Attraction.t) : Attraction.t := {|
  Attraction.id := Attraction.id attraction;
  Attraction.park_id := Attraction.park_id attraction;
  Attraction.type := Attraction.type attraction;
  Attraction.details := None;
  Attraction.current_status := Attraction.current_status attraction;
  Attraction.wait_time := Attraction.wait_time attraction;
|}.

Definition without_temperature (weather : Conditions) : Conditions :=
  {| temperature := None; precipitation := precipitation weather |}.

(** 4 °C and dry. *)
Definition cold : Conditions :=
  {| temperature := Some 4%Q; precipitation := Some 0%Q |}.

(** A client that answers the alternatives query with [r]. *)
Definition with_alternatives (client : Supabase)
    (r : response (list Attraction.t)) : Supabase := {|
  attraction_by_id := attraction_by_id client;
  recent_wait_times := recent_wait_times client;
  latest_weather := latest_weather client;
  open_attractions_below := λ _ _ _, r;
|}.

(** [w'] is [w] after [reads] readings of the clock and [draws] draws. *)
Definition advanced (reads draws : nat) (w w' : World) : Prop :=
  clock_at w' = clock_at w ∧ random_at w' = random_at w
  ∧ clock_reads w' = (clock_reads w + reads)%nat
  ∧ random_draws w' = (random_draws w + draws)%nat.

(** ** The weather route: impact and alerts

    [data.current] and [data.hourly] of the forecast response, with the
    properties that the route reads. *)

Module Current.
Record t := mk {
  temperature_2m : Q;
  relative_humidity_2m : Q;
  precipitation : Q;
  weather_code : Z;
  wind_speed_10m : Q;
}.
End Current.

Module Hourly.
Record t := mk {
  time : list string;
  temperature_2m : list Q;
  precipitation_probability : list Q;
  precipitation : list Q;
  wind_speed_10m : list Q;
  weather_code : list Z;
}.
End Hourly.

Record Impact := {
  attraction_closures : list string;
  crowd_impact : Q;
  recommendations : list string;
}.

Definition analyzeWeatherImpact (current : Current.t) (hourly : Hourly.t) : Impact :=
  let closures : list string := [] in
  let crowdImpact := 1.0%Q in
  let recommendations : list string := [] in
  (* High wind check *)
  let '(closures, recommendations) :=
    if Qltb 35 (Current.wind_speed_10m current) then
      (closures ++ ["Outdoor roller coasters may close due to high winds"],
       recommendations ++ ["Consider indoor attractions"])
    else (closures, recommendations) in
  (* Rain check *)
  let '(closures, recommendations, crowdImpact) :=
    if Qltb 0.5 (Current.precipitation current) then
      (closures ++ ["Water rides may be temporarily closed"],
       recommendations ++ ["Bring rain gear or head to covered areas"],
       (crowdImpact * 0.7)%Q)
    else (closures, recommendations, crowdImpact) in
  (* Temperature impact *)
  let tempF := (Current.temperature_2m current * 9 / 5 + 32)%Q in
  let '(closures, recommendations, crowdImpact) :=
    if Qltb 95 tempF then
      (closures,
       recommendations ++ ["Stay hydrated and take frequent shade breaks"],
       (crowdImpact * 0.8)%Q)
    else if Qltb tempF 40 then
      (closures ++ ["Some outdoor attractions may close due to cold"],
       recommendations,
       (crowdImpact * 0.6)%Q)
    else (closures, recommendations, crowdImpact) in
  (* Perfect weather increases crowds *)
  let '(recommendations, crowdImpact) :=
    if Qle_bool 70 tempF && Qle_bool tempF 85
       && Qeq_bool (Current.precipitation current) 0 then
      (recommendations ++ ["Perfect weather - expect higher crowds"],
       (crowdImpact * 1.2)%Q)
    else (recommendations, crowdImpact) in
  {| attraction_closures := closures;
     crowd_impact := crowdImpact;
     recommendations := recommendations |}.

Module Alert.
Record t := mk {
  type : string;
  severity : string;
  title : string;
  message : string;
  action : string;
  duration : Z;
}.
End Alert.

(** The decimal string of [Math.round(x)], as a template literal prints it. *)
Definition rounded (x : Q) : string := pretty (Qfloor (Math.round x)).

Definition generateWeatherAlerts (current : Current.t) (hourly : Hourly.t)
    : list Alert.t :=
  let alerts : list Alert.t := [] in
  (* High wind alert *)
  let alerts :=
    if Qltb 30 (Current.wind_speed_10m current) then
      alerts ++ [{|
        Alert.type := "wind_advisory";
        Alert.severity :=
          if Qltb 40 (Current.wind_speed_10m current) then "high" else "medium";
        Alert.title := "💨 High Wind Advisory";
        Alert.message :=
          "Strong winds at " +:+ rounded (Current.wind_speed_10m current)
          +:+ " km/h may affect outdoor attractions.";
        Alert.action := "Consider indoor attractions";
        Alert.duration := 60;
      |}]
    else alerts in
  (* Rain alert (check next 2 hours) *)
  let nextTwoHours := take 2 (Hourly.precipitation hourly) in
  if existsb (λ precip, Qltb 0.5 precip) nextTwoHours then
    alerts ++ [{|
      Alert.type := "heavy_rain";
      Alert.severity := "medium";
      Alert.title := "🌧️ Rain Expected";
      Alert.message := "Rain expected in the next 2 hours. Plan accordingly.";
      Alert.action := "Find covered areas";
      Alert.duration := 120;
    |}]
  else alerts.

(** The crowd badge of the weather widget, by the tests of its three
    conditional blocks. *)
Inductive crowd_badge := higher_crowds | lower_crowds | normal_crowds.

Definition crowdBadges (crowd_impact : Q) : list crowd_badge :=
  (if Qltb 1.1 crowd_impact then [higher_crowds] else [])
  ++ (if Qltb crowd_impact 0.9 then [lower_crowds] else [])
  ++ (if Qle_bool 0.9 crowd_impact && Qle_bool crowd_impact 1.1
      then [normal_crowds] else []).

(** [getComfortLevel] of the weather widget (the level of the returned
    object). *)
Definition getComfortLevel (comfortIndex : Q) : string :=
  if Qle_bool 80 comfortIndex then "Excellent"
  else if Qle_bool 60 comfortIndex then "Good"
  else if Qle_bool 40 comfortIndex then "Fair"
  else "Poor".

(** [getConfidenceColor] of the predictions widget. *)
Definition getConfidenceColor (confidence : Q) : string :=
  if Qle_bool 0.8 confidence then "text-green-600"
  else if Qle_bool 0.6 confidence then "text-yellow-600"
  else "text-red-600".

(** The copy of [calculateComfortIndex] in the utilities module. *)
Module Utils.
Definition calculateComfortIndex (temperature humidity windSpeed : Q) : Q :=
  (* Heat index calculation *)
  let heatIndex := (temperature + 0.5 * (humidity - 14))%Q in
  (* Wind chill factor *)
  let windChillFactor :=
    if Qltb 5 windSpeed then Math.max 0.9 (1 - windSpeed * 0.02)%Q else 1%Q in
  (* Comfort score (0-100) *)
  let comfort := 100%Q in
  (* Temperature comfort *)
  let tempF := (temperature * 9 / 5 + 32)%Q in
  let comfort :=
    if Qltb tempF 60 || Qltb 90 tempF
    then (comfort - Math.abs (75 - tempF) * 2)%Q else comfort in
  (* Humidity comfort *)
  let comfort :=
    if Qltb humidity 30 || Qltb 70 humidity
    then (comfort - Math.abs (50 - humidity) * 0.5)%Q else comfort in
  (* Wind factor *)
  let comfort := (comfort * windChillFactor)%Q in
  Math.max 0 (Math.min 100 (Math.round comfort)).
End Utils.

(** Sample readings: 24 °C, dry, with a wind of 38 km/h. *)
Definition windy : Current.t := {|
  Current.temperature_2m := 24;
  Current.relative_humidity_2m := 50;
  Current.precipitation := 0;
  Current.weather_code := 2;
  Current.wind_speed_10m := 38;
|}.

(** 2 °C under rain. *)
Definition sleet : Current.t := {|
  Current.temperature_2m := 2;
  Current.relative_humidity_2m := 90;
  Current.precipitation := 1.5;
  Current.weather_code := 61;
  Current.wind_speed_10m := 10;
|}.

Definition forecast (precipitation : list Q) : Hourly.t := {|
  Hourly.time := [];
  Hourly.temperature_2m := [];
  Hourly.precipitation_probability := [];
  Hourly.precipitation := precipitation;
  Hourly.wind_speed_10m := [];
  Hourly.weather_code := [];
|}.

(** ** The predictions route: the [GET] handler

    The search parameters of the request: [searchParams.get] gives [null]
    for a missing parameter; [time_windows] holds the numbers that the
    parameter, when present, splits and converts to. *)
Module PredictionsQuery.
Record t := mk {
  attraction_id : option string;
  park_id : option string;
  time_windows : option (list Z);
}.
End PredictionsQuery.

(** The JSON body and the status of the response. *)
Module PredictionsResponse.
Inductive body :=
  | success (data : list WaitTimePrediction.t)
      (timestamp : Z) (version request_id model_version : string)
      (time_windows : list Z)
  | failure (code message : string) (meta : option (Z * string)).
Record t := mk {
  status : Z;
  json : body;
}.
End PredictionsResponse.

(** A string parameter as a condition: [null] and the empty string are
    falsy. *)
Definition truthy (parameter : option string) : option string :=
  match parameter with
  | Some s => if bool_decide (s = "") then None else Some s
  | None => None
  end.

Module Predictions.

(** The response of the [catch] block. *)
Definition internal_error (uuid : string) : IO PredictionsResponse.t :=
  timestamp ← new_Date;
  mret {|
    PredictionsResponse.status := 500;
    PredictionsResponse.json :=
      PredictionsResponse.failure "INTERNAL_ERROR" "An unexpected error occurred"
        (Some (timestamp, uuid));
  |}.

(** The final response, with the predictions gathered. *)
Definition respond (uuid : string) (predictions : list WaitTimePrediction.t)
    (timeWindows : list Z) : IO PredictionsResponse.t :=
  timestamp ← new_Date;
  mret {|
    PredictionsResponse.status := 200;
    PredictionsResponse.json :=
      PredictionsResponse.success predictions timestamp "1.0.0" uuid "1.2.3"
        timeWindows;
  |}.

(** [GET].  [open_attractions_of park] is the query
    [from('attractions').select('id').eq('park_id', park)
       .eq('current_status', 'open')]
    and [uuid] the identifier that [crypto.randomUUID()] returns for the
    response.  The calls that [Promise.all] runs for a park interleave
    their readings of the clock and their draws: [observed i] is the world
    as the call for the [i]-th attraction observes it, whatever the
    interleaving. *)
Definition GET (tz : Z → Z) (supabase : Supabase)
    (open_attractions_of : string → response (list string)) (uuid : string)
    (observed : nat → World) (request : PredictionsQuery.t)
    : IO PredictionsResponse.t :=
  let attractionId := truthy (PredictionsQuery.attraction_id request) in
  let parkId := truthy (PredictionsQuery.park_id request) in
  let timeWindows :=
    default [15; 30; 60; 120] (PredictionsQuery.time_windows request) in
  match attractionId, parkId with
  | None, None =>
      mret {|
        PredictionsResponse.status := 400;
        PredictionsResponse.json :=
          PredictionsResponse.failure "VALIDATION_ERROR"
            "Either attraction_id or park_id must be provided" None;
      |}
  | Some attractionId, _ =>
      (* Get prediction for specific attraction *)
      prediction ← generateWaitTimePrediction tz supabase attractionId timeWindows;
      let predictions :=
        match prediction with Some p => [p] | None => [] end in
      respond uuid predictions timeWindows
  | None, Some parkId =>
      (* Get predictions for all attractions in park *)
      match open_attractions_of parkId with
      | Resolved (Some attractions) None =>
          (* Generate predictions for each attraction *)
          let allPredictions :=
            imap (λ i id,
                    fst (generateWaitTimePrediction tz supabase id timeWindows
                           (observed i)))
              attractions in
          let predictions := omap (λ p, p) allPredictions in
          respond uuid predictions timeWindows
      | Resolved _ _ => internal_error uuid
      | Rejected => internal_error uuid
      end
  end.

End Predictions.

(** The open attractions of a park, over a database. *)
Definition open_attractions_in (db : Database) (park : string)
    : response (list string) :=
  Resolved
    (Some (Attraction.id <$>
             filter (λ a, Attraction.park_id a = park
                          ∧ Attraction.current_status a = open)
               (attractions db)))
    None.

(** Sample requests: for an attraction, for a park, and with nothing but
    empty parameters. *)
Definition for_attraction (id : string) : PredictionsQuery.t := {|
  PredictionsQuery.attraction_id := Some id;
  PredictionsQuery.park_id := None;
  PredictionsQuery.time_windows := None;
|}.

Definition for_park (park : string) : PredictionsQuery.t := {|
  PredictionsQuery.attraction_id := None;
  PredictionsQuery.park_id := Some park;
  PredictionsQuery.time_windows := None;
|}.

Definition for_nothing : PredictionsQuery.t := {|
  PredictionsQuery.attraction_id := Some "";
  PredictionsQuery.park_id := None;
  PredictionsQuery.time_windows := Some [15];
|}.

(** Every call of a batch observing the same frozen world. *)
Definition all_frozen (now : Z) (u : Q) : nat → World := λ _, frozen now u.

(** ** The weather route: [fetchWeatherFromAPI] and the [GET] handler *)

Module Daily.
Record t := mk {
  time : list string;
  temperature_2m_max : list Q;
  temperature_2m_min : list Q;
  precipitation_sum : list Q;
  wind_speed_10m_max : list Q;
  weather_code : list Z;
}.
End Daily.

(** The body of a forecast response. *)
Module OpenMeteo.
Record t := mk {
  current : Current.t;
  hourly : Hourly.t;
  daily : Daily.t;
}.
End OpenMeteo.

(** What awaiting [fetch(url)] and then [response.json()] gives: the
    request rejects, or resolves with [response.ok] and with a body, which
    is missing when it cannot be read. *)
Inductive fetched :=
  | fetch_rejected
  | fetch_resolved (ok : bool) (body : option OpenMeteo.t).

(** The entries of the weather data that the route builds.  An array read
    past its end gives [undefined]. *)
Module CurrentConditions.
Record t := mk {
  temperature : Q;
  humidity : Q;
  precipitation : Q;
  wind_speed : Q;
  weather_code : Z;
  comfort_index : Q;
  uv_index : Q;
}.
End CurrentConditions.

Module HourEntry.
Record t := mk {
  time : string;
  temperature : option Q;
  precipitation_probability : option Q;
  precipitation : option Q;
  wind_speed : option Q;
  weather_code : option Z;
}.
End HourEntry.

Module DayEntry.
Record t := mk {
  date : string;
  temperature_max : option Q;
  temperature_min : option Q;
  precipitation_sum : option Q;
  wind_speed_max : option Q;
  weather_code : option Z;
}.
End DayEntry.

Module Forecast.
Record t := mk {
  hourly : list HourEntry.t;
  daily : list DayEntry.t;
}.
End Forecast.

Module Weather.

(** The weather data of a response. *)
Record data := mk_data {
  park_id : option string;
  current : CurrentConditions.t;
  forecast : Forecast.t;
  alerts : list Alert.t;
  impact : Impact;
  last_updated : Z;
}.

(** A row of [weather_data], with the columns that the route writes, and
    the row that it inserts. *)
Record row := mk_row {
  row_park_id : string;
  timestamp : Z;
  current_conditions : CurrentConditions.t;
  row_forecast : Forecast.t;
  row_alerts : list Alert.t;
  row_impact : Impact;
}.

Record insertion := mk_insertion {
  new_park_id : string;
  new_current_conditions : CurrentConditions.t;
  new_forecast : Forecast.t;
  new_alerts : list Alert.t;
  new_impact : Impact;
}.

(** [parks.location]: a point whose coordinates may be missing. *)
Record point := mk_point { x : option Q; y : option Q }.
Record park := mk_park { location : option point }.

(** The collaborators of the handler: the two queries and the insertion
    of the Supabase client, the forecast service by latitude and
    longitude, and [parseFloat], which gives no number ([NaN]) on a string
    that does not start with one. *)
Record backend := mk_backend {
  (* from('parks').select('location').eq('id', parkId).single() *)
  park_location : string → response park;
  (* from('weather_data').select('*').eq('park_id', parkId)
       .order('timestamp', desc).limit(1).single() *)
  latest_row : string → response row;
  (* from('weather_data').insert(row) *)
  insert : insertion → response unit;
  (* fetch of the forecast at the coordinates *)
  forecast_at : Q → Q → fetched;
  parseFloat : string → option Q;
}.

(** The calls that leave the server. *)
Inductive event :=
  | requested_forecast (lat lng : Q)
  | requested_insert (new : insertion).

(** The search parameters of the request. *)
Record query := mk_query {
  q_park_id : option string;
  lat : option string;
  lng : option string;
}.

Inductive body :=
  | success (weatherData : data) (timestamp : Z) (version request_id : string)
  | failure (code message : string) (meta : option (Z * string)).

Record reply := mk_reply {
  status : Z;
  json : body;
}.

Definition fetchWeatherFromAPI (service : backend) (lat lng : Q)
    (parkId : option string) : IO (option data * list event) :=
  match forecast_at service lat lng with
  | fetch_resolved true (Some body) =>
      let current := OpenMeteo.current body in
      let hourly := OpenMeteo.hourly body in
      let daily := OpenMeteo.daily body in
      (* Calculate comfort index *)
      let comfortIndex :=
        calculateComfortIndex (Current.temperature_2m current)
          (Current.relative_humidity_2m current)
          (Current.wind_speed_10m current) in
      (* Analyze weather impact *)
      let impact := analyzeWeatherImpact current hourly in
      last_updated ← new_Date;
      mret (Some {|
        park_id := parkId;
        current := {|
          CurrentConditions.temperature := Current.temperature_2m current;
          CurrentConditions.humidity := Current.relative_humidity_2m current;
          CurrentConditions.precipitation := Current.precipitation current;
          CurrentConditions.wind_speed := Current.wind_speed_10m current;
          CurrentConditions.weather_code := Current.weather_code current;
          CurrentConditions.comfort_index := comfortIndex;
          CurrentConditions.uv_index := 5;
        |};
        forecast := {|
          Forecast.hourly :=
            imap (λ index time, {|
                HourEntry.time := time;
                HourEntry.temperature := Hourly.temperature_2m hourly !! index;
                HourEntry.precipitation_probability :=
                  Hourly.precipitation_probability hourly !! index;
                HourEntry.precipitation := Hourly.precipitation hourly !! index;
                HourEntry.wind_speed := Hourly.wind_speed_10m hourly !! index;
                HourEntry.weather_code := Hourly.weather_code hourly !! index;
              |})
              (take 24 (Hourly.time hourly));
          Forecast.daily :=
            imap (λ index date, {|
                DayEntry.date := date;
                DayEntry.temperature_max := Daily.temperature_2m_max daily !! index;
                DayEntry.temperature_min := Daily.temperature_2m_min daily !! index;
                DayEntry.precipitation_sum := Daily.precipitation_sum daily !! index;
                DayEntry.wind_speed_max := Daily.wind_speed_10m_max daily !! index;
                DayEntry.weather_code := Daily.weather_code daily !! index;
              |})
              (take 7 (Daily.time daily));
        |};
        alerts := generateWeatherAlerts current hourly;
        impact := impact;
        last_updated := last_updated;
      |}, [requested_forecast lat lng])
  | fetch_resolved _ _ => mret (None, [requested_forecast lat lng])
  | fetch_rejected => mret (None, [requested_forecast lat lng])
  end.

(** The response of the [catch] block. *)
Definition internal_error (uuid : string) (events : list event)
    : IO (reply * list event) :=
  timestamp ← new_Date;
  mret ({| status := 500;
           json := failure "INTERNAL_ERROR" "An unexpected error occurred"
                     (Some (timestamp, uuid)) |},
        events).

(** The end of the handler, once [weatherData] is settled. *)
Definition respond (uuid : string) (weatherData : option data)
    (events : list event) : IO (reply * list event) :=
  match weatherData with
  | None =>
      mret ({| status := 503;
               json := failure "WEATHER_SERVICE_ERROR"
                         "Failed to fetch weather data" None |},
            events)
  | Some weatherData =>
      timestamp ← new_Date;
      mret ({| status := 200;
               json := success weatherData timestamp "1.0.0" uuid |},
            events)
  end.

(** [x || d] on a coordinate. *)
Definition coordinate (location : option point) (axis : point → option Q)
    (d : Q) : Q :=
  or_else (p ← location; axis p) d.

Definition GET (service : backend) (uuid : string) (request : query)
    : IO (reply * list event) :=
  match truthy (q_park_id request) with
  | Some parkId =>
      (* First get park location *)
      match park_location service parkId with
      | Rejected => internal_error uuid []
      | Resolved park (Some parkError) =>
          mret ({| status := 404;
                   json := failure "PARK_NOT_FOUND"
                             ("Park with ID '" +:+ parkId +:+ "' not found")
                             None |},
                [])
      | Resolved park None =>
          (* Get latest weather data from database *)
          match latest_row service parkId with
          | Rejected => internal_error uuid []
          | Resolved dbWeather _ =>
              (* Check if weather data is recent (less than 10 minutes old) *)
              isRecent ←
                match dbWeather with
                | Some dbWeather =>
                    now ← new_Date;
                    mret (bool_decide (now - timestamp dbWeather < 10 * 60 * 1000))
                | None => mret false
                end;
              match dbWeather, isRecent with
              | Some dbWeather, true =>
                  respond uuid
                    (Some {| park_id := Some parkId;
                             current := current_conditions dbWeather;
                             forecast := row_forecast dbWeather;
                             alerts := row_alerts dbWeather;
                             impact := row_impact dbWeather;
                             last_updated := timestamp dbWeather |})
                    []
              | _, _ =>
                  (* Fetch fresh weather data from external API *)
                  match park with
                  | None => internal_error uuid []
                  | Some park =>
                      let parkLat := coordinate (location park) x 28.3852 in
                      let parkLng := coordinate (location park) y (-81.5812) in
                      '(weatherData, events) ←
                        fetchWeatherFromAPI service parkLat parkLng (Some parkId);
                      (* Save to database *)
                      match weatherData with
                      | Some fresh =>
                          let new := {|
                            new_park_id := parkId;
                            new_current_conditions := current fresh;
                            new_forecast := forecast fresh;
                            new_alerts := alerts fresh;
                            new_impact := impact fresh;
                          |} in
                          match insert service new with
                          | Rejected =>
                              internal_error uuid (events ++ [requested_insert new])
                          | Resolved _ _ =>
                              respond uuid weatherData
                                (events ++ [requested_insert new])
                          end
                      | None => respond uuid weatherData events
                      end
                  end
              end
          end
      end
  | None =>
      match truthy (lat request), truthy (lng request) with
      | Some lat, Some lng =>
          (* If lat/lng provided, fetch weather for those coordinates *)
          match parseFloat service lat, parseFloat service lng with
          | Some latitude, Some longitude =>
              '(weatherData, events) ←
                fetchWeatherFromAPI service latitude longitude None;
              respond uuid weatherData events
          | _, _ =>
              mret ({| status := 400;
                       json := failure "VALIDATION_ERROR"
                                 "Invalid latitude or longitude" None |},
                    [])
          end
      | _, _ =>
          mret ({| status := 400;
                   json := failure "VALIDATION_ERROR"
                             "Either park_id or lat/lng coordinates must be provided"
                             None |},
                [])
      end
  end.

End Weather.

(** Sample collaborators: a forecast body, a service that always answers
    with it, a park at the default location and a stored row. *)
Definition calm_forecast : OpenMeteo.t := {|
  OpenMeteo.current := windy;
  OpenMeteo.hourly := {|
    Hourly.time := ["00:00"; "01:00"; "02:00"];
    Hourly.temperature_2m := [24; 23]%Q;
    Hourly.precipitation_probability := [];
    Hourly.precipitation := [0; 0.2; 4]%Q;
    Hourly.wind_speed_10m := [38; 30; 12]%Q;
    Hourly.weather_code := [2; 2; 61];
  |};
  OpenMeteo.daily := {|
    Daily.time := ["1970-01-01"];
    Daily.temperature_2m_max := [26]%Q;
    Daily.temperature_2m_min := [18]%Q;
    Daily.precipitation_sum := [4]%Q;
    Daily.wind_speed_10m_max := [40]%Q;
    Daily.weather_code := [61];
  |};
|}.

Definition stored_row (park : string) (timestamp : Z) : Weather.row := {|
  Weather.row_park_id := park;
  Weather.timestamp := timestamp;
  Weather.current_conditions := {|
    CurrentConditions.temperature := 24;
    CurrentConditions.humidity := 50;
    CurrentConditions.precipitation := 0;
    CurrentConditions.wind_speed := 3;
    CurrentConditions.weather_code := 1;
    CurrentConditions.comfort_index := 100;
    CurrentConditions.uv_index := 5;
  |};
  Weather.row_forecast := {| Forecast.hourly := []; Forecast.daily := [] |};
  Weather.row_alerts := [];
  Weather.row_impact := analyzeWeatherImpact windy (forecast []);
|}.

(** A service that knows one park, without a location, whose latest row
    was written at [written], and whose forecast requests resolve with
    [calm_forecast]. *)
Definition one_park_service (written : Z) : Weather.backend := {|
  Weather.park_location id :=
    if bool_decide (id = "magic-kingdom")
    then Resolved (Some {| Weather.location := None |}) None
    else Resolved None (Some "PGRST116");
  Weather.latest_row id := Resolved (Some (stored_row id written)) None;
  Weather.insert _ := Resolved None None;
  Weather.forecast_at _ _ := fetch_resolved true (Some calm_forecast);
  Weather.parseFloat _ := None;
|}.

Definition weather_of_park (park : string) : Weather.query := {|
  Weather.q_park_id := Some park;
  Weather.lat := None;
  Weather.lng := None;
|}.

(** A service whose [parseFloat] reads two sample strings. *)
Definition coordinates_service : Weather.backend := {|
  Weather.park_location _ := Rejected;
  Weather.latest_row _ := Rejected;
  Weather.insert _ := Rejected;
  Weather.forecast_at _ _ := fetch_resolved true (Some calm_forecast);
  Weather.parseFloat s :=
    if bool_decide (s = "28.4") then Some 28.4%Q
    else if bool_decide (s = "-81.6") then Some (-81.6)%Q
    else None;
|}.

Definition weather_at (lat lng : string) : Weather.query := {|
  Weather.q_park_id := None;
  Weather.lat := Some lat;
  Weather.lng := Some lng;
|}.

(** A service like [one_park_service] whose park lies at latitude 0 and
    longitude 12.5, and has no stored row. *)
Definition equator_service : Weather.backend := {|
  Weather.park_location _ :=
    Resolved
      (Some {| Weather.location :=
                 Some {| Weather.x := Some 0%Q; Weather.y := Some 12.5%Q |} |})
      None;
  Weather.latest_row _ := Resolved None (Some "PGRST116");
  Weather.insert _ := Resolved None None;
  Weather.forecast_at _ _ := fetch_rejected;
  Weather.parseFloat _ := None;
|}.

(** The replies that the weather handler can give: the status goes with
    the body, and with its code when it is a failure. *)
Definition well_formed (uuid : string) (reply : Weather.reply) : Prop :=
  match Weather.json reply with
  | Weather.success _ _ version request_id =>
      Weather.status reply = 200 ∧ version = "1.0.0" ∧ request_id = uuid
  | Weather.failure code _ meta =>
      (Weather.status reply = 400 ∧ code = "VALIDATION_ERROR" ∧ meta = None)
      ∨ (Weather.status reply = 404 ∧ code = "PARK_NOT_FOUND" ∧ meta = None)
      ∨ (Weather.status reply = 500 ∧ code = "INTERNAL_ERROR"
         ∧ ∃ timestamp, meta = Some (timestamp, uuid))
      ∨ (Weather.status reply = 503 ∧ code = "WEATHER_SERVICE_ERROR"
         ∧ meta = None)
  end.

(** * Properties *)

(** ** Reflection of the comparisons *)

Lemma Qltb_lt a b : Qltb a b = true <-> (a < b)%Q.
Proof.
  unfold Qltb. rewrite negb_true_iff. split.
  - intros H. apply Qnot_le_lt. intros Hle.
    apply Qle_bool_iff in Hle. congruence.
  - intros H. destruct (Qle_bool b a) eqn:E; [|reflexivity].
    apply Qle_bool_iff in E. exfalso. exact (Qlt_not_le _ _ H E).
Qed.

Lemma Qltb_ge a b : Qltb a b = false <-> (b <= a)%Q.
Proof.
  unfold Qltb. rewrite negb_false_iff. apply Qle_bool_iff.
Qed.

Lemma Qle_bool_gt a b : Qle_bool a b = false <-> (b < a)%Q.
Proof.
  rewrite <- Qltb_lt. unfold Qltb. now rewrite negb_true_iff.
Qed.

(** Case analysis on a rational comparison, leaving the order fact in the
    context for [lra]. *)
Ltac qcase b :=
  let E := fresh "E" in
  destruct b eqn:E;
  [ first [ apply Qltb_lt in E | apply Qle_bool_iff in E ]
  | first [ apply Qltb_ge in E | apply Qle_bool_gt in E ] ].

Ltac qcases :=
  repeat match goal with
  | |- context [Qltb ?a ?b] => qcase (Qltb a b)
  | |- context [Qle_bool ?a ?b] => qcase (Qle_bool a b)
  end.

(** ** Rounding and clamping *)

Lemma Qle_bool_inject_Z a b : Qle_bool (inject_Z a) (inject_Z b) = (a <=? b).
Proof. unfold Qle_bool, inject_Z. simpl. now rewrite !Z.mul_1_r. Qed.

Lemma max_inject_Z a b : Math.max (inject_Z a) (inject_Z b) = inject_Z (Z.max a b).
Proof.
  unfold Math.max. rewrite Qle_bool_inject_Z.
  destruct (Z.leb_spec a b); f_equal; lia.
Qed.

Lemma min_inject_Z a b : Math.min (inject_Z a) (inject_Z b) = inject_Z (Z.min a b).
Proof.
  unfold Math.min. rewrite Qle_bool_inject_Z.
  destruct (Z.leb_spec a b); f_equal; lia.
Qed.

Lemma Qfloor_half a : Qfloor (inject_Z a + 0.5) = a.
Proof.
  unfold Qfloor, Qplus, inject_Z. simpl.
  change (Z.pos (1 * 10)) with 10.
  replace (a * 10 + 5 * 1) with (5 + a * 10) by lia.
  rewrite Z.div_add by lia. reflexivity.
Qed.

Lemma round_inject_Z a : Math.round (inject_Z a) = inject_Z a.
Proof. unfold Math.round. now rewrite Qfloor_half. Qed.

Lemma round_le_bound x b : (x <= inject_Z b)%Q → Qfloor (x + 0.5) ≤ b.
Proof.
  intros H. rewrite <- (Qfloor_half b). apply Qfloor_resp_le. lra.
Qed.

Lemma round_ge_bound x a : (inject_Z a <= x)%Q → a ≤ Qfloor (x + 0.5).
Proof.
  intros H. rewrite <- (Qfloor_half a) at 1. apply Qfloor_resp_le. lra.
Qed.

(** Rounding and then clamping between two integers is clamping and then
    rounding. *)
Lemma round_then_clamp a b c c' :
  a ≤ b → (c == c')%Q →
  Math.max (inject_Z a) (Math.min (inject_Z b) (Math.round c))
  = Math.round (clamp (inject_Z a) (inject_Z b) c').
Proof.
  intros Hab Hc. unfold Math.round at 1.
  rewrite min_inject_Z, max_inject_Z. unfold clamp.
  qcase (Qltb c' (inject_Z a)).
  - rewrite round_inject_Z. f_equal.
    assert (Qfloor (c + 0.5) ≤ a) by (apply round_le_bound; lra). lia.
  - qcase (Qltb (inject_Z b) c').
    + rewrite round_inject_Z. f_equal.
      assert (b ≤ Qfloor (c + 0.5)) by (apply round_ge_bound; lra). lia.
    + unfold Math.round. f_equal.
      assert (a ≤ Qfloor (c + 0.5)) by (apply round_ge_bound; lra).
      assert (Qfloor (c + 0.5) ≤ b) by (apply round_le_bound; lra).
      rewrite (Qfloor_comp (c' + 0.5) (c + 0.5)) by lra. lia.
Qed.

Lemma max_comp a b b' : (b == b')%Q → (Math.max a b == Math.max a b')%Q.
Proof.
  intros H. unfold Math.max. rewrite (Qleb_comp a a (Qeq_refl a) b b' H).
  now destruct (Qle_bool a b').
Qed.

(** ** The comfort index *)

Lemma outside_orb lo hi x : Qltb x lo || Qltb hi x = outside lo hi x.
Proof. unfold outside, Qltb. now destruct (Qle_bool lo x), (Qle_bool x hi). Qed.

(** C9. [calculateComfortIndex] computes the comfort index of the
    specification: from 100, less [2 × |75 − tempF|] outside [[60,90]] °F,
    less [0.5 × |50 − humidity|] outside [[30,70]] %, times
    [max(0.9, 1 − 0.02 × windSpeed)] above 5 of wind, clamped to [[0,100]]
    and rounded.  The result is an integer of [[0,100]]; it is 100 at
    75 °F, 50 % and no wind, and smaller at 95 °F. *)
Theorem comfort_index_as_specified :
  (∀ temperature humidity windSpeed,
     calculateComfortIndex temperature humidity windSpeed
     = comfortIndex_spec temperature humidity windSpeed
     ∧ ∃ n : Z, calculateComfortIndex temperature humidity windSpeed = inject_Z n
                ∧ 0 ≤ n ≤ 100)
  ∧ calculateComfortIndex (celsius_of_fahrenheit 75) 50 0 = 100%Q
  ∧ (calculateComfortIndex (celsius_of_fahrenheit 95) 50 0
     < calculateComfortIndex (celsius_of_fahrenheit 75) 50 0)%Q.
Proof.
  split; [|split; [reflexivity | vm_compute; reflexivity]].
  intros t h w. split.
  - unfold calculateComfortIndex, comfortIndex_spec.
    rewrite !outside_orb.
    cbv zeta. apply (round_then_clamp 0 100); [lia|].
    pose proof (max_comp 0.9 (1 - w * 0.02) (1 - 0.02 * w)) as Hmax.
    destruct (outside _ _ (t * 9 / 5 + 32)), (outside _ _ h), (Qltb 5 w);
      try rewrite <- Hmax by ring; ring.
  - unfold calculateComfortIndex, Math.round.
    cbv zeta. rewrite (min_inject_Z 100), (max_inject_Z 0).
    eexists. split; [reflexivity | lia].
Qed.

(** ** [predictWaitTime]: the estimate as a function of the clock reading
    and of the random draw *)

Lemma predictWaitTime_run tz attractionId currentWait minutesAhead history
    weather attraction (w : World) :
  let futureTime := clock_at w (clock_reads w) + minutesAhead * 60 * 1000 in
  let pc := preJitter tz (getHours tz futureTime) (getDay tz futureTime)
              currentWait history weather attraction in
  fst (predictWaitTime tz attractionId currentWait minutesAhead history
         weather attraction w)
  = reasonableBounds (naturalVariation (random_at w (random_draws w)) (fst pc))
      (snd pc).
Proof.
  cbv zeta. unfold predictWaitTime, mbind, IO_bind, mret, IO_ret, new_Date,
    Math_random. simpl.
  now destruct (preJitter _ _ _ _ _ _ _).
Qed.

Lemma reasonableBounds_wait p c :
  ∃ n : Z, predicted_wait (reasonableBounds p c) = inject_Z n ∧ 0 ≤ n ≤ 180.
Proof.
  unfold reasonableBounds, Math.round. simpl.
  rewrite (min_inject_Z 180), (max_inject_Z 0).
  eexists. split; [reflexivity | lia].
Qed.

Lemma confidence_clamped c :
  (0.3 <= Math.max 0.3 (Math.min 1.0 c) <= 1)%Q.
Proof. unfold Math.max, Math.min. qcases; lra. Qed.

Lemma round_percent c :
  (0.3 <= c <= 1)%Q → (0.3 <= Math.round (c * 100) / 100 <= 1)%Q.
Proof.
  intros [Hlo Hhi]. unfold Math.round.
  assert (30 ≤ Qfloor (c * 100 + 0.5)) as H1
    by (apply round_ge_bound; change (inject_Z 30) with 30%Q; lra).
  assert (Qfloor (c * 100 + 0.5) ≤ 100) as H2
    by (apply round_le_bound; change (inject_Z 100) with 100%Q; lra).
  rewrite Zle_Qle in H1, H2.
  change (inject_Z 30) with 30%Q in H1. change (inject_Z 100) with 100%Q in H2.
  split; [apply Qle_shift_div_l | apply Qle_shift_div_r];
    first [reflexivity | lra].
Qed.

Lemma reasonableBounds_confidence p c :
  (0.3 <= confidence (reasonableBounds p c) <= 1)%Q.
Proof.
  unfold reasonableBounds. simpl. apply round_percent, confidence_clamped.
Qed.

(** C3. Whatever the inputs, the clock reading and the random draw, the
    estimate of [predictWaitTime] has a predicted wait that is an integer
    of [[0,180]] and a confidence in [[0.3,1.0]]. *)
Theorem estimate_within_bounds tz attractionId currentWait minutesAhead
    history weather attraction (w : World) :
  let r := fst (predictWaitTime tz attractionId currentWait minutesAhead
                  history weather attraction w) in
  (∃ n : Z, predicted_wait r = inject_Z n ∧ 0 ≤ n ≤ 180)
  ∧ (0.3 <= confidence r <= 1)%Q.
Proof.
  cbv zeta. rewrite predictWaitTime_run. cbv zeta.
  split; [apply reasonableBounds_wait | apply reasonableBounds_confidence].
Qed.

(** ** Historical pattern matching *)

Lemma similarTimes_spec tz hour history h :
  h ∈ similarTimes tz hour history
  ↔ h ∈ history ∧ Z.abs (getHours tz (WaitTime.timestamp h) - hour) ≤ 1.
Proof. unfold similarTimes. rewrite list_elem_of_filter. tauto. Qed.

Lemma length_pos {A} (l : list A) : (0 <? length l)%nat = true ↔ l ≠ [].
Proof. destruct l; simpl; split; done. Qed.

Lemma length_zero {A} (l : list A) : (0 <? length l)%nat = false ↔ l = [].
Proof. destruct l; simpl; split; done. Qed.

(** C10. An observation is selected exactly when the absolute difference
    of the raw hour numbers is at most 1, with no wrap at midnight: an
    observation of hour 23 is not selected for the projected hour 0, nor
    one of hour 0 for the projected hour 23. *)
Theorem hour_match_does_not_wrap tz (history : list WaitTime.t)
    (h : WaitTime.t) (hour : Z) :
  (getHours tz (WaitTime.timestamp h) = 23 ∧ hour = 0)
  ∨ (getHours tz (WaitTime.timestamp h) = 0 ∧ hour = 23) →
  h ∉ similarTimes tz hour history.
Proof.
  intros Hh Hin. apply similarTimes_spec in Hin as [_ Habs].
  destruct Hh as [[Hh ->] | [Hh ->]]; rewrite Hh in Habs; lia.
Qed.

(** The observation of 23:00 is not matched with the projected hour 0. *)
Lemma hour_match_does_not_wrap_witness :
  late_observation ∈ [late_observation; night_observation]
  ∧ late_observation ∉ similarTimes utc 0 [late_observation; night_observation].
Proof.
  split; [apply list_elem_of_here|].
  apply hour_match_does_not_wrap. left. split; reflexivity.
Defined.

Lemma similarTimes_nil tz hour : similarTimes tz hour [] = [].
Proof. reflexivity. Qed.

(** C4, as stated, fails on an empty history: no observation is within one
    hour of the projected hour, and yet the confidence is left as it was
    instead of being multiplied by 0.9. *)
Lemma empty_history_keeps_confidence :
  similarTimes utc 13 [] = []
  ∧ snd (historicalPatternMatching utc 13 [] (57.2, 0.8)%Q) = 0.8%Q
  ∧ ¬ (snd (historicalPatternMatching utc 13 [] (57.2, 0.8)%Q) == 0.8 * 0.9)%Q.
Proof.
  split; [reflexivity|]. split; [reflexivity|].
  simpl. intros H. vm_compute in H. discriminate.
Qed.

(** C4, amended. With [similar] the observations of the history whose
    hour is within one hour of the projected hour:
    - if [similar] is not empty, the base becomes
      [0.7·base + 0.3·(mean wait of similar)] and the confidence is
      multiplied by 1.1;
    - if the history is not empty and [similar] is, the base is kept and
      the confidence is multiplied by 0.9;
    - if the history is empty, the base and the confidence are both kept. *)
Theorem historical_blending tz hour (history : list WaitTime.t) (base conf : Q) :
  let similar := similarTimes tz hour history in
  let r := historicalPatternMatching tz hour history (base, conf) in
  (similar ≠ [] →
     (fst r == 0.7 * base + 0.3 * avgHistoricalWait similar)%Q
     ∧ (snd r == conf * 1.1)%Q)
  ∧ (history ≠ [] → similar = [] → fst r = base ∧ (snd r == conf * 0.9)%Q)
  ∧ (history = [] → r = (base, conf)).
Proof.
  cbv zeta. unfold historicalPatternMatching. repeat split.
  - assert (history ≠ []) as Hh by (intros ->; auto).
    apply length_pos in Hh, H. rewrite Hh, H. simpl. ring.
  - assert (history ≠ []) as Hh by (intros ->; auto).
    apply length_pos in Hh, H. rewrite Hh, H. simpl. ring.
  - apply length_pos in H. now rewrite H, H0.
  - apply length_pos in H. rewrite H, H0. simpl. ring.
  - intros ->. reflexivity.
Qed.

(** The three cases on the sample observations: a match at 13:30, a
    history without a match, and the empty history. *)
Lemma historical_blending_witness :
  ((fst (historicalPatternMatching utc 13 [midday_observation] (57.2, 0.8)%Q)
    == 0.7 * 57.2 + 0.3 * avgHistoricalWait [midday_observation])%Q
   ∧ (snd (historicalPatternMatching utc 13 [midday_observation] (57.2, 0.8)%Q)
      == 0.8 * 1.1)%Q)
  ∧ (fst (historicalPatternMatching utc 13 [night_observation] (57.2, 0.8)%Q)
     = 57.2%Q
     ∧ (snd (historicalPatternMatching utc 13 [night_observation] (57.2, 0.8)%Q)
        == 0.8 * 0.9)%Q)
  ∧ historicalPatternMatching utc 13 [] (57.2, 0.8)%Q = (57.2, 0.8)%Q.
Proof.
  split; [|split].
  - apply (proj1 (historical_blending utc 13 [midday_observation] 57.2 0.8)).
    vm_compute. discriminate.
  - apply (proj1 (proj2 (historical_blending utc 13 [night_observation] 57.2 0.8))).
    + discriminate.
    + reflexivity.
  - apply (proj2 (proj2 (historical_blending utc 13 [] 57.2 0.8))).
    reflexivity.
Defined.

(** ** The end-to-end example *)

Lemma Qfloor_lt_bound x b : (x < inject_Z (b + 1))%Q → Qfloor x ≤ b.
Proof.
  intros H. pose proof (Qfloor_le x) as Hle.
  assert (inject_Z (Qfloor x) < inject_Z (b + 1))%Q as Hlt by lra.
  rewrite <- Zlt_Qlt in Hlt. lia.
Qed.

Lemma adjustments_peak_weekday_thrill dayOfWeek currentWait attraction :
  dayOfWeek ≠ 0 → dayOfWeek ≠ 6 →
  details_thrill_level attraction = Some 5 →
  adjustments 13 dayOfWeek currentWait None attraction
  = ((currentWait * 1.3 * 1.1)%Q, 0.8%Q).
Proof.
  intros H0 H6 Ht. unfold adjustments. rewrite Ht. simpl.
  destruct (Z.eqb_spec dayOfWeek 0); [contradiction|].
  destruct (Z.eqb_spec dayOfWeek 6); [contradiction|]. reflexivity.
Qed.

(** C5, as stated, fails on an empty history, which has no observation
    within one hour of the projected hour: the reported confidence is
    0.8, not 0.72. *)
Lemma coaster_empty_history_confidence :
  getHours utc (thursday_1245 + 15 * 60 * 1000) = 13
  ∧ getDay utc (thursday_1245 + 15 * 60 * 1000) = 4
  ∧ similarTimes utc 13 [] = []
  ∧ confidence (fst (predictWaitTime utc "space-coaster" 40 15 [] None coaster
                       (frozen thursday_1245 0.5))) = 0.80%Q
  ∧ ¬ (confidence (fst (predictWaitTime utc "space-coaster" 40 15 [] None coaster
                          (frozen thursday_1245 0.5))) == 0.72)%Q.
Proof.
  repeat split; try reflexivity.
  intros H. vm_compute in H. discriminate.
Qed.

(** C5, amended. Current wait 40, thrill level 5, no weather, window 15,
    projected hour 13 on a weekday, no observation within one hour of the
    projected hour: the base after the multipliers is [40 × 1.3 × 1.1 =
    57.2]; the reported confidence is 0.72 when the history is not empty
    and 0.8 when it is empty; and for every draw in [[0,1)] the predicted
    wait is an integer between 54 and 60. *)
Theorem coaster_example tz attractionId (history : list WaitTime.t)
    (attraction : Attraction.t) (w : World) :
  let futureTime := clock_at w (clock_reads w) + 15 * 60 * 1000 in
  getHours tz futureTime = 13 →
  getDay tz futureTime ≠ 0 → getDay tz futureTime ≠ 6 →
  details_thrill_level attraction = Some 5 →
  similarTimes tz 13 history = [] →
  (0 <= random_at w (random_draws w) < 1)%Q →
  let r := fst (predictWaitTime tz attractionId 40 15 history None attraction w) in
  (fst (adjustments 13 (getDay tz futureTime) 40 None attraction) == 57.2)%Q
  ∧ (confidence r == match history with [] => 0.8 | _ :: _ => 0.72 end)%Q
  ∧ ∃ n : Z, predicted_wait r = inject_Z n ∧ 54 ≤ n ≤ 60.
Proof.
  cbv zeta. intros Hhour H0 H6 Hthrill Hsim [HU0 HU1].
  rewrite predictWaitTime_run. cbv zeta. rewrite Hhour. unfold preJitter.
  rewrite (adjustments_peak_weekday_thrill _ _ _ H0 H6 Hthrill).
  split; [reflexivity|].
  set (U := random_at w (random_draws w)) in *.
  assert (∃ c, historicalPatternMatching tz 13 history ((40 * 1.3 * 1.1)%Q, 0.8%Q)
               = ((40 * 1.3 * 1.1)%Q, c)
               ∧ c = match history with [] => 0.8%Q | _ :: _ => (0.8 * 0.9)%Q end)
    as (c & -> & Hc).
  { unfold historicalPatternMatching. destruct history as [|h t].
    - eexists. split; reflexivity.
    - change (0 <? length (h :: t))%nat with true. cbv iota.
      rewrite Hsim. eexists. split; reflexivity. }
  split.
  - rewrite Hc. destruct history; reflexivity.
  - simpl fst. unfold reasonableBounds, predicted_wait, Math.round.
    rewrite (min_inject_Z 180), (max_inject_Z 0). eexists. split; [reflexivity|].
    unfold naturalVariation. cbv zeta.
    assert (54 ≤ Qfloor (40 * 1.3 * 1.1 * (1 + (U - 0.5) * 0.1) + 0.5)).
    { apply round_ge_bound. change (inject_Z 54) with 54%Q. lra. }
    assert (Qfloor (40 * 1.3 * 1.1 * (1 + (U - 0.5) * 0.1) + 0.5) ≤ 60).
    { apply Qfloor_lt_bound. change (inject_Z (60 + 1)) with 61%Q. lra. }
    lia.
Qed.

(** The example on Thursday at 12:45 with one observation, taken at night. *)
Lemma coaster_example_witness :
  (confidence (fst (predictWaitTime utc "space-coaster" 40 15 [night_observation]
                      None coaster (frozen thursday_1245 0.5))) == 0.72)%Q
  ∧ ∃ n : Z,
      predicted_wait (fst (predictWaitTime utc "space-coaster" 40 15
                             [night_observation] None coaster
                             (frozen thursday_1245 0.5))) = inject_Z n
      ∧ 54 ≤ n ≤ 60.
Proof.
  apply (proj2 (coaster_example utc "space-coaster" [night_observation] coaster
                  (frozen thursday_1245 0.5)
                  eq_refl ltac:(discriminate) ltac:(discriminate) eq_refl eq_refl
                  ltac:(split; [discriminate | reflexivity]))).
Defined.

(** ** The effect of precipitation *)

Lemma historicalPatternMatching_mono tz hour history p1 c1 p2 c2 :
  (p1 < p2)%Q →
  (fst (historicalPatternMatching tz hour history (p1, c1))
   < fst (historicalPatternMatching tz hour history (p2, c2)))%Q.
Proof.
  intros H. unfold historicalPatternMatching.
  destruct (0 <? length history)%nat; [|exact H].
  destruct (0 <? length (similarTimes tz hour history))%nat; simpl; lra.
Qed.

Lemma raining rain : (0.5 < rain)%Q → Qltb 0 (or_else (Some rain) 0) = true.
Proof.
  intros H. unfold or_else. destruct (Qeq_bool rain 0) eqn:E.
  - apply Qeq_bool_iff in E. lra.
  - apply Qltb_lt. lra.
Qed.

(** The prediction that enters the weather adjustments is the current wait
    times a positive factor. *)
Lemma adjustments_dry_positive hour dayOfWeek currentWait attraction :
  (0 < currentWait)%Q →
  (0 < fst (adjustments hour dayOfWeek currentWait None attraction))%Q.
Proof.
  intros H. unfold adjustments. cbv zeta.
  repeat match goal with |- context [if ?b then _ else _] => destruct b end;
    simpl; lra.
Qed.

(** The weather adjustments multiply the prediction of the weather-less
    run. *)
Lemma adjustments_weather hour dayOfWeek currentWait weather attraction :
  let p := fst (adjustments hour dayOfWeek currentWait None attraction) in
  let dark := bool_decide (Attraction.type attraction = "dark_ride") in
  let show := bool_decide (Attraction.type attraction = "show") in
  let hot := Qltb 30 (or_else (temperature weather) 25) in
  let wet := Qltb 0 (or_else (precipitation weather) 0) in
  (fst (adjustments hour dayOfWeek currentWait (Some weather) attraction)
   == p * (if hot then if dark then 1.2 else 0.9 else 1)
        * (if wet then if dark || show then 1.5 else 0.6 else 1))%Q.
Proof.
  cbv zeta. unfold adjustments. cbv zeta.
  match goal with |- context [if 4 <=? ?t then ?a else ?b] =>
    generalize (if 4 <=? t then a else b) end.
  intros p.
  destruct (Qltb 30 _), (Qltb 0 _),
    (bool_decide (Attraction.type attraction = "dark_ride")),
    (bool_decide (Attraction.type attraction = "show")); simpl; ring.
Qed.

(** C7, as stated, fails at a current wait of 0: every multiplier leaves 0
    unchanged, so rain neither lowers the pre-jitter prediction of a water
    ride nor raises that of a dark ride. *)
Lemma rain_leaves_zero_wait_unchanged :
  precipitation rainy = Some 1.2%Q
  ∧ ¬ (fst (preJitter utc 13 4 0 [] (Some rainy) log_flume)
       < fst (preJitter utc 13 4 0 [] (Some (without_rain rainy)) log_flume))%Q
  ∧ ¬ (fst (preJitter utc 13 4 0 [] (Some rainy) log_flume)
       < fst (preJitter utc 13 4 0 [] None log_flume))%Q
  ∧ ¬ (fst (preJitter utc 13 4 0 [] (Some (without_rain rainy)) haunted_house)
       < fst (preJitter utc 13 4 0 [] (Some rainy) haunted_house))%Q.
Proof. repeat split; vm_compute; intros H; discriminate. Qed.

(** C7, amended. For a current wait above 0, all other inputs, the
    projected time and the history being the same, a snapshot with
    precipitation above 0.5 gives a pre-jitter prediction that is
    - strictly below that of the same snapshot without precipitation, and
      strictly below that of the run with no snapshot, when the type is
      neither dark_ride nor show;
    - strictly above both when the type is dark_ride or show. *)
Theorem precipitation_effect tz hour dayOfWeek (currentWait : Q)
    (history : list WaitTime.t) (weather : Conditions) (rain : Q)
    (attraction : Attraction.t) :
  (0 < currentWait)%Q →
  precipitation weather = Some rain →
  (0.5 < rain)%Q →
  let run w := fst (preJitter tz hour dayOfWeek currentWait history w attraction) in
  if bool_decide (Attraction.type attraction = "dark_ride")
     || bool_decide (Attraction.type attraction = "show")
  then (run (Some (without_rain weather)) < run (Some weather))%Q
       ∧ (run None < run (Some weather))%Q
  else (run (Some weather) < run (Some (without_rain weather)))%Q
       ∧ (run (Some weather) < run None)%Q.
Proof.
  intros Hwait Hrain Hheavy. cbv zeta. unfold preJitter.
  pose proof (adjustments_dry_positive hour dayOfWeek _ attraction Hwait) as Hp.
  pose proof (adjustments_weather hour dayOfWeek currentWait weather attraction)
    as Hwet.
  pose proof (adjustments_weather hour dayOfWeek currentWait
                (without_rain weather) attraction) as Hdry.
  cbv zeta in Hwet, Hdry.
  change (temperature (without_rain weather)) with (temperature weather) in Hdry.
  change (precipitation (without_rain weather)) with (Some 0%Q) in Hdry.
  rewrite Hrain, (raining rain Hheavy) in Hwet.
  change (Qltb 0 (or_else (Some 0%Q) 0)) with false in Hdry.
  destruct (adjustments hour dayOfWeek currentWait None attraction) as [p c].
  destruct (adjustments hour dayOfWeek currentWait (Some weather) attraction)
    as [pw cw].
  destruct (adjustments hour dayOfWeek currentWait (Some (without_rain weather))
              attraction) as [pd cd].
  cbn [fst] in Hp, Hwet, Hdry.
  destruct (bool_decide (Attraction.type attraction = "dark_ride")),
    (bool_decide (Attraction.type attraction = "show")),
    (Qltb 30 (or_else (temperature weather) 25));
    cbn [orb] in *; split; apply historicalPatternMatching_mono; lra.
Qed.

(** The log flume, waiting 20 minutes, under rain. *)
Lemma precipitation_effect_witness :
  (fst (preJitter utc 13 4 20 [midday_observation] (Some rainy) log_flume)
   < fst (preJitter utc 13 4 20 [midday_observation] (Some (without_rain rainy))
            log_flume))%Q
  ∧ (fst (preJitter utc 13 4 20 [midday_observation] (Some rainy) log_flume)
     < fst (preJitter utc 13 4 20 [midday_observation] None log_flume))%Q.
Proof.
  apply (precipitation_effect utc 13 4 20 [midday_observation] rainy 1.2 log_flume
           eq_refl eq_refl eq_refl).
Defined.

(** ** Alternative attractions *)

Global Instance wait_ascending_total : Total wait_ascending.
Proof.
  intros a b. unfold wait_ascending.
  destruct (Attraction.wait_time a), (Attraction.wait_time b); auto; lia.
Qed.

Global Instance wait_ascending_trans : Transitive wait_ascending.
Proof.
  intros a b c. unfold wait_ascending.
  destruct (Attraction.wait_time a), (Attraction.wait_time b),
    (Attraction.wait_time c); auto; try lia; contradiction.
Qed.

Lemma StronglySorted_take {A} (R : relation A) n l :
  StronglySorted R l → StronglySorted R (take n l).
Proof.
  intros H. rewrite <- (take_drop n l) in H.
  now apply StronglySorted_app_1_l in H.
Qed.

Lemma elem_of_take_1 {A} (x : A) n l : x ∈ take n l → x ∈ l.
Proof.
  rewrite elem_of_take. intros (i & Hi & _).
  apply list_elem_of_lookup. eauto.
Qed.

Lemma findAlternativeAttractions_database db park type wait :
  findAlternativeAttractions (database_client db) park type wait
  = Attraction.id <$>
      take 3 (merge_sort wait_ascending
                (filter (alternative_to park type wait) (attractions db))).
Proof. reflexivity. Qed.

Lemma single_inv {A} (rows : list A) r e :
  single rows = Resolved (Some r) e → rows = [r].
Proof. destruct rows as [|x [|y rows]]; simpl; congruence. Qed.

(** C8. Over a database, the lookup returns the identifiers of the first
    three rows, at most, of the open attractions of the park and of the
    type whose wait is strictly below the queried wait, sorted by
    ascending wait; it is a function of the database and of its three
    arguments.  The attraction whose own wait is the queried wait is never
    among them. *)
Theorem alternatives_lookup db park type wait :
  (∃ sorted : list Attraction.t,
     sorted ≡ₚ filter (alternative_to park type wait) (attractions db)
     ∧ StronglySorted wait_ascending sorted
     ∧ findAlternativeAttractions (database_client db) park type wait
       = Attraction.id <$> take 3 sorted
     ∧ (length (findAlternativeAttractions (database_client db) park type wait)
        ≤ 3)%nat
     ∧ StronglySorted wait_ascending (take 3 sorted)
     ∧ ∀ a, a ∈ take 3 sorted →
         a ∈ attractions db
         ∧ Attraction.park_id a = park
         ∧ Attraction.type a = type
         ∧ Attraction.current_status a = open
         ∧ ∃ w, Attraction.wait_time a = Some w ∧ w < wait)
  ∧ ∀ attractionId attraction,
      attraction_by_id (database_client db) attractionId
      = Resolved (Some attraction) None →
      attractionId ∉
        findAlternativeAttractions (database_client db)
          (Attraction.park_id attraction) (Attraction.type attraction)
          (or_else_Z (Attraction.wait_time attraction) 0).
Proof.
  split.
  - exists (merge_sort wait_ascending
              (filter (alternative_to park type wait) (attractions db))).
    split; [apply merge_sort_Permutation|].
    split; [apply StronglySorted_merge_sort; apply _|].
    split; [apply findAlternativeAttractions_database|].
    split.
    { rewrite findAlternativeAttractions_database, length_fmap, length_take. lia. }
    split; [apply StronglySorted_take, StronglySorted_merge_sort; apply _|].
    intros a Ha. apply elem_of_take_1 in Ha.
    rewrite merge_sort_Permutation in Ha.
    apply list_elem_of_filter in Ha as [(Hp & Ht & Hs & Hw) Hin].
    repeat split; try assumption.
    unfold wait_below in Hw. destruct (Attraction.wait_time a) as [w|]; [|done].
    eauto.
  - intros attractionId attraction Hsingle Hin.
    rewrite findAlternativeAttractions_database in Hin.
    apply list_elem_of_fmap in Hin as (a & -> & Ha).
    apply elem_of_take_1 in Ha. rewrite merge_sort_Permutation in Ha.
    apply list_elem_of_filter in Ha as [(_ & _ & _ & Hw) Hin].
    simpl in Hsingle. apply single_inv in Hsingle.
    assert (a ∈ filter (λ b, Attraction.id b = Attraction.id a) (attractions db))
      as Hself by (apply list_elem_of_filter; auto).
    rewrite Hsingle in Hself. apply list_elem_of_singleton in Hself as ->.
    unfold wait_below, or_else_Z in Hw.
    destruct (Attraction.wait_time attraction) as [w|]; [|done].
    destruct (Z.eqb_spec w 0); lia.
Qed.

(** The alternatives to the coaster in the sample park. *)
Lemma alternatives_lookup_witness :
  attraction_by_id (database_client magic_kingdom) "space-coaster"
  = Resolved (Some coaster) None
  ∧ findAlternativeAttractions (database_client magic_kingdom)
      "magic-kingdom" "roller_coaster" 40
    = ["big-thunder"; "mine-train"; "rocket"]
  ∧ "space-coaster" ∉
      findAlternativeAttractions (database_client magic_kingdom)
        "magic-kingdom" "roller_coaster" 40.
Proof.
  split; [reflexivity|]. split; [reflexivity|].
  apply (proj2 (alternatives_lookup magic_kingdom "" "" 0) "space-coaster" coaster).
  reflexivity.
Defined.

(** ** Running the effects *)

Lemma run_bind {A B} (m : IO A) (f : A → IO B) (w : World) :
  (m ≫= f) w = f (fst (m w)) (snd (m w)).
Proof. unfold mbind, IO_bind. now destruct (m w). Qed.

Lemma run_ret {A} (x : A) (w : World) : (mret x : IO A) w = (x, w).
Proof. reflexivity. Qed.

(** An invariant of a [for ... of] loop, indexed by the elements already
    visited. *)
Lemma for_of_invariant {A S} (I : list A → S → Prop) (body : A → S → IO S) xs :
  (∀ visited x s w, I visited s → I (visited ++ [x]) (fst (body x s w))) →
  ∀ visited acc w,
    I visited acc → I (visited ++ xs) (fst (for_of xs body acc w)).
Proof.
  intros Hbody. induction xs as [|x xs IH]; intros visited acc w Hacc.
  - now rewrite app_nil_r.
  - simpl. rewrite run_bind.
    replace (visited ++ x :: xs) with ((visited ++ [x]) ++ xs)
      by now rewrite <- app_assoc.
    apply IH, Hbody, Hacc.
Qed.

(** ** The loop over the windows *)

Section Windows.

Context (tz : Z → Z) (supabase : Supabase) (attractionId : string)
  (attraction : Attraction.t) (waitTimeHistory : option (list WaitTime.t))
  (weatherData : option WeatherData.t).

Lemma estimate_predictions timeWindows w :
  WaitTimePrediction.predictions
    (fst (estimate tz supabase attractionId timeWindows attraction
            waitTimeHistory weatherData w))
  = fst (for_of timeWindows
           (λ minutes (predictions : gmap string Estimate),
              prediction ← predictWaitTime tz attractionId
                (inject_Z (or_else_Z (Attraction.wait_time attraction) 0))
                minutes (default [] waitTimeHistory)
                (WeatherData.current_conditions <$> weatherData) attraction;
              mret (<[pretty minutes := prediction]> predictions))
           ∅ w).
Proof. unfold estimate. cbv zeta. now rewrite !run_bind. Qed.

(** The keys of the mapping are the requested windows, printed. *)
Lemma estimate_windows timeWindows w :
  dom (WaitTimePrediction.predictions
         (fst (estimate tz supabase attractionId timeWindows attraction
                 waitTimeHistory weatherData w)))
  = list_to_set (pretty <$> timeWindows).
Proof.
  rewrite estimate_predictions.
  apply (for_of_invariant
           (λ visited (s : gmap string Estimate),
              dom s = list_to_set (pretty <$> visited)) _ timeWindows)
    with (visited := []).
  - intros visited x s w' Hs. rewrite run_bind, run_ret. simpl.
    rewrite dom_insert_L, Hs, fmap_app, list_to_set_app_L. simpl.
    rewrite (right_id_L ∅ (∪)). apply (comm_L (∪)).
  - now rewrite dom_empty_L.
Qed.

(** Every estimate stored in the mapping satisfies a property that every
    result of [predictWaitTime] on these inputs satisfies. *)
Lemma estimate_entries (P : Estimate → Prop) timeWindows w :
  (∀ minutes w',
     P (fst (predictWaitTime tz attractionId
               (inject_Z (or_else_Z (Attraction.wait_time attraction) 0))
               minutes (default [] waitTimeHistory)
               (WeatherData.current_conditions <$> weatherData) attraction w'))) →
  map_Forall (λ _, P)
    (WaitTimePrediction.predictions
       (fst (estimate tz supabase attractionId timeWindows attraction
               waitTimeHistory weatherData w))).
Proof.
  intros HP. rewrite estimate_predictions.
  apply (for_of_invariant
           (λ _ (s : gmap string Estimate), map_Forall (λ _, P) s)
           _ timeWindows) with (visited := []).
  - intros _ x s w' Hs. rewrite run_bind, run_ret. simpl.
    apply map_Forall_insert_2; [apply HP | exact Hs].
  - apply map_Forall_empty.
Qed.

End Windows.

(** ** [generateWaitTimePrediction]: the three lookups *)

Lemma generate_run tz supabase attractionId timeWindows w attraction history
    weatherData weatherError :
  attraction_by_id supabase attractionId = Resolved (Some attraction) None →
  recent_wait_times supabase attractionId
    (clock_at w (clock_reads w) - 7 * 24 * 60 * 60 * 1000)
  = Resolved history None →
  latest_weather supabase (Attraction.park_id attraction)
  = Resolved weatherData weatherError →
  fst (generateWaitTimePrediction tz supabase attractionId timeWindows w)
  = Some (fst (estimate tz supabase attractionId timeWindows attraction
                 history weatherData (snd (Date_now w)))).
Proof.
  intros Ha Hh Hw. unfold generateWaitTimePrediction. rewrite Ha, run_bind.
  change (fst (Date_now w)) with (clock_at w (clock_reads w)).
  rewrite Hh, Hw, run_bind. reflexivity.
Qed.

Lemma generate_history_error tz supabase attractionId timeWindows w attraction
    data historyError :
  attraction_by_id supabase attractionId = Resolved (Some attraction) None →
  recent_wait_times supabase attractionId
    (clock_at w (clock_reads w) - 7 * 24 * 60 * 60 * 1000)
  = Resolved data (Some historyError) →
  fst (generateWaitTimePrediction tz supabase attractionId timeWindows w) = None.
Proof.
  intros Ha Hh. unfold generateWaitTimePrediction. rewrite Ha, run_bind.
  change (fst (Date_now w)) with (clock_at w (clock_reads w)).
  now rewrite Hh.
Qed.

Lemma generate_rejected tz supabase attractionId timeWindows w attraction :
  attraction_by_id supabase attractionId = Resolved (Some attraction) None →
  recent_wait_times supabase attractionId
    (clock_at w (clock_reads w) - 7 * 24 * 60 * 60 * 1000) = Rejected
  ∨ (∃ history,
       recent_wait_times supabase attractionId
         (clock_at w (clock_reads w) - 7 * 24 * 60 * 60 * 1000)
       = Resolved history None
       ∧ latest_weather supabase (Attraction.park_id attraction) = Rejected) →
  fst (generateWaitTimePrediction tz supabase attractionId timeWindows w) = None.
Proof.
  intros Ha H. unfold generateWaitTimePrediction. rewrite Ha, run_bind.
  change (fst (Date_now w)) with (clock_at w (clock_reads w)).
  destruct H as [-> | (h & -> & ->)]; reflexivity.
Qed.

(** With no observation and no weather, the confidence of an estimate is
    the initial 0.8. *)
Lemma confidence_without_inputs tz attractionId currentWait minutesAhead
    attraction w :
  (confidence (fst (predictWaitTime tz attractionId currentWait minutesAhead
                      [] None attraction w)) == 0.8)%Q.
Proof.
  rewrite predictWaitTime_run. cbv zeta. unfold preJitter, adjustments.
  cbv zeta. simpl snd. reflexivity.
Qed.

(** C1, as stated, fails: when the history query reports an error the
    function returns [null] instead of going on with an empty history; and
    when the weather query fails and the history is missing, the estimate
    is produced with the initial confidence 0.8, not a lowered one. *)
Lemma history_failure_aborts :
  fst (generateWaitTimePrediction utc
         (with_history (database_client magic_kingdom)
            (Resolved None (Some "upstream unavailable")))
         "space-coaster" [15] (frozen thursday_1245 0.5))
  = None
  ∧ ∃ p,
      fst (generateWaitTimePrediction utc
             (with_weather
                (with_history (database_client magic_kingdom) (Resolved None None))
                (Resolved None (Some "upstream unavailable")))
             "space-coaster" [15] (frozen thursday_1245 0.5))
      = Some p
      ∧ WaitTimePrediction.predictions p !! "15"
        = Some {| predicted_wait := 57; confidence := 0.80 |}.
Proof.
  split; [reflexivity|]. eexists. split; [reflexivity|]. vm_compute. reflexivity.
Qed.

(** C1, amended. Once the attraction is found:
    - a weather lookup that resolves without a row, with or without an
      error, does not abort the estimate: a prediction is produced, the
      one computed with the weather absent; a history that resolves
      without an error and without data is taken as the empty history;
      with an empty history and no weather every confidence of the
      mapping is the initial 0.8;
    - a history lookup that reports an error makes the function return
      [null];
    - a history or weather query that rejects makes it return [null]. *)
Theorem lookup_failures tz supabase attractionId timeWindows w attraction :
  attraction_by_id supabase attractionId = Resolved (Some attraction) None →
  let since := clock_at w (clock_reads w) - 7 * 24 * 60 * 60 * 1000 in
  let result :=
    fst (generateWaitTimePrediction tz supabase attractionId timeWindows w) in
  (∀ history weatherError,
     recent_wait_times supabase attractionId since = Resolved history None →
     latest_weather supabase (Attraction.park_id attraction)
     = Resolved None weatherError →
     ∃ p, result = Some p
          ∧ p = fst (estimate tz supabase attractionId timeWindows attraction
                       (Some (default [] history)) None (snd (Date_now w)))
          ∧ (default [] history = [] →
             map_Forall (λ _ e, (confidence e == 0.8)%Q)
               (WaitTimePrediction.predictions p)))
  ∧ (∀ data historyError,
       recent_wait_times supabase attractionId since
       = Resolved data (Some historyError) →
       result = None)
  ∧ (recent_wait_times supabase attractionId since = Rejected
     ∨ (∃ history,
          recent_wait_times supabase attractionId since = Resolved history None
          ∧ latest_weather supabase (Attraction.park_id attraction) = Rejected) →
     result = None).
Proof.
  intros Ha. cbv zeta. split; [|split].
  - intros history weatherError Hh Hw. eexists. split; [|split].
    + apply (generate_run _ _ _ _ _ _ _ _ _ Ha Hh Hw).
    + now destruct history.
    + intros Hempty. apply estimate_entries. intros minutes w'.
      simpl. rewrite Hempty. apply confidence_without_inputs.
  - intros data historyError Hh. apply (generate_history_error _ _ _ _ _ _ _ _ Ha Hh).
  - intros H. apply (generate_rejected _ _ _ _ _ _ Ha H).
Qed.

(** The sample park with a failing weather query, and with a failing
    history query. *)
Lemma lookup_failures_witness :
  (∃ p,
     fst (generateWaitTimePrediction utc
            (with_weather (database_client magic_kingdom)
               (Resolved None (Some "upstream unavailable")))
            "space-coaster" [15; 30] (frozen thursday_1245 0.5))
     = Some p)
  ∧ fst (generateWaitTimePrediction utc
           (with_history (database_client magic_kingdom)
              (Resolved None (Some "upstream unavailable")))
           "space-coaster" [15; 30] (frozen thursday_1245 0.5))
    = None.
Proof.
  split.
  - destruct (proj1 (lookup_failures utc
                       (with_weather (database_client magic_kingdom)
                          (Resolved None (Some "upstream unavailable")))
                       "space-coaster" [15; 30] (frozen thursday_1245 0.5) coaster
                       eq_refl) _ _ eq_refl eq_refl) as (p & Hp & _).
    exists p. exact Hp.
  - apply (proj1 (proj2 (lookup_failures utc
                           (with_history (database_client magic_kingdom)
                              (Resolved None (Some "upstream unavailable")))
                           "space-coaster" [15; 30] (frozen thursday_1245 0.5) coaster
                           eq_refl)) None "upstream unavailable" eq_refl).
Defined.

(** ** The windows of a request *)




(** ** Determinism *)

Lemma deterministic_ret {A} (x : A) : deterministic (mret x).
Proof. intros w1 w2 H. split; [reflexivity | exact H]. Qed.

Lemma deterministic_bind {A B} (m : IO A) (f : A → IO B) :
  deterministic m → (∀ a, deterministic (f a)) → deterministic (m ≫= f).
Proof.
  intros Hm Hf w1 w2 H. rewrite !run_bind.
  destruct (Hm w1 w2 H) as [Heq Hnext]. rewrite Heq.
  apply Hf, Hnext.
Qed.

Lemma deterministic_new_Date : deterministic new_Date.
Proof.
  intros w1 w2 [Hc Hr]. unfold new_Date, same_sources. simpl. split; [|split].
  - specialize (Hc 0%nat). now rewrite !Nat.add_0_r in Hc.
  - intros k. specialize (Hc (S k)). now rewrite !Nat.add_succ_r in Hc.
  - exact Hr.
Qed.

Lemma deterministic_Math_random : deterministic Math_random.
Proof.
  intros w1 w2 [Hc Hr]. unfold Math_random, same_sources. simpl. split; [|split].
  - specialize (Hr 0%nat). now rewrite !Nat.add_0_r in Hr.
  - exact Hc.
  - intros k. specialize (Hr (S k)). now rewrite !Nat.add_succ_r in Hr.
Qed.

Lemma deterministic_for_of {A S} (body : A → S → IO S) xs :
  (∀ x s, deterministic (body x s)) → ∀ acc, deterministic (for_of xs body acc).
Proof.
  intros Hbody. induction xs as [|x xs IH]; intros acc; simpl.
  - apply deterministic_ret.
  - apply deterministic_bind; [apply Hbody | exact IH].
Qed.

Lemma deterministic_predictWaitTime tz attractionId currentWait minutesAhead
    history weather attraction :
  deterministic (predictWaitTime tz attractionId currentWait minutesAhead
                   history weather attraction).
Proof.
  unfold predictWaitTime.
  apply deterministic_bind; [apply deterministic_new_Date|]. intros now.
  cbv zeta. destruct (preJitter _ _ _ _ _ _ _) as [p c].
  apply deterministic_bind; [apply deterministic_Math_random|]. intros u.
  apply deterministic_ret.
Qed.

Lemma deterministic_generatePredictionFactors tz history weather attraction :
  deterministic (generatePredictionFactors tz history weather attraction).
Proof.
  unfold generatePredictionFactors. cbv zeta.
  apply deterministic_bind; [apply deterministic_new_Date|]. intros now.
  apply deterministic_ret.
Qed.

Lemma deterministic_estimate tz supabase attractionId timeWindows attraction
    waitTimeHistory weatherData :
  deterministic (estimate tz supabase attractionId timeWindows attraction
                   waitTimeHistory weatherData).
Proof.
  unfold estimate. cbv zeta.
  apply deterministic_bind.
  { apply deterministic_for_of. intros minutes predictions.
    apply deterministic_bind; [apply deterministic_predictWaitTime|].
    intros prediction. apply deterministic_ret. }
  intros predictions.
  apply deterministic_bind; [apply deterministic_generatePredictionFactors|].
  intros factors.
  apply deterministic_bind; [apply deterministic_new_Date|]. intros last.
  apply deterministic_ret.
Qed.

Lemma deterministic_generateWaitTimePrediction tz supabase attractionId
    timeWindows :
  deterministic (generateWaitTimePrediction tz supabase attractionId timeWindows).
Proof.
  unfold generateWaitTimePrediction.
  destruct (attraction_by_id supabase attractionId)
    as [[attraction|] [attractionError|]|]; try apply deterministic_ret.
  apply deterministic_bind; [apply deterministic_new_Date|]. intros now.
  destruct (recent_wait_times supabase attractionId _)
    as [history [historyError|]|]; try apply deterministic_ret.
  destruct (latest_weather supabase _) as [weatherData weatherError|];
    try apply deterministic_ret.
  apply deterministic_bind; [apply deterministic_estimate|]. intros prediction.
  apply deterministic_ret.
Qed.

(** C6. With the same database client, the same attraction and windows,
    and worlds with the same sources (the same clock readings and the same
    random draws from where each world stands), two runs of the estimation
    return the same result: the same mapping of predicted waits and
    confidences, the same factors, the same alternatives. *)
Theorem determinism_modulo_jitter tz supabase attractionId timeWindows
    (w1 w2 : World) :
  same_sources w1 w2 →
  fst (generateWaitTimePrediction tz supabase attractionId timeWindows w1)
  = fst (generateWaitTimePrediction tz supabase attractionId timeWindows w2).
Proof.
  intros H.
  apply (deterministic_generateWaitTimePrediction tz supabase attractionId
           timeWindows w1 w2 H).
Qed.

(** Two worlds at different positions of the same constant sources. *)
Lemma determinism_modulo_jitter_witness :
  same_sources (frozen thursday_1245 0.5) (frozen_later thursday_1245 0.5)
  ∧ fst (generateWaitTimePrediction utc (database_client magic_kingdom)
           "space-coaster" [15; 30; 60; 120] (frozen thursday_1245 0.5))
    = fst (generateWaitTimePrediction utc (database_client magic_kingdom)
             "space-coaster" [15; 30; 60; 120] (frozen_later thursday_1245 0.5)).
Proof.
  assert (same_sources (frozen thursday_1245 0.5) (frozen_later thursday_1245 0.5))
    as H by (split; intros k; reflexivity).
  split; [exact H|].
  apply (determinism_modulo_jitter utc (database_client magic_kingdom)
           "space-coaster" [15; 30; 60; 120] _ _ H).
Defined.

(** The draw does reach the output: two worlds that differ in the draw
    only give different predicted waits. *)
Lemma jitter_is_observable :
  predicted_wait (fst (predictWaitTime utc "space-coaster" 40 15 [] None coaster
                         (frozen thursday_1245 0)))
  ≠ predicted_wait (fst (predictWaitTime utc "space-coaster" 40 15 [] None coaster
                           (frozen thursday_1245 0.99))).
Proof. vm_compute. discriminate. Qed.

(** * Further properties of the predictions route *)

(** ** The adjustments *)

(** X1. On a weekday, for an attraction below thrill level 4 and without
    weather, the adjustments leave a positive current wait unchanged
    exactly when the projected hour is 10: every other hour falls in one of
    the three bands. *)
Theorem only_hour_ten_is_unadjusted (hour dayOfWeek : Z) (currentWait : Q)
    (attraction : Attraction.t) :
  dayOfWeek ≠ 0 → dayOfWeek ≠ 6 →
  or_else_Z (details_thrill_level attraction) 3 < 4 →
  (0 < currentWait)%Q →
  (fst (adjustments hour dayOfWeek currentWait None attraction) == currentWait)%Q
  ↔ hour = 10.
Proof.
  intros H0 H6 Hthrill Hpos. unfold adjustments. cbv zeta.
  destruct (Z.eqb_spec dayOfWeek 0); [contradiction|].
  destruct (Z.eqb_spec dayOfWeek 6); [contradiction|].
  destruct (Z.leb_spec 4 (or_else_Z (details_thrill_level attraction) 3)); [lia|].
  cbn [orb fst].
  destruct (Z.leb_spec 11 hour), (Z.leb_spec hour 15), (Z.leb_spec 16 hour),
    (Z.leb_spec hour 20), (Z.leb_spec hour 9), (Z.leb_spec 21 hour);
    cbn [andb orb]; split; intros Hgoal; try lia; try lra; try reflexivity.
Qed.

Lemma only_hour_ten_is_unadjusted_witness :
  (fst (adjustments 10 4 20 None log_flume) == 20)%Q.
Proof.
  apply (only_hour_ten_is_unadjusted 10 4 20 log_flume); try discriminate;
    reflexivity.
Defined.

(** ** The confidence *)

Lemma adjustments_confidence hour dayOfWeek currentWait weather attraction :
  let c := snd (adjustments hour dayOfWeek currentWait weather attraction) in
  (c == 0.8 ∨ c == 0.72 ∨ c == 0.64)%Q.
Proof.
  cbv zeta. unfold adjustments. cbv zeta.
  destruct weather as [wx|]; [|left; reflexivity].
  destruct (Qltb 0 _); [|left; reflexivity].
  destruct (_ || _); [right; left | right; right]; reflexivity.
Qed.

Lemma preJitter_confidence tz hour dayOfWeek currentWait history weather
    attraction :
  let c := snd (preJitter tz hour dayOfWeek currentWait history weather
                  attraction) in
  (0.576 <= c <= 0.88)%Q.
Proof.
  cbv zeta. unfold preJitter.
  pose proof (adjustments_confidence hour dayOfWeek currentWait weather
                attraction) as H. cbv zeta in H.
  destruct (adjustments hour dayOfWeek currentWait weather attraction) as [p c].
  cbn [snd] in H. unfold historicalPatternMatching.
  destruct (0 <? length history)%nat;
    [destruct (0 <? length (similarTimes tz hour history))%nat|];
    cbn [snd]; destruct H as [H | [H | H]]; lra.
Qed.

(** X2. The confidence that [predictWaitTime] reports always lies between
    0.58 and 0.88: the confidence before the bounds lies between 0.576 and
    0.88, so the clamp to [[0.3, 1.0]] never changes it. *)
Theorem confidence_never_clamped tz attractionId currentWait minutesAhead
    history weather attraction (w : World) :
  let futureTime := clock_at w (clock_reads w) + minutesAhead * 60 * 1000 in
  let c := snd (preJitter tz (getHours tz futureTime) (getDay tz futureTime)
                  currentWait history weather attraction) in
  let r := fst (predictWaitTime tz attractionId currentWait minutesAhead
                  history weather attraction w) in
  Math.max 0.3 (Math.min 1.0 c) = c
  ∧ (confidence r == Math.round (c * 100) / 100)%Q
  ∧ (0.58 <= confidence r <= 0.88)%Q.
Proof.
  cbv zeta. rewrite predictWaitTime_run. cbv zeta.
  pose proof (preJitter_confidence tz
                (getHours tz (clock_at w (clock_reads w) + minutesAhead * 60 * 1000))
                (getDay tz (clock_at w (clock_reads w) + minutesAhead * 60 * 1000))
                currentWait history weather attraction) as Hc.
  cbv zeta in Hc.
  set (c := snd (preJitter _ _ _ _ _ _ _)) in *.
  assert (Math.max 0.3 (Math.min 1.0 c) = c) as Hclamp.
  { unfold Math.max, Math.min.
    qcase (Qle_bool 1.0 c); [lra|]. qcase (Qle_bool 0.3 c); [reflexivity | lra]. }
  split; [exact Hclamp|]. unfold reasonableBounds, confidence.
  rewrite Hclamp. split; [reflexivity|].
  unfold Math.round.
  assert (58 ≤ Qfloor (c * 100 + 0.5)) as H1.
  { change 58 with (Qfloor 58%Q). apply Qfloor_resp_le. lra. }
  assert (Qfloor (c * 100 + 0.5) ≤ 88) as H2.
  { apply round_le_bound. change (inject_Z 88) with 88%Q. lra. }
  rewrite Zle_Qle in H1, H2.
  change (inject_Z 58) with 58%Q in H1. change (inject_Z 88) with 88%Q in H2.
  split; [apply Qle_shift_div_l | apply Qle_shift_div_r];
    first [reflexivity | lra].
Qed.

(** ** The predicted wait *)

Lemma round_above x : (x - 0.5 < Math.round x)%Q.
Proof.
  unfold Math.round. pose proof (Qlt_floor (x + 0.5)) as H.
  rewrite inject_Z_plus in H. change (inject_Z 1) with 1%Q in H. lra.
Qed.

Lemma round_below x : (Math.round x <= x + 0.5)%Q.
Proof. apply Qfloor_le. Qed.

Lemma round_mono x y : (x <= y)%Q → (Math.round x <= Math.round y)%Q.
Proof.
  intros H. unfold Math.round. rewrite <- Zle_Qle.
  apply Qfloor_resp_le. lra.
Qed.

Lemma adjustments_nonneg hour dayOfWeek currentWait weather attraction :
  (0 <= currentWait)%Q →
  (0 <= fst (adjustments hour dayOfWeek currentWait weather attraction))%Q.
Proof.
  intros H. unfold adjustments. cbv zeta.
  destruct weather as [wx|];
    repeat match goal with |- context [if ?b then _ else _] => destruct b end;
    cbn [fst]; lra.
Qed.

Lemma total_wait_nonneg (l : list WaitTime.t) acc :
  0 ≤ acc → Forall (λ h, 0 ≤ WaitTime.wait_minutes h) l →
  0 ≤ foldl (λ sum h, sum + WaitTime.wait_minutes h) acc l.
Proof.
  intros Hacc Hl. revert acc Hacc.
  induction Hl as [|h l Hh Hl IH]; intros acc Hacc; simpl; [exact Hacc|].
  apply IH. lia.
Qed.

Lemma avgHistoricalWait_nonneg (similar : list WaitTime.t) :
  similar ≠ [] → Forall (λ h, 0 ≤ WaitTime.wait_minutes h) similar →
  (0 <= avgHistoricalWait similar)%Q.
Proof.
  intros Hne Hl. unfold avgHistoricalWait. cbv zeta.
  apply Qle_shift_div_l.
  - change 0%Q with (inject_Z 0). rewrite <- Zlt_Qlt.
    destruct similar; [contradiction | simpl; lia].
  - rewrite Qmult_0_l. change 0%Q with (inject_Z 0). rewrite <- Zle_Qle.
    now apply total_wait_nonneg.
Qed.

Lemma similarTimes_Forall (P : WaitTime.t → Prop) tz hour history :
  Forall P history → Forall P (similarTimes tz hour history).
Proof.
  rewrite !Forall_forall. intros H h Hh.
  apply similarTimes_spec in Hh as [Hh _]. auto.
Qed.

Lemma preJitter_nonneg tz hour dayOfWeek currentWait history weather attraction :
  (0 <= currentWait)%Q →
  Forall (λ h, 0 ≤ WaitTime.wait_minutes h) history →
  (0 <= fst (preJitter tz hour dayOfWeek currentWait history weather attraction))%Q.
Proof.
  intros Hcw Hh. unfold preJitter.
  pose proof (adjustments_nonneg hour dayOfWeek currentWait weather attraction Hcw)
    as Hp.
  destruct (adjustments hour dayOfWeek currentWait weather attraction) as [p c].
  cbn [fst] in Hp. unfold historicalPatternMatching.
  destruct (0 <? length history)%nat; [|exact Hp].
  destruct (0 <? length (similarTimes tz hour history))%nat eqn:E; [|exact Hp].
  apply length_pos in E.
  pose proof (avgHistoricalWait_nonneg _ E (similarTimes_Forall _ tz hour _ Hh)).
  cbn [fst]. lra.
Qed.

(** X3. For a current wait and observed waits that are not negative and a
    draw in [[0,1)], the predicted wait is at most 5 % and half a minute
    above the prediction before the jitter, and at least 5 % and half a
    minute below it unless it is capped at 180. *)
Theorem jitter_envelope tz attractionId currentWait minutesAhead history
    weather attraction (w : World) :
  (0 <= currentWait)%Q →
  Forall (λ h, 0 ≤ WaitTime.wait_minutes h) history →
  (0 <= random_at w (random_draws w) < 1)%Q →
  let futureTime := clock_at w (clock_reads w) + minutesAhead * 60 * 1000 in
  let p := fst (preJitter tz (getHours tz futureTime) (getDay tz futureTime)
                  currentWait history weather attraction) in
  let r := fst (predictWaitTime tz attractionId currentWait minutesAhead
                  history weather attraction w) in
  (predicted_wait r <= 1.05 * p + 0.5)%Q
  ∧ (Math.min 180 (0.95 * p - 0.5) <= predicted_wait r)%Q.
Proof.
  intros Hcw Hh [HU0 HU1]. cbv zeta. rewrite predictWaitTime_run. cbv zeta.
  pose proof (preJitter_nonneg tz
                (getHours tz (clock_at w (clock_reads w) + minutesAhead * 60 * 1000))
                (getDay tz (clock_at w (clock_reads w) + minutesAhead * 60 * 1000))
                currentWait history weather attraction Hcw Hh) as Hp.
  set (p := fst (preJitter _ _ _ _ _ _ _)) in *.
  set (U := random_at w (random_draws w)) in *.
  unfold reasonableBounds, predicted_wait, naturalVariation. cbv zeta.
  assert (0 <= p * U)%Q as HpU0 by (apply Qmult_le_0_compat; lra).
  assert (0 <= p * (1 - U))%Q as HpU1 by (apply Qmult_le_0_compat; lra).
  set (x := (p * (1 + (U - 0.5) * 0.1))%Q).
  assert (x == 0.95 * p + 0.1 * (p * U))%Q as Hx by (unfold x; ring).
  assert (p * (1 - U) == p - p * U)%Q as Hsub by ring.
  pose proof (round_above x) as Ha. pose proof (round_below x) as Hb.
  clearbody x. generalize dependent (p * U)%Q. intros pU HpU0 Hx Hsub.
  rewrite Hsub in HpU1.
  generalize dependent (Math.round x). intros rx Ha Hb.
  unfold Math.max, Math.min. qcase (Qle_bool 180 rx); qcases; split; lra.
Qed.

Lemma jitter_envelope_witness :
  (predicted_wait (fst (predictWaitTime utc "space-coaster" 40 15
                          [midday_observation] None coaster
                          (frozen thursday_1245 0.5)))
   <= 1.05 * fst (preJitter utc 13 4 40 [midday_observation] None coaster) + 0.5)%Q.
Proof.
  apply (jitter_envelope utc "space-coaster" 40 15 [midday_observation] None
           coaster (frozen thursday_1245 0.5)).
  - discriminate.
  - repeat constructor; discriminate.
  - split; [discriminate | reflexivity].
Defined.

Lemma adjustments_mono hour dayOfWeek wait1 wait2 weather attraction :
  (wait1 <= wait2)%Q →
  (fst (adjustments hour dayOfWeek wait1 weather attraction)
   <= fst (adjustments hour dayOfWeek wait2 weather attraction))%Q
  ∧ snd (adjustments hour dayOfWeek wait1 weather attraction)
    = snd (adjustments hour dayOfWeek wait2 weather attraction).
Proof.
  intros H. unfold adjustments. cbv zeta.
  destruct weather as [wx|];
    repeat match goal with |- context [if ?b then _ else _] => destruct b end;
    cbn [fst snd]; (split; [lra | reflexivity]).
Qed.

Lemma historicalPatternMatching_le tz hour history p1 p2 c :
  (p1 <= p2)%Q →
  (fst (historicalPatternMatching tz hour history (p1, c))
   <= fst (historicalPatternMatching tz hour history (p2, c)))%Q
  ∧ snd (historicalPatternMatching tz hour history (p1, c))
    = snd (historicalPatternMatching tz hour history (p2, c)).
Proof.
  intros H. unfold historicalPatternMatching.
  destruct (0 <? length history)%nat; [|split; [exact H | reflexivity]].
  destruct (0 <? length (similarTimes tz hour history))%nat; cbn [fst snd];
    (split; [lra | reflexivity]).
Qed.

Lemma bounded_wait_mono x y :
  (x <= y)%Q →
  (Math.max 0 (Math.min 180 (Math.round x))
   <= Math.max 0 (Math.min 180 (Math.round y)))%Q.
Proof.
  intros H. apply round_mono in H. revert H.
  generalize (Math.round x) (Math.round y). intros rx ry H.
  unfold Math.max, Math.min.
  qcase (Qle_bool 180 rx); qcase (Qle_bool 180 ry); qcases; lra.
Qed.

(** X4. With the same inputs, clock reading and draw (in [[0,1)]), a longer
    current wait never gives a shorter predicted wait, and the confidence
    does not depend on the current wait. *)
Theorem prediction_monotone_in_current_wait tz attractionId (wait1 wait2 : Q)
    minutesAhead history weather attraction (w : World) :
  (wait1 <= wait2)%Q →
  (0 <= random_at w (random_draws w) < 1)%Q →
  let r1 := fst (predictWaitTime tz attractionId wait1 minutesAhead history
                   weather attraction w) in
  let r2 := fst (predictWaitTime tz attractionId wait2 minutesAhead history
                   weather attraction w) in
  (predicted_wait r1 <= predicted_wait r2)%Q ∧ confidence r1 = confidence r2.
Proof.
  intros Hwait [HU0 HU1]. cbv zeta. rewrite !predictWaitTime_run. cbv zeta.
  unfold preJitter.
  set (hour := getHours tz _). set (day := getDay tz _).
  destruct (adjustments_mono hour day wait1 wait2 weather attraction Hwait)
    as [Hp Hc].
  destruct (adjustments hour day wait1 weather attraction) as [p1 c1].
  destruct (adjustments hour day wait2 weather attraction) as [p2 c2].
  cbn [fst snd] in Hp, Hc. subst c2.
  destruct (historicalPatternMatching_le tz hour history p1 p2 c1 Hp) as [Hq Hd].
  destruct (historicalPatternMatching tz hour history (p1, c1)) as [q1 d1].
  destruct (historicalPatternMatching tz hour history (p2, c1)) as [q2 d2].
  cbn [fst snd] in *. subst d2.
  split; [|reflexivity].
  unfold reasonableBounds, predicted_wait. apply bounded_wait_mono.
  unfold naturalVariation. cbv zeta.
  apply Qmult_le_compat_r; [exact Hq | lra].
Qed.

Lemma prediction_monotone_in_current_wait_witness :
  (predicted_wait (fst (predictWaitTime utc "space-coaster" 20 15 [] None coaster
                          (frozen thursday_1245 0.5)))
   <= predicted_wait (fst (predictWaitTime utc "space-coaster" 40 15 [] None
                             coaster (frozen thursday_1245 0.5))))%Q.
Proof.
  apply (prediction_monotone_in_current_wait utc "space-coaster" 20 40 15 []
           None coaster (frozen thursday_1245 0.5)).
  - discriminate.
  - split; [discriminate | reflexivity].
Defined.

Lemma adjustments_zero hour dayOfWeek currentWait weather attraction :
  (currentWait == 0)%Q →
  (fst (adjustments hour dayOfWeek currentWait weather attraction) == 0)%Q.
Proof.
  intros H. unfold adjustments. cbv zeta.
  destruct weather as [wx|];
    repeat match goal with |- context [if ?b then _ else _] => destruct b end;
    cbn [fst]; lra.
Qed.

(** X5. A current wait of 0 with no observation within one hour of the
    projected hour is predicted as 0, whatever the window, the weather, the
    attraction, the clock and the draw. *)
Theorem walk_on_stays_walk_on tz attractionId currentWait minutesAhead history
    weather attraction (w : World) :
  (currentWait == 0)%Q →
  let futureTime := clock_at w (clock_reads w) + minutesAhead * 60 * 1000 in
  similarTimes tz (getHours tz futureTime) history = [] →
  predicted_wait (fst (predictWaitTime tz attractionId currentWait minutesAhead
                         history weather attraction w)) = 0%Q.
Proof.
  intros Hzero futureTime Hsim. rewrite predictWaitTime_run. cbv zeta.
  fold futureTime. unfold preJitter.
  pose proof (adjustments_zero (getHours tz futureTime) (getDay tz futureTime)
                currentWait weather attraction Hzero) as Hp.
  destruct (adjustments _ _ currentWait weather attraction) as [p c].
  cbn [fst] in Hp. unfold historicalPatternMatching. rewrite Hsim.
  change (0 <? length (@nil WaitTime.t))%nat with false.
  assert (∀ c', predicted_wait
                  (reasonableBounds
                     (naturalVariation (random_at w (random_draws w)) p) c')
                = 0%Q) as Hgoal.
  { intros c'. unfold reasonableBounds, predicted_wait, Math.round.
    rewrite (Qfloor_comp _ (inject_Z 0 + 0.5)).
    - rewrite Qfloor_half. reflexivity.
    - unfold naturalVariation. cbv zeta. change (inject_Z 0) with 0%Q.
      rewrite Hp. ring. }
  destruct (0 <? length history)%nat; apply Hgoal.
Qed.

Lemma walk_on_stays_walk_on_witness :
  predicted_wait (fst (predictWaitTime utc "space-coaster" 0 15
                         [night_observation] (Some rainy) coaster
                         (frozen thursday_1245 0.9)))
  = 0%Q.
Proof.
  apply (walk_on_stays_walk_on utc "space-coaster" 0 15 [night_observation]
           (Some rainy) coaster (frozen thursday_1245 0.9));
    reflexivity.
Defined.

(** ** The contributing factors *)

Lemma generatePredictionFactors_run tz history weather attraction (w : World) :
  let now := clock_at w (clock_reads w) in
  fst (generatePredictionFactors tz history weather attraction w)
  = push_if ((11 <=? getHours tz now) && (getHours tz now <=? 15))
      (push_if ((getDay tz now =? 0) || (getDay tz now =? 6))
         (push_if (match details_thrill_level attraction with
                   | Some l => 4 <=? l
                   | None => false
                   end)
            (match weather with
             | Some weather =>
                 push_if (gt (temperature weather) 30 || lt (temperature weather) 10)
                   (push_if (gt (precipitation weather) 0)
                      ["historical_patterns"; "time_of_day"; "weather_conditions"]
                      "precipitation")
                   "temperature_extreme"
             | None => ["historical_patterns"; "time_of_day"]
             end)
            "high_thrill_attraction")
         "weekend")
      "peak_hours".
Proof. cbv zeta. destruct weather; reflexivity. Qed.

(** X6. The list of factors always starts with "historical_patterns" (even
    with an empty history) and "time_of_day", holds no tag twice and at
    most eight tags; "weather_conditions" is listed exactly when there is
    a weather snapshot, and "precipitation" and "temperature_extreme" only
    together with it. *)
Theorem factors_shape tz history weather attraction (w : World) :
  let factors := fst (generatePredictionFactors tz history weather attraction w) in
  (∃ rest, factors = "historical_patterns" :: "time_of_day" :: rest)
  ∧ NoDup factors
  ∧ (length factors ≤ 8)%nat
  ∧ ("weather_conditions" ∈ factors ↔ weather ≠ None)
  ∧ ("precipitation" ∈ factors → "weather_conditions" ∈ factors)
  ∧ ("temperature_extreme" ∈ factors → "weather_conditions" ∈ factors).
Proof.
  cbv zeta. rewrite generatePredictionFactors_run. cbv zeta.
  destruct weather as [wx|];
    [destruct (gt (precipitation wx) 0),
       (gt (temperature wx) 30 || lt (temperature wx) 10)|];
    destruct (match details_thrill_level attraction with
              | Some l => 4 <=? l
              | None => false
              end),
      ((getDay tz (clock_at w (clock_reads w)) =? 0)
       || (getDay tz (clock_at w (clock_reads w)) =? 6)),
      ((11 <=? getHours tz (clock_at w (clock_reads w)))
       && (getHours tz (clock_at w (clock_reads w)) <=? 15));
    cbn [push_if app];
    (split; [eexists; reflexivity|]);
    (split; [compute_done|]);
    (split; [simpl; lia|]);
    (split;
       [split; [intros H; first [discriminate | exfalso; revert H; compute_done]
               | intros H; first [congruence | compute_done]]|]);
    split; compute_done.
Qed.

Lemma adjustments_positive hour dayOfWeek currentWait weather attraction :
  (0 < currentWait)%Q →
  (0 < fst (adjustments hour dayOfWeek currentWait weather attraction))%Q.
Proof.
  intros H. unfold adjustments. cbv zeta.
  destruct weather as [wx|];
    repeat match goal with |- context [if ?b then _ else _] => destruct b end;
    cbn [fst]; lra.
Qed.

Lemma mem_push_if (b : bool) (factors : list string) (factor x : string) :
  x ∈ push_if b factors factor ↔ x ∈ factors ∨ (b = true ∧ x = factor).
Proof.
  unfold push_if. destruct b.
  - rewrite elem_of_app, list_elem_of_singleton. intuition.
  - intuition. discriminate.
Qed.

Lemma high_thrill_listed tz history weather attraction (w : World) :
  "high_thrill_attraction"
    ∈ fst (generatePredictionFactors tz history weather attraction w)
  ↔ 4 ≤ or_else_Z (details_thrill_level attraction) 3.
Proof.
  rewrite generatePredictionFactors_run. cbv zeta. rewrite !mem_push_if.
  assert (¬ "high_thrill_attraction"
            ∈ match weather with
              | Some weather =>
                  push_if (gt (temperature weather) 30 || lt (temperature weather) 10)
                    (push_if (gt (precipitation weather) 0)
                       ["historical_patterns"; "time_of_day"; "weather_conditions"]
                       "precipitation")
                    "temperature_extreme"
              | None => ["historical_patterns"; "time_of_day"]
              end) as Hbase.
  { destruct weather as [wx|]; [|compute_done].
    rewrite !mem_push_if. intros [[H | [_ H]] | [_ H]];
      [revert H; compute_done | discriminate | discriminate]. }
  assert (match details_thrill_level attraction with
          | Some l => 4 <=? l
          | None => false
          end = true
          ↔ 4 ≤ or_else_Z (details_thrill_level attraction) 3) as Htest.
  { unfold or_else_Z. destruct (details_thrill_level attraction) as [l|].
    - destruct (Z.leb_spec 4 l), (Z.eqb_spec l 0); split; intros Hl;
        try lia; try reflexivity; discriminate.
    - split; [discriminate | lia]. }
  rewrite <- Htest. split.
  - intros [[[Hin | [Hin _]] | [_ Hin]] | [_ Hin]];
      [contradiction | exact Hin | discriminate | discriminate].
  - intros Hin. do 2 left. right. split; [exact Hin | reflexivity].
Qed.

Lemma precipitation_listed tz history wx attraction (w : World) :
  "precipitation"
    ∈ fst (generatePredictionFactors tz history (Some wx) attraction w)
  ↔ Qltb 0 (or_else (precipitation wx) 0) = true.
Proof.
  rewrite generatePredictionFactors_run. cbv zeta. rewrite !mem_push_if.
  assert (gt (precipitation wx) 0 = Qltb 0 (or_else (precipitation wx) 0)) as ->.
  { unfold gt, or_else. destruct (precipitation wx) as [v|]; [|reflexivity].
    destruct (Qeq_bool v 0) eqn:E; [|reflexivity].
    apply Qeq_bool_iff in E. qcase (Qltb 0 v); [lra | reflexivity]. }
  split.
  - intros [[[[[H | [H _]] | [_ H]] | [_ H]] | [_ H]] | [_ H]];
      try discriminate; [revert H; compute_done | exact H].
  - intros H. do 4 left. right. split; [exact H | reflexivity].
Qed.

Lemma precipitation_unlisted tz history attraction (w : World) :
  ¬ "precipitation"
      ∈ fst (generatePredictionFactors tz history None attraction w).
Proof.
  rewrite generatePredictionFactors_run. cbv zeta. rewrite !mem_push_if.
  intros [[[H | [_ H]] | [_ H]] | [_ H]];
    try discriminate; revert H; compute_done.
Qed.

(** X7. The tags agree with the estimate, with or without a weather
    snapshot: "high_thrill_attraction" is listed exactly when the thrill
    level multiplies the prediction by 1.1, and "precipitation" exactly
    when the weather lowers the confidence below the initial 0.8, which
    never happens without a snapshot. *)
Theorem factors_agree_with_adjustments tz history
    (weather : option Conditions) attraction (w : World) hour dayOfWeek
    (currentWait : Q) :
  (0 < currentWait)%Q →
  let factors :=
    fst (generatePredictionFactors tz history weather attraction w) in
  ("high_thrill_attraction" ∈ factors
   ↔ (fst (adjustments hour dayOfWeek currentWait weather attraction)
      == 1.1 * fst (adjustments hour dayOfWeek currentWait weather
                      (without_details attraction)))%Q)
  ∧ ("precipitation" ∈ factors
     ↔ (snd (adjustments hour dayOfWeek currentWait weather attraction) < 0.8)%Q).
Proof.
  intros Hpos. cbv zeta. split.
  - rewrite high_thrill_listed.
    pose proof (adjustments_positive hour dayOfWeek currentWait weather
                  (without_details attraction) Hpos) as Hp.
    revert Hp. unfold adjustments. cbv zeta.
    change (details_thrill_level (without_details attraction)) with (@None Z).
    change (Attraction.type (without_details attraction))
      with (Attraction.type attraction).
    change (or_else_Z None 3) with 3. change (4 <=? 3) with false. cbv iota.
    destruct weather as [wx|];
      destruct (Z.leb_spec 4 (or_else_Z (details_thrill_level attraction) 3));
      repeat match goal with |- context [if ?b then _ else _] => destruct b end;
      cbn [fst]; intros Hp; split; intros Hgoal; try lia; try lra.
  - destruct weather as [wx|].
    + rewrite precipitation_listed. unfold adjustments. cbv zeta.
      destruct (Qltb 0 (or_else (precipitation wx) 0));
        repeat match goal with |- context [if ?b then _ else _] => destruct b end;
        cbn [snd]; split; intros Hgoal; try reflexivity; try discriminate; try lra.
    + split.
      * intros Hin. now apply precipitation_unlisted in Hin.
      * unfold adjustments. cbv zeta.
        repeat match goal with |- context [if ?b then _ else _] => destruct b end;
          cbn [snd]; lra.
Qed.

(** A rainy snapshot on the log flume, and the coaster of thrill level 5
    estimated without any snapshot. *)
Lemma factors_agree_with_adjustments_witness :
  "precipitation"
    ∈ fst (generatePredictionFactors utc [] (Some rainy) log_flume
             (frozen thursday_1245 0.5))
  ∧ "high_thrill_attraction"
      ∈ fst (generatePredictionFactors utc [] None coaster
               (frozen thursday_1245 0.5)).
Proof.
  split.
  - apply (proj2 (factors_agree_with_adjustments utc [] (Some rainy) log_flume
                    (frozen thursday_1245 0.5) 13 4 20 eq_refl)).
    reflexivity.
  - apply (proj1 (factors_agree_with_adjustments utc [] None coaster
                    (frozen thursday_1245 0.5) 13 4 20 eq_refl)).
    reflexivity.
Defined.

(** X8. A snapshot colder than 10 °C is tagged "temperature_extreme", yet
    the cold changes nothing in the estimate: the adjustments are those of
    the same snapshot without its temperature. *)
Theorem cold_is_listed_but_ignored tz history (wx : Conditions) (t : Q)
    attraction (w : World) hour dayOfWeek (currentWait : Q) :
  temperature wx = Some t → (t < 10)%Q →
  "temperature_extreme"
    ∈ fst (generatePredictionFactors tz history (Some wx) attraction w)
  ∧ adjustments hour dayOfWeek currentWait (Some wx) attraction
    = adjustments hour dayOfWeek currentWait (Some (without_temperature wx))
        attraction.
Proof.
  intros Ht Hcold. split.
  - rewrite generatePredictionFactors_run. cbv zeta. rewrite !mem_push_if.
    do 3 left. right. split; [|reflexivity].
    rewrite Ht. unfold gt, lt. apply orb_true_iff. right. now apply Qltb_lt.
  - unfold adjustments. cbv zeta.
    change (temperature (without_temperature wx)) with (@None Q).
    change (precipitation (without_temperature wx)) with (precipitation wx).
    rewrite Ht.
    assert (Qltb 30 (or_else (Some t) 25) = false) as ->.
    { unfold or_else. destruct (Qeq_bool t 0); apply Qltb_ge; lra. }
    reflexivity.
Qed.

Lemma cold_is_listed_but_ignored_witness :
  "temperature_extreme"
    ∈ fst (generatePredictionFactors utc [] (Some cold) log_flume
             (frozen thursday_1245 0.5))
  ∧ adjustments 13 4 20 (Some cold) log_flume
    = adjustments 13 4 20 (Some (without_temperature cold)) log_flume.
Proof.
  apply (cold_is_listed_but_ignored utc [] cold 4 log_flume
           (frozen thursday_1245 0.5) 13 4 20 eq_refl eq_refl).
Defined.

(** ** [generateWaitTimePrediction]: failures that are tolerated, and the
    use of the clock and of the random source *)

Lemma estimate_alternatives tz supabase attractionId timeWindows attraction
    waitTimeHistory weatherData w :
  WaitTimePrediction.alternative_attractions
    (fst (estimate tz supabase attractionId timeWindows attraction
            waitTimeHistory weatherData w))
  = findAlternativeAttractions supabase (Attraction.park_id attraction)
      (Attraction.type attraction)
      (or_else_Z (Attraction.wait_time attraction) 0).
Proof. unfold estimate. cbv zeta. now rewrite !run_bind. Qed.

(** X9. A failure of the alternatives query, whether it rejects, reports an
    error or resolves without data, never aborts the estimate: when the
    three other lookups succeed a prediction is returned, with an empty
    list of alternatives. *)
Theorem alternatives_failure_is_tolerated tz supabase attractionId timeWindows
    w attraction history weatherData weatherError :
  attraction_by_id supabase attractionId = Resolved (Some attraction) None →
  recent_wait_times supabase attractionId
    (clock_at w (clock_reads w) - 7 * 24 * 60 * 60 * 1000)
  = Resolved history None →
  latest_weather supabase (Attraction.park_id attraction)
  = Resolved weatherData weatherError →
  (∀ alternatives,
     open_attractions_below supabase (Attraction.park_id attraction)
       (Attraction.type attraction)
       (or_else_Z (Attraction.wait_time attraction) 0)
     ≠ Resolved (Some alternatives) None) →
  ∃ p,
    fst (generateWaitTimePrediction tz supabase attractionId timeWindows w)
    = Some p
    ∧ WaitTimePrediction.alternative_attractions p = [].
Proof.
  intros Ha Hh Hw Halt. eexists.
  split; [apply (generate_run _ _ _ _ _ _ _ _ _ Ha Hh Hw)|].
  rewrite estimate_alternatives. unfold findAlternativeAttractions.
  destruct (open_attractions_below supabase _ _ _) as [[alts|] [e|]|];
    try reflexivity.
  exfalso. apply (Halt alts). reflexivity.
Qed.

Lemma alternatives_failure_is_tolerated_witness :
  ∃ p,
    fst (generateWaitTimePrediction utc
           (with_alternatives (database_client magic_kingdom) Rejected)
           "space-coaster" [15] (frozen thursday_1245 0.5))
    = Some p
    ∧ WaitTimePrediction.alternative_attractions p = [].
Proof.
  apply (alternatives_failure_is_tolerated utc
           (with_alternatives (database_client magic_kingdom) Rejected)
           "space-coaster" [15] (frozen thursday_1245 0.5) coaster
           _ _ _ eq_refl eq_refl eq_refl).
  intros alternatives. discriminate.
Defined.

Lemma advanced_refl w : advanced 0 0 w w.
Proof. unfold advanced. now rewrite !Nat.add_0_r. Qed.

Lemma advanced_trans a b c d w w' w'' :
  advanced a b w w' → advanced c d w' w'' → advanced (a + c) (b + d) w w''.
Proof.
  unfold advanced. intros (H1 & H2 & H3 & H4) (H5 & H6 & H7 & H8).
  rewrite H5, H6, H7, H8, H1, H2, H3, H4. repeat split; lia.
Qed.

Lemma advanced_new_Date w : advanced 1 0 w (snd (new_Date w)).
Proof. unfold advanced, new_Date. simpl. repeat split; lia. Qed.

Lemma advanced_Math_random w : advanced 0 1 w (snd (Math_random w)).
Proof. unfold advanced, Math_random. simpl. repeat split; lia. Qed.

Lemma advanced_predictWaitTime tz attractionId currentWait minutesAhead history
    weather attraction w :
  advanced 1 1 w
    (snd (predictWaitTime tz attractionId currentWait minutesAhead history
            weather attraction w)).
Proof.
  unfold predictWaitTime. rewrite run_bind. cbv zeta.
  destruct (preJitter _ _ _ _ _ _ _) as [p c]. rewrite run_bind, run_ret.
  cbn [snd].
  apply (advanced_trans 1 0 0 1 _ _ _ (advanced_new_Date w)
           (advanced_Math_random _)).
Qed.

Lemma advanced_for_of {A S} (body : A → S → IO S) xs :
  (∀ x s w, advanced 1 1 w (snd (body x s w))) →
  ∀ acc w, advanced (length xs) (length xs) w (snd (for_of xs body acc w)).
Proof.
  intros Hbody. induction xs as [|x xs IH]; intros acc w; simpl.
  - apply advanced_refl.
  - rewrite run_bind.
    apply (advanced_trans 1 1 _ _ _ _ _ (Hbody x acc w) (IH _ _)).
Qed.

Lemma advanced_estimate tz supabase attractionId timeWindows attraction
    waitTimeHistory weatherData w :
  advanced (length timeWindows + 2) (length timeWindows) w
    (snd (estimate tz supabase attractionId timeWindows attraction
            waitTimeHistory weatherData w)).
Proof.
  unfold estimate. cbv zeta. rewrite !run_bind, run_ret. cbn [snd].
  unfold generatePredictionFactors at 1. cbv zeta. rewrite run_bind, run_ret.
  cbn [snd].
  match goal with
  | |- advanced _ _ _ (snd (new_Date (snd (new_Date ?w1)))) =>
      pose proof (advanced_new_Date w1) as H1;
      pose proof (advanced_new_Date (snd (new_Date w1))) as H2;
      assert (advanced (length timeWindows) (length timeWindows) w w1) as H0
  end.
  { apply advanced_for_of. intros x s w'. rewrite run_bind, run_ret. cbn [snd].
    apply advanced_predictWaitTime. }
  pose proof (advanced_trans _ _ _ _ _ _ _ H0
                (advanced_trans _ _ _ _ _ _ _ H1 H2)) as H.
  replace (length timeWindows + 2)%nat with (length timeWindows + (1 + 1))%nat
    by lia.
  replace (length timeWindows) with (length timeWindows + (0 + 0))%nat at 2
    by lia.
  exact H.
Qed.

(** X10. When the attraction lookup does not resolve to a row without an
    error, the function returns [null] at once: the clock is not read and
    no random number is drawn. *)
Theorem not_found_has_no_effect tz supabase attractionId timeWindows w :
  (∀ attraction,
     attraction_by_id supabase attractionId ≠ Resolved (Some attraction) None) →
  generateWaitTimePrediction tz supabase attractionId timeWindows w = (None, w).
Proof.
  intros H. unfold generateWaitTimePrediction.
  destruct (attraction_by_id supabase attractionId) as [[a|] [e|]|];
    try reflexivity.
  exfalso. apply (H a). reflexivity.
Qed.

Lemma not_found_has_no_effect_witness :
  generateWaitTimePrediction utc (database_client magic_kingdom) "teacups" [15; 30]
    (frozen thursday_1245 0.5)
  = (None, frozen thursday_1245 0.5).
Proof.
  apply (not_found_has_no_effect utc (database_client magic_kingdom) "teacups").
  intros attraction. discriminate.
Defined.

(** X11. When the three lookups succeed, an estimate for [n] windows draws
    exactly [n] random numbers, one per window, and reads the clock
    [n + 3] times: once for the history query, once per window, once for
    the factors and once for [last_updated]. *)
Theorem one_draw_per_window tz supabase attractionId timeWindows w attraction
    history weatherData weatherError :
  attraction_by_id supabase attractionId = Resolved (Some attraction) None →
  recent_wait_times supabase attractionId
    (clock_at w (clock_reads w) - 7 * 24 * 60 * 60 * 1000)
  = Resolved history None →
  latest_weather supabase (Attraction.park_id attraction)
  = Resolved weatherData weatherError →
  advanced (length timeWindows + 3) (length timeWindows) w
    (snd (generateWaitTimePrediction tz supabase attractionId timeWindows w)).
Proof.
  intros Ha Hh Hw. unfold generateWaitTimePrediction. rewrite Ha, run_bind.
  change (fst (Date_now w)) with (clock_at w (clock_reads w)).
  rewrite Hh, Hw, run_bind, run_ret. cbn [snd].
  pose proof (advanced_trans _ _ _ _ _ _ _ (advanced_new_Date w)
                (advanced_estimate tz supabase attractionId timeWindows
                   attraction history weatherData (snd (Date_now w)))) as H.
  replace (length timeWindows + 3)%nat with (1 + (length timeWindows + 2))%nat
    by lia.
  exact H.
Qed.

Lemma one_draw_per_window_witness :
  advanced 7 4 (frozen thursday_1245 0.5)
    (snd (generateWaitTimePrediction utc (database_client magic_kingdom)
            "space-coaster" [15; 30; 60; 120] (frozen thursday_1245 0.5))).
Proof.
  apply (one_draw_per_window utc (database_client magic_kingdom) "space-coaster"
           [15; 30; 60; 120] (frozen thursday_1245 0.5) coaster _ _ _
           eq_refl eq_refl eq_refl).
Defined.




(** * Properties of the weather route *)

(** ** The crowd impact *)

Lemma crowd_impact_ignores_the_rest (current other : Current.t)
    (hourly hourly' : Hourly.t) :
  (Current.temperature_2m other == Current.temperature_2m current)%Q →
  (Current.precipitation other == Current.precipitation current)%Q →
  crowd_impact (analyzeWeatherImpact other hourly')
  = crowd_impact (analyzeWeatherImpact current hourly).
Proof.
  intros Ht Hr. unfold analyzeWeatherImpact. cbv zeta.
  assert ((Current.temperature_2m other * 9 / 5 + 32
           == Current.temperature_2m current * 9 / 5 + 32)%Q) as Hf
    by now rewrite Ht.
  assert (∀ a b c d : Q, (a == b)%Q → (c == d)%Q → Qltb a c = Qltb b d) as Hlt.
  { intros a b c d Hab Hcd. unfold Qltb. f_equal. now apply Qleb_comp. }
  rewrite (Hlt _ _ _ _ (Qeq_refl 0.5) Hr), (Hlt _ _ _ _ (Qeq_refl 95) Hf),
    (Hlt _ _ _ _ Hf (Qeq_refl 40)), (Qleb_comp _ _ (Qeq_refl 70) _ _ Hf),
    (Qleb_comp _ _ Hf _ _ (Qeq_refl 85)), (Qeqb_comp _ _ Hr _ _ (Qeq_refl 0)).
  destruct (Qltb 35 (Current.wind_speed_10m other)),
    (Qltb 35 (Current.wind_speed_10m current));
    repeat match goal with |- context [if ?b then _ else _] => destruct b end;
    reflexivity.
Qed.

(** X13. The crowd impact depends on the temperature and the precipitation
    only, never on the wind (nor on the humidity, the weather code or the
    forecast): two readings with the same temperature and precipitation
    have the same impact. It takes one of three levels: 1.2 in perfect
    weather (70 to 85 °F and no precipitation), between 0.42 and 0.8 when
    it rains or is hotter than 95 °F or colder than 40 °F, where it is the
    product of 0.7 for rain above 0.5 mm and of 0.8 for heat or 0.6 for
    cold, and 1 otherwise; the weather widget then shows exactly one
    badge: higher, lower or normal crowds. *)
Theorem crowd_impact_levels (current : Current.t) (hourly : Hourly.t) :
  let tempF := (Current.temperature_2m current * 9 / 5 + 32)%Q in
  let rain := Current.precipitation current in
  let impact := crowd_impact (analyzeWeatherImpact current hourly) in
  let perfect := (70 <= tempF <= 85)%Q ∧ (rain == 0)%Q in
  let reduced := (0.5 < rain)%Q ∨ (95 < tempF)%Q ∨ (tempF < 40)%Q in
  (perfect → (impact == 1.2)%Q ∧ crowdBadges impact = [higher_crowds])
  ∧ (reduced → (0.42 <= impact <= 0.8)%Q ∧ crowdBadges impact = [lower_crowds])
  ∧ (¬ perfect → ¬ reduced →
     (impact == 1)%Q ∧ crowdBadges impact = [normal_crowds])
  ∧ (reduced →
     (impact == (if Qltb 0.5 rain then 0.7 else 1)
                * (if Qltb 95 tempF then 0.8
                   else if Qltb tempF 40 then 0.6 else 1))%Q)
  ∧ (∀ (other : Current.t) (hourly' : Hourly.t),
       (Current.temperature_2m other == Current.temperature_2m current)%Q →
       (Current.precipitation other == Current.precipitation current)%Q →
       crowd_impact (analyzeWeatherImpact other hourly') = impact).
Proof.
  cbv zeta.
  assert (∀ A B C D E : Prop, A ∧ B ∧ C → D → E → A ∧ B ∧ C ∧ D ∧ E) as Hsplit
    by tauto.
  apply Hsplit; clear Hsplit.
  - unfold analyzeWeatherImpact. cbv zeta.
    set (tempF := (Current.temperature_2m current * 9 / 5 + 32)%Q).
    set (rain := Current.precipitation current).
    destruct (Qltb 35 (Current.wind_speed_10m current));
      qcase (Qltb 0.5 rain); qcase (Qltb 95 tempF); qcase (Qltb tempF 40);
      qcase (Qle_bool 70 tempF); qcase (Qle_bool tempF 85);
      (destruct (Qeq_bool rain 0) eqn:Hdry;
         [apply Qeq_bool_iff in Hdry | apply Qeq_bool_neq in Hdry]);
      cbn [andb crowd_impact];
      (split; [|split]);
      try (intros [[? ?] ?]; first [lra | contradiction
                                   | split; [reflexivity | reflexivity]]);
      try (intros [? | [? | ?]];
           first [lra | split; [split; discriminate | reflexivity]]);
      try (intros Hnp Hnr; first
             [ exfalso; apply Hnp; split; [split|]; first [assumption | lra]
             | exfalso; apply Hnr; first [left; lra | right; left; lra
                                         | right; right; lra]
             | split; reflexivity ]).
  - unfold analyzeWeatherImpact. cbv zeta.
    set (tempF := (Current.temperature_2m current * 9 / 5 + 32)%Q).
    set (rain := Current.precipitation current).
    destruct (Qltb 35 (Current.wind_speed_10m current));
      qcase (Qltb 0.5 rain); qcase (Qltb 95 tempF); qcase (Qltb tempF 40);
      qcase (Qle_bool 70 tempF); qcase (Qle_bool tempF 85);
      (destruct (Qeq_bool rain 0) eqn:Hdry;
         [apply Qeq_bool_iff in Hdry | apply Qeq_bool_neq in Hdry]);
      cbn [andb crowd_impact];
      intros [? | [? | ?]]; first [lra | reflexivity].
  - intros other hourly'. apply crowd_impact_ignores_the_rest.
Qed.

Lemma crowd_impact_levels_witness :
  (crowd_impact (analyzeWeatherImpact windy (forecast [])) == 1.2)%Q
  ∧ (0.42 <= crowd_impact (analyzeWeatherImpact sleet (forecast [])) <= 0.8)%Q.
Proof.
  split.
  - apply (proj1 (crowd_impact_levels windy (forecast []))).
    split; [split; discriminate | reflexivity].
  - apply (proj1 (proj2 (crowd_impact_levels sleet (forecast [])))).
    left. reflexivity.
Defined.

(** ** The alerts *)

Lemma existsb_take_2 (l : list Q) :
  existsb (λ precip, Qltb 0.5 precip) (take 2 l) = true
  ↔ ∃ i precip, (i < 2)%nat ∧ l !! i = Some precip ∧ (0.5 < precip)%Q.
Proof.
  rewrite existsb_exists. split.
  - intros (p & Hin & Hp). apply list_elem_of_In, elem_of_take in Hin
      as (i & Hi & Hlt).
    exists i, p. repeat split; [exact Hlt | exact Hi | now apply Qltb_lt].
  - intros (i & p & Hlt & Hi & Hp). exists p. split; [|now apply Qltb_lt].
    apply list_elem_of_In, elem_of_take. eauto.
Qed.

Lemma alerts_raised_aux (current : Current.t) (hourly : Hourly.t) :
  ("wind_advisory" ∈ Alert.type <$> generateWeatherAlerts current hourly
   ↔ (30 < Current.wind_speed_10m current)%Q)
  ∧ (∀ a, a ∈ generateWeatherAlerts current hourly →
       Alert.type a = "wind_advisory" →
       (Alert.severity a = "high" ↔ (40 < Current.wind_speed_10m current)%Q)).
Proof.
  unfold generateWeatherAlerts. cbv zeta.
  destruct (existsb _ (take 2 (Hourly.precipitation hourly)));
    qcase (Qltb 30 (Current.wind_speed_10m current));
    qcase (Qltb 40 (Current.wind_speed_10m current));
    cbn [app fmap list_fmap Alert.type];
    (split; [split; [intros H; first [assumption | exfalso; revert H; compute_done]
                    | intros H; first [compute_done | lra]]|]);
    intros a Ha Htype;
    repeat match goal with
    | H : _ ∈ [] |- _ => apply elem_of_nil in H; contradiction
    | H : _ ∈ _ :: _ |- _ => apply elem_of_cons in H as [-> | H]
    end;
    try discriminate; cbn [Alert.severity];
    (split; intros Hs; first [reflexivity | discriminate | lra]).
Qed.

(** X14. There are at most two alerts, a wind advisory first and a rain
    alert second.  The wind advisory is raised exactly when the wind is
    above 30, with severity "high" exactly above 40; the rain alert exactly
    when one of the first two hourly precipitations of the forecast is
    above 0.5, the later hours playing no part. *)
Theorem alerts_raised (current : Current.t) (hourly : Hourly.t) :
  let wind := Current.wind_speed_10m current in
  let alerts := generateWeatherAlerts current hourly in
  let windy := (30 < wind)%Q in
  let rainy :=
    ∃ i precip, (i < 2)%nat ∧ Hourly.precipitation hourly !! i = Some precip
                ∧ (0.5 < precip)%Q in
  ("wind_advisory" ∈ Alert.type <$> alerts ↔ windy)
  ∧ ("heavy_rain" ∈ Alert.type <$> alerts ↔ rainy)
  ∧ (∃ first second,
       Alert.type <$> alerts = first ++ second
       ∧ (first = [] ∨ first = ["wind_advisory"])
       ∧ (second = [] ∨ second = ["heavy_rain"]))
  ∧ (∀ a, a ∈ alerts → Alert.type a = "wind_advisory" →
       (Alert.severity a = "high" ↔ (40 < wind)%Q)
       ∧ (Alert.severity a = "medium" ↔ (wind <= 40)%Q)).
Proof.
  cbv zeta. unfold generateWeatherAlerts. cbv zeta.
  pose proof (existsb_take_2 (Hourly.precipitation hourly)) as Hrain.
  destruct (existsb _ (take 2 (Hourly.precipitation hourly)));
    qcase (Qltb 30 (Current.wind_speed_10m current));
    qcase (Qltb 40 (Current.wind_speed_10m current));
    cbn [app fmap list_fmap Alert.type];
    (split; [split; [intros H; first [assumption | exfalso; revert H; compute_done]
                    | intros H; first [compute_done | lra]]|]);
    (split; [split; [intros H; first [now apply Hrain
                                     | exfalso; revert H; compute_done]
                    | intros H; first [compute_done
                                      | apply Hrain in H; discriminate]]|]);
    (split;
       [first [ exists ["wind_advisory"], ["heavy_rain"]; now auto
              | exists ["wind_advisory"], []; now auto
              | exists [], ["heavy_rain"]; now auto
              | exists [], []; now auto ]|]);
    intros a Ha Htype;
    repeat match goal with
    | H : _ ∈ [] |- _ => apply elem_of_nil in H; contradiction
    | H : _ ∈ _ :: _ |- _ => apply elem_of_cons in H as [-> | H]
    end;
    try discriminate; cbn [Alert.severity];
    (split; split; intros Hs; first [reflexivity | discriminate | lra]).
Qed.

(** X15. Whenever the impact warns that outdoor roller coasters may close
    for high winds, the alerts hold a wind advisory; and whenever the wind
    advisory has severity "high", the impact holds that warning. *)
Theorem wind_closure_and_advisory (current : Current.t) (hourly : Hourly.t) :
  let closures := attraction_closures (analyzeWeatherImpact current hourly) in
  let alerts := generateWeatherAlerts current hourly in
  let warning := "Outdoor roller coasters may close due to high winds" in
  (warning ∈ closures → "wind_advisory" ∈ Alert.type <$> alerts)
  ∧ (∀ a, a ∈ alerts → Alert.type a = "wind_advisory" →
       Alert.severity a = "high" → warning ∈ closures).
Proof.
  cbv zeta.
  destruct (alerts_raised_aux current hourly) as (Hwind & Hsev).
  assert ("Outdoor roller coasters may close due to high winds"
            ∈ attraction_closures (analyzeWeatherImpact current hourly)
          ↔ (35 < Current.wind_speed_10m current)%Q) as Hclosure.
  { unfold analyzeWeatherImpact. cbv zeta.
    qcase (Qltb 35 (Current.wind_speed_10m current));
      repeat match goal with |- context [if ?b then _ else _] => destruct b end;
      cbn [attraction_closures app];
      split; intros H; first [assumption | compute_done | lra
                             | exfalso; revert H; compute_done]. }
  split.
  - intros H. apply Hwind. apply Hclosure in H. lra.
  - intros a Ha Ht Hs. apply Hclosure.
    apply (Hsev a Ha Ht) in Hs. lra.
Qed.

Lemma wind_closure_and_advisory_witness :
  "wind_advisory" ∈ Alert.type <$> generateWeatherAlerts windy (forecast []).
Proof.
  apply (proj1 (wind_closure_and_advisory windy (forecast []))).
  compute_done.
Defined.

(** ** The comfort index *)

Lemma wind_factor w :
  ((if Qltb 5 w then Math.max 0.9 (1 - w * 0.02) else 1)
   == (if Qltb 5 w then 0.9 else 1))%Q.
Proof.
  qcase (Qltb 5 w); [|reflexivity].
  unfold Math.max. qcase (Qle_bool 0.9 (1 - w * 0.02)); lra.
Qed.

(** The score before rounding, and the index as its rounding between 0
    and 100. *)
Lemma comfort_before_rounding temperature humidity windSpeed :
  let tempF := (temperature * 9 / 5 + 32)%Q in
  ∃ score,
    calculateComfortIndex temperature humidity windSpeed
    = Math.max 0 (Math.min 100 (Math.round score))
    ∧ (score
       == ((100 - (if Qltb tempF 60 || Qltb 90 tempF
                   then Math.abs (75 - tempF) * 2 else 0))
           - (if Qltb humidity 30 || Qltb 70 humidity
              then Math.abs (50 - humidity) * 0.5 else 0))
          * (if Qltb 5 windSpeed then 0.9 else 1))%Q.
Proof.
  cbv zeta. eexists. split; [reflexivity|].
  rewrite wind_factor.
  destruct (_ || _), (_ || _); ring.
Qed.

Lemma round_comp x y : (x == y)%Q → Math.round x = Math.round y.
Proof.
  intros H. unfold Math.round. f_equal. apply Qfloor_comp. now rewrite H.
Qed.

(** X16. The wind only counts through the threshold of 5: two wind speeds
    on the same side of it give the same comfort index, however strong the
    wind. *)
Theorem wind_strength_is_ignored temperature humidity wind1 wind2 :
  Qltb 5 wind1 = Qltb 5 wind2 →
  calculateComfortIndex temperature humidity wind1
  = calculateComfortIndex temperature humidity wind2.
Proof.
  intros H.
  destruct (comfort_before_rounding temperature humidity wind1)
    as (s1 & -> & H1).
  destruct (comfort_before_rounding temperature humidity wind2)
    as (s2 & -> & H2).
  rewrite (round_comp s1 s2); [reflexivity|].
  rewrite H1, H2, H. reflexivity.
Qed.

Lemma wind_strength_is_ignored_witness :
  calculateComfortIndex 24 50 6 = calculateComfortIndex 24 50 60.
Proof. apply wind_strength_is_ignored. reflexivity. Defined.

Lemma bounded_index_le s b :
  (s <= inject_Z b)%Q → 0 ≤ b →
  (Math.max 0 (Math.min 100 (Math.round s)) <= inject_Z b)%Q.
Proof.
  intros Hs Hb. unfold Math.round.
  rewrite (min_inject_Z 100), (max_inject_Z 0), <- Zle_Qle.
  pose proof (round_le_bound s b Hs). lia.
Qed.

(** X17. The comfort index is 100 exactly in the comfortable band (60 to
    90 °F, 30 to 70 % of humidity, wind of 5 at most) and at most 90
    outside of it; with the temperature and the humidity in their bands
    the weather widget rates it "Excellent", whatever the wind. *)
Theorem comfort_band temperature humidity windSpeed :
  let tempF := (temperature * 9 / 5 + 32)%Q in
  let index := calculateComfortIndex temperature humidity windSpeed in
  let mild := (60 <= tempF <= 90)%Q ∧ (30 <= humidity <= 70)%Q in
  (mild ∧ (windSpeed <= 5)%Q → index = 100%Q)
  ∧ (¬ (mild ∧ (windSpeed <= 5)%Q) → (index <= 90)%Q)
  ∧ (mild → getComfortLevel index = "Excellent").
Proof.
  cbv zeta.
  destruct (comfort_before_rounding temperature humidity windSpeed)
    as (s & -> & Hs). cbv zeta in Hs.
  set (tempF := (temperature * 9 / 5 + 32)%Q) in *.
  assert (∀ x, 0 <= Math.abs x)%Q as Habs0
    by (intros x; unfold Math.abs; qcase (Qle_bool 0 x); lra).
  assert (∀ x, x <= Math.abs x ∧ - x <= Math.abs x)%Q as Habs
    by (intros x; unfold Math.abs; qcase (Qle_bool 0 x); split; lra).
  pose proof (Habs (75 - tempF)%Q) as [Ht1 Ht2].
  pose proof (Habs (50 - humidity)%Q) as [Hh1 Hh2].
  pose proof (Habs0 (75 - tempF)%Q) as Ht0.
  pose proof (Habs0 (50 - humidity)%Q) as Hh0.
  clear Habs Habs0. revert Hs Ht1 Ht2 Hh1 Hh2 Ht0 Hh0.
  generalize (Math.abs (75 - tempF)) (Math.abs (50 - humidity)).
  intros at_ ah Hs Ht1 Ht2 Hh1 Hh2 Ht0 Hh0.
  split; [|split].
  - intros [[[? ?] [? ?]] ?].
    rewrite (round_comp s 100); [reflexivity|]. rewrite Hs.
    qcase (Qltb tempF 60); [lra|]. qcase (Qltb 90 tempF); [lra|].
    qcase (Qltb humidity 30); [lra|]. qcase (Qltb 70 humidity); [lra|].
    qcase (Qltb 5 windSpeed); [lra|]. cbn [orb]. ring.
  - intros Hout. apply (bounded_index_le s 90); [|lia].
    change (inject_Z 90) with 90%Q. rewrite Hs.
    qcase (Qltb tempF 60); qcase (Qltb 90 tempF);
      qcase (Qltb humidity 30); qcase (Qltb 70 humidity);
      qcase (Qltb 5 windSpeed); cbn [orb]; lra.
  - intros [[? ?] [? ?]].
    assert (Math.round s = 100%Q ∨ Math.round s = 90%Q) as [-> | ->];
      [|reflexivity|reflexivity].
    qcase (Qltb tempF 60); [lra|]. qcase (Qltb 90 tempF); [lra|].
    qcase (Qltb humidity 30); [lra|]. qcase (Qltb 70 humidity); [lra|].
    cbn [orb] in Hs.
    qcase (Qltb 5 windSpeed);
      [right; rewrite (round_comp s 90) | left; rewrite (round_comp s 100)];
      first [reflexivity | rewrite Hs; ring].
Qed.

Lemma comfort_band_witness :
  calculateComfortIndex 24 50 3 = 100%Q
  ∧ getComfortLevel (calculateComfortIndex 24 50 38) = "Excellent".
Proof.
  split.
  - apply (proj1 (comfort_band 24 50 3)).
    repeat split; discriminate.
  - apply (proj2 (proj2 (comfort_band 24 50 38))).
    repeat split; discriminate.
Defined.

Lemma fahrenheit_of_celsius f :
  (celsius_of_fahrenheit f * 9 / 5 + 32 == f)%Q.
Proof. unfold celsius_of_fahrenheit. field. Qed.

(** X18. The comfort index is symmetric around 75 °F and around 50 % of
    humidity: the same distance above and below gives the same index. *)
Theorem comfort_is_symmetric (d e temperature humidity windSpeed : Q) :
  calculateComfortIndex (celsius_of_fahrenheit (75 + d)) humidity windSpeed
  = calculateComfortIndex (celsius_of_fahrenheit (75 - d)) humidity windSpeed
  ∧ calculateComfortIndex temperature (50 + e) windSpeed
    = calculateComfortIndex temperature (50 - e) windSpeed.
Proof.
  split.
  - destruct (comfort_before_rounding (celsius_of_fahrenheit (75 + d)) humidity
                windSpeed) as (s1 & -> & H1).
    destruct (comfort_before_rounding (celsius_of_fahrenheit (75 - d)) humidity
                windSpeed) as (s2 & -> & H2).
    cbv zeta in H1, H2.
    pose proof (fahrenheit_of_celsius (75 + d)) as Hup.
    pose proof (fahrenheit_of_celsius (75 - d)) as Hdown.
    revert H1 H2 Hup Hdown.
    generalize (celsius_of_fahrenheit (75 + d) * 9 / 5 + 32)%Q
      (celsius_of_fahrenheit (75 - d) * 9 / 5 + 32)%Q.
    intros up down H1 H2 Hup Hdown.
    rewrite (round_comp s1 s2); [reflexivity|]. rewrite H1, H2.
    unfold Math.abs.
    qcase (Qltb up 60); qcase (Qltb 90 up); qcase (Qltb down 60);
      qcase (Qltb 90 down); qcase (Qle_bool 0 (75 - up));
      qcase (Qle_bool 0 (75 - down)); cbn [orb];
      destruct (Qltb humidity 30 || Qltb 70 humidity), (Qltb 5 windSpeed); lra.
  - destruct (comfort_before_rounding temperature (50 + e) windSpeed)
      as (s1 & -> & H1).
    destruct (comfort_before_rounding temperature (50 - e) windSpeed)
      as (s2 & -> & H2).
    cbv zeta in H1, H2.
    rewrite (round_comp s1 s2); [reflexivity|]. rewrite H1, H2.
    unfold Math.abs.
    qcase (Qltb (50 + e) 30); qcase (Qltb 70 (50 + e)); qcase (Qltb (50 - e) 30);
      qcase (Qltb 70 (50 - e)); qcase (Qle_bool 0 (50 - (50 + e)));
      qcase (Qle_bool 0 (50 - (50 - e))); cbn [orb];
      destruct (Qltb (temperature * 9 / 5 + 32) 60
                || Qltb 90 (temperature * 9 / 5 + 32)), (Qltb 5 windSpeed);
      lra.
Qed.

(** X19. The copy of [calculateComfortIndex] in the utilities module, with
    its unused heat index, computes the same index as the one of the
    weather route. *)
Theorem comfort_index_copies_agree temperature humidity windSpeed :
  Utils.calculateComfortIndex temperature humidity windSpeed
  = calculateComfortIndex temperature humidity windSpeed.
Proof. reflexivity. Qed.

(** * The widgets on the estimates *)

Lemma adjustments_snd hour dayOfWeek currentWait weather attraction :
  snd (adjustments hour dayOfWeek currentWait weather attraction)
  = match weather with
    | Some wx =>
        if Qltb 0 (or_else (precipitation wx) 0) then
          if bool_decide (Attraction.type attraction = "dark_ride")
             || bool_decide (Attraction.type attraction = "show")
          then (0.8 * 0.9)%Q else (0.8 * 0.8)%Q
        else 0.8%Q
    | None => 0.8%Q
    end.
Proof.
  unfold adjustments. cbv zeta. destruct weather as [wx|]; [|reflexivity].
  destruct (Qltb 0 _); [|reflexivity]. now destruct (_ || _).
Qed.

(** X20. The predictions widget colours the confidence of an estimate in
    red exactly when it rains on an attraction that is neither a dark ride
    nor a show and the history, not empty, has no observation within one
    hour of the projected hour; and in green exactly when it does not rain
    and the history is empty or has such an observation. *)
Theorem confidence_colour tz attractionId currentWait minutesAhead history
    weather attraction (w : World) :
  let futureTime := clock_at w (clock_reads w) + minutesAhead * 60 * 1000 in
  let similar := similarTimes tz (getHours tz futureTime) history in
  let rain :=
    match weather with
    | Some wx => Qltb 0 (or_else (precipitation wx) 0)
    | None => false
    end in
  let indoor :=
    bool_decide (Attraction.type attraction = "dark_ride")
    || bool_decide (Attraction.type attraction = "show") in
  let colour :=
    getConfidenceColor
      (confidence (fst (predictWaitTime tz attractionId currentWait minutesAhead
                          history weather attraction w))) in
  (colour = "text-red-600"
   ↔ rain = true ∧ indoor = false ∧ history ≠ [] ∧ similar = [])
  ∧ (colour = "text-green-600"
     ↔ rain = false ∧ (history = [] ∨ similar ≠ [])).
Proof.
  cbv zeta. rewrite predictWaitTime_run. cbv zeta. unfold preJitter.
  pose proof (adjustments_snd
                (getHours tz (clock_at w (clock_reads w) + minutesAhead * 60 * 1000))
                (getDay tz (clock_at w (clock_reads w) + minutesAhead * 60 * 1000))
                currentWait weather attraction) as Hc.
  destruct (adjustments _ _ currentWait weather attraction) as [p c].
  cbn [snd] in Hc. subst c. unfold historicalPatternMatching.
  set (similar := similarTimes tz _ history).
  pose proof (length_pos history) as Hh1. pose proof (length_zero history) as Hh0.
  pose proof (length_pos similar) as Hs1. pose proof (length_zero similar) as Hs0.
  destruct (0 <? length history)%nat; [destruct (0 <? length similar)%nat|];
    (destruct weather as [wx|];
       [destruct (Qltb 0 (or_else (precipitation wx) 0));
          [destruct (_ || _)|]|]);
    cbn [snd fst];
    unfold reasonableBounds, confidence;
    match goal with
    | |- context [getConfidenceColor ?x] =>
        let v := eval vm_compute in (getConfidenceColor x) in
        change (getConfidenceColor x) with v
    end;
    split; split; intros H; try discriminate;
    repeat match goal with
    | H : _ ∧ _ |- _ => destruct H
    | H : _ ∨ _ |- _ => destruct H
    end;
    try discriminate; try reflexivity;
    try (exfalso; intuition congruence);
    intuition congruence.
Qed.

Lemma confidence_colour_witness :
  getConfidenceColor
    (confidence (fst (predictWaitTime utc "log-flume" 20 15 [night_observation]
                        (Some rainy) log_flume (frozen thursday_1245 0.5))))
  = "text-red-600".
Proof.
  apply (proj1 (confidence_colour utc "log-flume" 20 15 [night_observation]
                  (Some rainy) log_flume (frozen thursday_1245 0.5))).
  repeat split; first [reflexivity | discriminate].
Defined.

Lemma alerts_raised_witness :
  "heavy_rain" ∈ Alert.type <$> generateWeatherAlerts windy (forecast [0; 0.6; 3]%Q).
Proof.
  apply (proj1 (proj2 (alerts_raised windy (forecast [0; 0.6; 3]%Q)))).
  exists 1%nat, 0.6%Q. repeat split; first [lia | reflexivity].
Defined.

Lemma factors_shape_witness :
  "weather_conditions"
    ∈ fst (generatePredictionFactors utc [] (Some rainy) log_flume
             (frozen thursday_1245 0.5)).
Proof.
  apply (proj1 (proj2 (proj2 (proj2
           (factors_shape utc [] (Some rainy) log_flume
              (frozen thursday_1245 0.5)))))).
  discriminate.
Defined.

(** * Properties of the [GET] handler of the predictions route *)

Lemma generate_not_found tz supabase attractionId timeWindows w :
  (∀ attraction,
     attraction_by_id supabase attractionId ≠ Resolved (Some attraction) None) →
  generateWaitTimePrediction tz supabase attractionId timeWindows w = (None, w).
Proof.
  intros H. unfold generateWaitTimePrediction.
  destruct (attraction_by_id supabase attractionId) as [[a|] [e|]|];
    try reflexivity.
  exfalso. apply (H a). reflexivity.
Qed.

Lemma estimate_attraction_id tz supabase attractionId timeWindows attraction
    waitTimeHistory weatherData w :
  WaitTimePrediction.attraction_id
    (fst (estimate tz supabase attractionId timeWindows attraction
            waitTimeHistory weatherData w))
  = attractionId.
Proof. unfold estimate. cbv zeta. now rewrite !run_bind. Qed.

Lemma generate_attraction_id tz supabase attractionId timeWindows w p :
  fst (generateWaitTimePrediction tz supabase attractionId timeWindows w) = Some p →
  WaitTimePrediction.attraction_id p = attractionId.
Proof.
  unfold generateWaitTimePrediction.
  destruct (attraction_by_id supabase attractionId) as [[a|] [e|]|];
    try discriminate.
  rewrite run_bind.
  destruct (recent_wait_times supabase attractionId _) as [h [e|]|];
    try discriminate.
  destruct (latest_weather supabase _) as [wd we|]; try discriminate.
  rewrite run_bind, run_ret. cbn [fst]. intros [= <-].
  apply estimate_attraction_id.
Qed.

(** X21. A request with neither [attraction_id] nor [park_id], the empty
    string counting as missing, is answered with status 400 and the code
    VALIDATION_ERROR, whatever the other parameters and the state of the
    database: the clock is not read and nothing is drawn. *)
Theorem predictions_request_without_target tz supabase open_attractions_of uuid
    observed request (w : World) :
  PredictionsQuery.attraction_id request = None
  ∨ PredictionsQuery.attraction_id request = Some "" →
  PredictionsQuery.park_id request = None
  ∨ PredictionsQuery.park_id request = Some "" →
  Predictions.GET tz supabase open_attractions_of uuid observed request w
  = ({| PredictionsResponse.status := 400;
        PredictionsResponse.json :=
          PredictionsResponse.failure "VALIDATION_ERROR"
            "Either attraction_id or park_id must be provided" None |},
     w).
Proof.
  intros Ha Hp. unfold Predictions.GET. cbv zeta.
  destruct Ha as [-> | ->], Hp as [-> | ->]; reflexivity.
Qed.

(** X22. With an [attraction_id], the [park_id] of the request is never
    looked at and the status is always 200: the data hold the prediction
    of that attraction whenever the estimate returns one, and nothing at
    all when the attraction is unknown or the estimate fails, which is
    not reported as an error. *)
Theorem predictions_for_one_attraction tz supabase open_attractions_of uuid
    observed request attractionId (w : World) :
  truthy (PredictionsQuery.attraction_id request) = Some attractionId →
  let timeWindows :=
    default [15; 30; 60; 120] (PredictionsQuery.time_windows request) in
  let estimated :=
    fst (generateWaitTimePrediction tz supabase attractionId timeWindows w) in
  let response :=
    fst (Predictions.GET tz supabase open_attractions_of uuid observed request w) in
  PredictionsResponse.status response = 200
  ∧ (∃ data timestamp,
       PredictionsResponse.json response
       = PredictionsResponse.success data timestamp "1.0.0" uuid "1.2.3"
           timeWindows
       ∧ (data = []
          ∨ ∃ p, data = [p] ∧ WaitTimePrediction.attraction_id p = attractionId)
       ∧ ((∀ attraction,
             attraction_by_id supabase attractionId
             ≠ Resolved (Some attraction) None) →
          data = [])
       ∧ (∀ p, estimated = Some p → data = [p])
       ∧ (estimated = None → data = []))
  ∧ ∀ park open_attractions_of' observed',
      Predictions.GET tz supabase open_attractions_of' uuid observed'
        {| PredictionsQuery.attraction_id := PredictionsQuery.attraction_id request;
           PredictionsQuery.park_id := park;
           PredictionsQuery.time_windows := PredictionsQuery.time_windows request |}
        w
      = Predictions.GET tz supabase open_attractions_of uuid observed request w.
Proof.
  intros Hid. cbv zeta. unfold Predictions.GET. cbv zeta. cbn [PredictionsQuery.attraction_id PredictionsQuery.park_id PredictionsQuery.time_windows].
  rewrite Hid.
  split; [|split].
  - destruct (truthy (PredictionsQuery.park_id request));
      now rewrite run_bind.
  - destruct (truthy (PredictionsQuery.park_id request));
      rewrite run_bind; unfold Predictions.respond; rewrite run_bind, run_ret;
      cbn [fst PredictionsResponse.json];
      (eexists _, _; split; [reflexivity|]; split; [|split; [|split]];
         [ destruct (fst (generateWaitTimePrediction _ _ _ _ _)) as [p|] eqn:E;
             [right; exists p; split;
                [reflexivity | apply (generate_attraction_id _ _ _ _ _ _ E)]
             | left; reflexivity]
         | intros Hnone; now rewrite generate_not_found
         | intros p ->; reflexivity
         | intros ->; reflexivity ]).
  - intros park oa' ob'.
    destruct (truthy park), (truthy (PredictionsQuery.park_id request));
      reflexivity.
Qed.

Lemma predictions_request_without_target_witness :
  PredictionsResponse.status
    (fst (Predictions.GET utc (database_client magic_kingdom)
            (open_attractions_in magic_kingdom) "request-1"
            (all_frozen thursday_1245 0.5) for_nothing (frozen thursday_1245 0.5)))
  = 400.
Proof.
  rewrite (predictions_request_without_target utc (database_client magic_kingdom)
             (open_attractions_in magic_kingdom) "request-1"
             (all_frozen thursday_1245 0.5) for_nothing (frozen thursday_1245 0.5)
             (or_intror eq_refl) (or_introl eq_refl)).
  reflexivity.
Defined.

Lemma predictions_for_one_attraction_witness :
  PredictionsResponse.status
    (fst (Predictions.GET utc (database_client magic_kingdom)
            (open_attractions_in magic_kingdom) "request-2"
            (all_frozen thursday_1245 0.5) (for_attraction "teacups")
            (frozen thursday_1245 0.5)))
  = 200.
Proof.
  apply (proj1 (predictions_for_one_attraction utc (database_client magic_kingdom)
                  (open_attractions_in magic_kingdom) "request-2"
                  (all_frozen thursday_1245 0.5) (for_attraction "teacups")
                  "teacups" (frozen thursday_1245 0.5) eq_refl)).
Defined.

(** X23. Without a [time_windows] parameter, a request for an attraction
    whose lookups succeed is answered with one prediction whose mapping
    has exactly the keys "15", "30", "60" and "120", the windows that the
    response echoes: the entries "15" and "30" that the widgets read are
    there. *)
Theorem default_windows tz supabase open_attractions_of uuid observed request
    attractionId (w : World) attraction history weatherData weatherError :
  truthy (PredictionsQuery.attraction_id request) = Some attractionId →
  PredictionsQuery.time_windows request = None →
  attraction_by_id supabase attractionId = Resolved (Some attraction) None →
  recent_wait_times supabase attractionId
    (clock_at w (clock_reads w) - 7 * 24 * 60 * 60 * 1000)
  = Resolved history None →
  latest_weather supabase (Attraction.park_id attraction)
  = Resolved weatherData weatherError →
  ∃ p timestamp,
    PredictionsResponse.json
      (fst (Predictions.GET tz supabase open_attractions_of uuid observed
              request w))
    = PredictionsResponse.success [p] timestamp "1.0.0" uuid "1.2.3"
        [15; 30; 60; 120]
    ∧ ∀ key, is_Some (WaitTimePrediction.predictions p !! key)
             ↔ key ∈ ["15"; "30"; "60"; "120"].
Proof.
  intros Hid Hwin Ha Hh Hw. unfold Predictions.GET. cbv zeta.
  rewrite Hid, Hwin. cbn [default].
  pose proof (generate_run tz supabase attractionId [15; 30; 60; 120] w attraction
                history weatherData weatherError Ha Hh Hw) as Hrun.
  destruct (truthy (PredictionsQuery.park_id request));
    rewrite run_bind; unfold Predictions.respond; rewrite run_bind, run_ret;
    cbn [fst PredictionsResponse.json]; rewrite Hrun;
    (eexists _, _; split; [reflexivity|]);
    intros key; rewrite <- elem_of_dom, estimate_windows, elem_of_list_to_set;
    reflexivity.
Qed.

Lemma default_windows_witness :
  ∃ p timestamp,
    PredictionsResponse.json
      (fst (Predictions.GET utc (database_client magic_kingdom)
              (open_attractions_in magic_kingdom) "request-3"
              (all_frozen thursday_1245 0.5) (for_attraction "space-coaster")
              (frozen thursday_1245 0.5)))
    = PredictionsResponse.success [p] timestamp "1.0.0" "request-3" "1.2.3"
        [15; 30; 60; 120]
    ∧ is_Some (WaitTimePrediction.predictions p !! "30").
Proof.
  destruct (default_windows utc (database_client magic_kingdom)
              (open_attractions_in magic_kingdom) "request-3"
              (all_frozen thursday_1245 0.5) (for_attraction "space-coaster")
              "space-coaster" (frozen thursday_1245 0.5) coaster _ _ _
              eq_refl eq_refl eq_refl eq_refl eq_refl) as (p & ts & Hjson & Hkeys).
  exists p, ts. split; [exact Hjson|]. apply Hkeys. compute_done.
Defined.

Lemma elem_of_omap_imap {A B} (g : nat → A → option B) (l : list A) (y : B) :
  y ∈ omap (λ p, p) (imap g l) ↔ ∃ i x, l !! i = Some x ∧ g i x = Some y.
Proof.
  rewrite list_elem_of_omap. split.
  - intros (o & Ho & Hy). apply list_elem_of_lookup in Ho as [i Hi].
    rewrite list_lookup_imap in Hi.
    destruct (l !! i) as [x|] eqn:E; [|discriminate].
    exists i, x. split; [exact E|]. simpl in Hi. congruence.
  - intros (i & x & Hi & Hg). exists (Some y). split; [|reflexivity].
    apply list_elem_of_lookup. exists i. rewrite list_lookup_imap, Hi.
    simpl. now rewrite Hg.
Qed.

Lemma omap_imap_sublist {B} (key : B → string) (g : nat → string → option B)
    (l : list string) :
  (∀ i x y, g i x = Some y → key y = x) →
  (key <$> omap (λ p, p) (imap g l)) `sublist_of` l.
Proof.
  revert g. induction l as [|x l IH]; intros g Hg; [constructor|].
  rewrite imap_cons. cbn [omap list_omap].
  destruct (g 0%nat x) as [y|] eqn:E.
  - cbn [fmap list_fmap]. rewrite (Hg _ _ _ E). apply sublist_skip.
    apply IH. intros i x' y' H. apply (Hg (S i)). exact H.
  - apply sublist_cons. apply IH. intros i x' y' H. apply (Hg (S i)). exact H.
Qed.

(** X24. For a park, the call for each open attraction is made whatever
    becomes of the others, and under every interleaving of the calls the
    status is 200 and the data hold exactly the predictions of the calls
    that returned one, in the order of the attractions: a call that
    returns [null] is skipped.  A failure of the query for the open
    attractions is answered with status 500 and the code INTERNAL_ERROR. *)
Theorem batch_skips_failures tz supabase open_attractions_of uuid observed
    request park (w : World) :
  truthy (PredictionsQuery.attraction_id request) = None →
  truthy (PredictionsQuery.park_id request) = Some park →
  let response :=
    fst (Predictions.GET tz supabase open_attractions_of uuid observed request w) in
  let timeWindows :=
    default [15; 30; 60; 120] (PredictionsQuery.time_windows request) in
  let outcome (i : nat) (id : string) :=
    fst (generateWaitTimePrediction tz supabase id timeWindows (observed i)) in
  (∀ attractions,
     open_attractions_of park = Resolved (Some attractions) None →
     PredictionsResponse.status response = 200
     ∧ ∃ data timestamp,
         PredictionsResponse.json response
         = PredictionsResponse.success data timestamp "1.0.0" uuid "1.2.3"
             timeWindows
         ∧ (WaitTimePrediction.attraction_id <$> data) `sublist_of` attractions
         ∧ ∀ p, p ∈ data
                ↔ ∃ i id, attractions !! i = Some id ∧ outcome i id = Some p)
  ∧ ((∀ attractions,
        open_attractions_of park ≠ Resolved (Some attractions) None) →
     PredictionsResponse.status response = 500
     ∧ ∃ timestamp,
         PredictionsResponse.json response
         = PredictionsResponse.failure "INTERNAL_ERROR"
             "An unexpected error occurred" (Some (timestamp, uuid))).
Proof.
  intros Hid Hpark. cbv zeta. unfold Predictions.GET. cbv zeta.
  rewrite Hid, Hpark. split.
  - intros attractions ->. unfold Predictions.respond. rewrite run_bind, run_ret.
    cbn [fst PredictionsResponse.status PredictionsResponse.json].
    split; [reflexivity|]. eexists _, _. split; [reflexivity|]. split.
    + apply omap_imap_sublist. intros i id p H.
      apply (generate_attraction_id _ _ _ _ _ _ H).
    + intros p. apply elem_of_omap_imap.
  - intros Hfail.
    destruct (open_attractions_of park) as [[attractions|] [e|]|];
      try (exfalso; apply (Hfail attractions); reflexivity);
      unfold Predictions.internal_error; rewrite run_bind, run_ret;
      cbn [fst PredictionsResponse.status PredictionsResponse.json];
      (split; [reflexivity | eexists; reflexivity]).
Qed.

Lemma batch_skips_failures_witness :
  PredictionsResponse.status
    (fst (Predictions.GET utc
            (with_history (database_client magic_kingdom)
               (Resolved None (Some "upstream unavailable")))
            (open_attractions_in magic_kingdom) "request-4"
            (all_frozen thursday_1245 0.5) (for_park "magic-kingdom")
            (frozen thursday_1245 0.5)))
  = 200.
Proof.
  apply (proj1 (batch_skips_failures utc
                  (with_history (database_client magic_kingdom)
                     (Resolved None (Some "upstream unavailable")))
                  (open_attractions_in magic_kingdom) "request-4"
                  (all_frozen thursday_1245 0.5) (for_park "magic-kingdom")
                  "magic-kingdom" (frozen thursday_1245 0.5) eq_refl eq_refl)
           _ eq_refl).
Defined.

(** * Properties of the [GET] handler of the weather route *)

(** X25. For a known park whose latest stored row is less than ten minutes
    old at the reading of the clock, the response has status 200 and
    carries the stored conditions, forecast, alerts and impact, with the
    row's timestamp as [last_updated]; no forecast is requested and
    nothing is inserted. *)
Theorem fresh_row_is_served service uuid request parkId park row rowError
    (w : World) :
  truthy (Weather.q_park_id request) = Some parkId →
  Weather.park_location service parkId = Resolved park None →
  Weather.latest_row service parkId = Resolved (Some row) rowError →
  clock_at w (clock_reads w) - Weather.timestamp row < 10 * 60 * 1000 →
  ∃ timestamp,
    fst (Weather.GET service uuid request w)
    = ({| Weather.status := 200;
          Weather.json :=
            Weather.success
              {| Weather.park_id := Some parkId;
                 Weather.current := Weather.current_conditions row;
                 Weather.forecast := Weather.row_forecast row;
                 Weather.alerts := Weather.row_alerts row;
                 Weather.impact := Weather.row_impact row;
                 Weather.last_updated := Weather.timestamp row |}
              timestamp "1.0.0" uuid |},
       []).
Proof.
  intros Hid Hpark Hrow Hfresh. unfold Weather.GET.
  rewrite Hid, Hpark, Hrow, !run_bind, run_ret. cbn [fst snd].
  change (fst (new_Date w)) with (clock_at w (clock_reads w)).
  rewrite (bool_decide_eq_true_2 _ Hfresh).
  unfold Weather.respond. rewrite run_bind, run_ret. cbn [fst].
  eexists. reflexivity.
Qed.

Lemma fresh_row_is_served_witness :
  snd (fst (Weather.GET (one_park_service 45800000) "request-5"
              (weather_of_park "magic-kingdom") (frozen thursday_1245 0.5)))
  = [].
Proof.
  destruct (fresh_row_is_served (one_park_service 45800000) "request-5"
              (weather_of_park "magic-kingdom") "magic-kingdom" _
              (stored_row "magic-kingdom" 45800000) None
              (frozen thursday_1245 0.5) eq_refl eq_refl eq_refl eq_refl)
    as [timestamp H].
  rewrite H. reflexivity.
Defined.

Lemma fetch_events service lat lng parkId (w : World) :
  snd (fst (Weather.fetchWeatherFromAPI service lat lng parkId w))
  = [Weather.requested_forecast lat lng].
Proof.
  unfold Weather.fetchWeatherFromAPI.
  destruct (Weather.forecast_at service lat lng) as [|[|] [body|]];
    reflexivity.
Qed.

Lemma fetch_data service lat lng parkId (w : World) :
  match Weather.forecast_at service lat lng with
  | fetch_resolved true (Some body) =>
      ∃ fresh,
        fst (fst (Weather.fetchWeatherFromAPI service lat lng parkId w))
        = Some fresh
        ∧ Weather.park_id fresh = parkId
        ∧ Weather.last_updated fresh = clock_at w (clock_reads w)
  | _ => fst (fst (Weather.fetchWeatherFromAPI service lat lng parkId w)) = None
  end.
Proof.
  unfold Weather.fetchWeatherFromAPI.
  destruct (Weather.forecast_at service lat lng) as [|[|] [body|]];
    try reflexivity.
  rewrite run_bind, run_ret. cbn [fst]. eexists. repeat split.
Qed.

(** The handler on a known park whose stored row is missing or stale. *)
Lemma refresh_run service uuid request parkId park dbWeather rowError
    (w : World) :
  truthy (Weather.q_park_id request) = Some parkId →
  Weather.park_location service parkId = Resolved (Some park) None →
  Weather.latest_row service parkId = Resolved dbWeather rowError →
  (∀ row, dbWeather = Some row →
     10 * 60 * 1000 ≤ clock_at w (clock_reads w) - Weather.timestamp row) →
  let lat := Weather.coordinate (Weather.location park) Weather.x 28.3852 in
  let lng := Weather.coordinate (Weather.location park) Weather.y (-81.5812) in
  ∃ w',
    let fetch := fst (Weather.fetchWeatherFromAPI service lat lng (Some parkId) w') in
    fst (Weather.GET service uuid request w)
    = match fst fetch with
      | Some fresh =>
          let new := {|
            Weather.new_park_id := parkId;
            Weather.new_current_conditions := Weather.current fresh;
            Weather.new_forecast := Weather.forecast fresh;
            Weather.new_alerts := Weather.alerts fresh;
            Weather.new_impact := Weather.impact fresh;
          |} in
          match Weather.insert service new with
          | Rejected =>
              fst (Weather.internal_error uuid
                     (snd fetch ++ [Weather.requested_insert new])
                     (snd (Weather.fetchWeatherFromAPI service lat lng
                             (Some parkId) w')))
          | Resolved _ _ =>
              fst (Weather.respond uuid (Some fresh)
                     (snd fetch ++ [Weather.requested_insert new])
                     (snd (Weather.fetchWeatherFromAPI service lat lng
                             (Some parkId) w')))
          end
      | None =>
          fst (Weather.respond uuid None (snd fetch)
                 (snd (Weather.fetchWeatherFromAPI service lat lng
                         (Some parkId) w')))
      end.
Proof.
  intros Hid Hpark Hrow Hstale. cbv zeta. unfold Weather.GET.
  rewrite Hid, Hpark, Hrow, run_bind.
  assert (∃ w',
            match dbWeather with
            | Some dbWeather =>
                now ← new_Date;
                mret (bool_decide (now - Weather.timestamp dbWeather < 10 * 60 * 1000))
            | None => mret false
            end w = (false, w')) as [w' Hrecent].
  { destruct dbWeather as [row|]; [|eexists; reflexivity].
    rewrite run_bind, run_ret.
    change (fst (new_Date w)) with (clock_at w (clock_reads w)).
    rewrite bool_decide_eq_false_2; [eexists; reflexivity|].
    specialize (Hstale row eq_refl). lia. }
  rewrite Hrecent. cbn [fst snd]. exists w'.
  assert (∀ A (a b : A), match dbWeather with
                         | Some _ => a
                         | None => a
                         end = a) as Hsame by (intros; now destruct dbWeather).
  destruct dbWeather as [row|]; rewrite run_bind;
    destruct (fst (Weather.fetchWeatherFromAPI service _ _ (Some parkId) w'))
      as [[fresh|] events]; cbn [fst snd];
    try destruct (Weather.insert service _); reflexivity.
Qed.

(** X26. For a known park whose stored row is missing or at least ten
    minutes old, one forecast is requested, at the park's coordinates.
    When it fails, the status is 503 and nothing is inserted; when it
    succeeds, one row is inserted for the park, with the conditions,
    forecast, alerts and impact of the response, and the status is 200, or
    500 when the insertion rejects. *)
Theorem stale_row_is_refreshed service uuid request parkId park dbWeather
    rowError (w : World) :
  truthy (Weather.q_park_id request) = Some parkId →
  Weather.park_location service parkId = Resolved (Some park) None →
  Weather.latest_row service parkId = Resolved dbWeather rowError →
  (∀ row, dbWeather = Some row →
     10 * 60 * 1000 ≤ clock_at w (clock_reads w) - Weather.timestamp row) →
  let lat := Weather.coordinate (Weather.location park) Weather.x 28.3852 in
  let lng := Weather.coordinate (Weather.location park) Weather.y (-81.5812) in
  let reply := fst (fst (Weather.GET service uuid request w)) in
  let events := snd (fst (Weather.GET service uuid request w)) in
  match Weather.forecast_at service lat lng with
  | fetch_resolved true (Some body) =>
      ∃ new fresh timestamp,
        events = [Weather.requested_forecast lat lng; Weather.requested_insert new]
        ∧ Weather.new_park_id new = parkId
        ∧ Weather.new_current_conditions new = Weather.current fresh
        ∧ Weather.new_forecast new = Weather.forecast fresh
        ∧ Weather.new_alerts new = Weather.alerts fresh
        ∧ Weather.new_impact new = Weather.impact fresh
        ∧ match Weather.insert service new with
          | Rejected => Weather.status reply = 500
          | Resolved _ _ =>
              reply = {| Weather.status := 200;
                         Weather.json :=
                           Weather.success fresh timestamp "1.0.0" uuid |}
          end
  | _ =>
      events = [Weather.requested_forecast lat lng]
      ∧ Weather.status reply = 503
  end.
Proof.
  intros Hid Hpark Hrow Hstale. cbv zeta.
  destruct (refresh_run service uuid request parkId park dbWeather rowError w
              Hid Hpark Hrow Hstale) as [w' Hrun].
  cbv zeta in Hrun. rewrite Hrun. clear Hrun.
  set (lat := Weather.coordinate (Weather.location park) Weather.x 28.3852).
  set (lng := Weather.coordinate (Weather.location park) Weather.y (-81.5812)).
  pose proof (fetch_events service lat lng (Some parkId) w') as Hev.
  pose proof (fetch_data service lat lng (Some parkId) w') as Hdata.
  destruct (Weather.forecast_at service lat lng) as [|[|] [body|]];
    try (rewrite Hdata, Hev; split; reflexivity).
  destruct Hdata as (fresh & Hfresh & _). rewrite Hfresh, Hev. cbv zeta.
  set (new := {| Weather.new_park_id := parkId;
                 Weather.new_current_conditions := Weather.current fresh;
                 Weather.new_forecast := Weather.forecast fresh;
                 Weather.new_alerts := Weather.alerts fresh;
                 Weather.new_impact := Weather.impact fresh |}).
  exists new, fresh.
  destruct (Weather.insert service new) as [d e|].
  - unfold Weather.respond. rewrite run_bind, run_ret. cbn [fst snd].
    eexists. repeat split.
  - unfold Weather.internal_error. rewrite run_bind, run_ret. cbn [fst snd].
    exists 0. repeat split.
Qed.

Lemma stale_row_is_refreshed_witness :
  length (snd (fst (Weather.GET (one_park_service 40000000) "request-6"
                      (weather_of_park "magic-kingdom")
                      (frozen thursday_1245 0.5))))
  = 2%nat.
Proof.
  pose proof (stale_row_is_refreshed (one_park_service 40000000) "request-6"
                (weather_of_park "magic-kingdom") "magic-kingdom" _ _ _
                (frozen thursday_1245 0.5) eq_refl eq_refl eq_refl) as H.
  cbv zeta in H.
  destruct H as (new & fresh & timestamp & Hevents & _).
  - intros row [= <-]. vm_compute. discriminate.
  - rewrite Hevents. reflexivity.
Defined.

(** X27. Without a [park_id], the empty string counting as missing,
    nothing is ever inserted: a forecast is requested, once, exactly when
    [lat] and [lng] are both present and both parse to a number, and
    otherwise the status is 400 and nothing leaves the server. *)
Theorem coordinates_never_write service uuid request (w : World) :
  truthy (Weather.q_park_id request) = None →
  let reply := fst (fst (Weather.GET service uuid request w)) in
  let events := snd (fst (Weather.GET service uuid request w)) in
  match lat ← truthy (Weather.lat request); Weather.parseFloat service lat,
        lng ← truthy (Weather.lng request); Weather.parseFloat service lng with
  | Some latitude, Some longitude =>
      events = [Weather.requested_forecast latitude longitude]
      ∧ (Weather.status reply = 200 ∨ Weather.status reply = 503)
  | _, _ =>
      events = []
      ∧ Weather.status reply = 400
      ∧ ∃ message,
          Weather.json reply = Weather.failure "VALIDATION_ERROR" message None
  end.
Proof.
  intros Hid. cbv zeta. unfold Weather.GET. rewrite Hid.
  destruct (truthy (Weather.lat request)) as [lat|],
    (truthy (Weather.lng request)) as [lng|]; cbn [mbind option_bind];
    try (destruct (Weather.parseFloat service _);
         repeat split; eexists; reflexivity);
    try (repeat split; eexists; reflexivity).
  destruct (Weather.parseFloat service lat) as [latitude|],
    (Weather.parseFloat service lng) as [longitude|];
    try (repeat split; eexists; reflexivity).
  rewrite run_bind.
  pose proof (fetch_events service latitude longitude None w) as Hev.
  destruct (fst (Weather.fetchWeatherFromAPI service latitude longitude None w))
    as [[fresh|] events]; cbn [snd] in Hev; subst events;
    unfold Weather.respond; rewrite ?run_bind, ?run_ret; cbn [fst snd];
    (split; [reflexivity|]); [left | right]; reflexivity.
Qed.

Lemma coordinates_never_write_witness :
  snd (fst (Weather.GET coordinates_service "request-7" (weather_at "28.4" "north")
              (frozen thursday_1245 0.5)))
  = [].
Proof.
  apply (coordinates_never_write coordinates_service "request-7"
           (weather_at "28.4" "north") (frozen thursday_1245 0.5) eq_refl).
Defined.

(** X28. When a forecast is to be requested for a park, a stored latitude
    that is missing or 0 is replaced by 28.3852 and a longitude that is
    missing or 0 by -81.5812: a park on the equator is looked up at the
    default latitude. *)
Theorem zero_coordinate_falls_back service uuid request parkId park dbWeather
    rowError (w : World) :
  truthy (Weather.q_park_id request) = Some parkId →
  Weather.park_location service parkId = Resolved (Some park) None →
  Weather.latest_row service parkId = Resolved dbWeather rowError →
  (∀ row, dbWeather = Some row →
     10 * 60 * 1000 ≤ clock_at w (clock_reads w) - Weather.timestamp row) →
  ∃ lat lng rest,
    snd (fst (Weather.GET service uuid request w))
    = Weather.requested_forecast lat lng :: rest
    ∧ (lat = match p ← Weather.location park; Weather.x p with
             | Some v => if Qeq_bool v 0 then 28.3852%Q else v
             | None => 28.3852%Q
             end)
    ∧ (lng = match p ← Weather.location park; Weather.y p with
             | Some v => if Qeq_bool v 0 then (-81.5812)%Q else v
             | None => (-81.5812)%Q
             end).
Proof.
  intros Hid Hpark Hrow Hstale.
  destruct (refresh_run service uuid request parkId park dbWeather rowError w
              Hid Hpark Hrow Hstale) as [w' Hrun].
  cbv zeta in Hrun. rewrite Hrun. clear Hrun.
  set (lat := Weather.coordinate (Weather.location park) Weather.x 28.3852).
  set (lng := Weather.coordinate (Weather.location park) Weather.y (-81.5812)).
  pose proof (fetch_events service lat lng (Some parkId) w') as Hev.
  destruct (fst (Weather.fetchWeatherFromAPI service lat lng (Some parkId) w'))
    as [[fresh|] events]; cbn [snd fst] in *; subst events.
  - exists lat, lng. eexists. split; [|split; reflexivity].
    destruct (Weather.insert service _);
      [unfold Weather.respond | unfold Weather.internal_error];
      rewrite run_bind, run_ret; reflexivity.
  - exists lat, lng, []. split; [reflexivity | split; reflexivity].
Qed.

Lemma zero_coordinate_falls_back_witness :
  snd (fst (Weather.GET equator_service "request-8" (weather_of_park "quito")
              (frozen thursday_1245 0.5)))
  = [Weather.requested_forecast 28.3852 12.5].
Proof.
  destruct (zero_coordinate_falls_back equator_service "request-8"
              (weather_of_park "quito") "quito" _ None (Some "PGRST116")
              (frozen thursday_1245 0.5) eq_refl eq_refl eq_refl)
    as (lat & lng & rest & Hevents & Hlat & Hlng).
  - intros row. discriminate.
  - reflexivity.
Defined.

Lemma alerts_at_most_two current hourly :
  (length (generateWeatherAlerts current hourly) ≤ 2)%nat.
Proof.
  unfold generateWeatherAlerts. cbv zeta.
  destruct (Qltb 30 _), (existsb _ _); simpl; lia.
Qed.

(** X29. When the forecast request resolves with a readable body,
    [fetchWeatherFromAPI] returns weather data whose comfort index is an
    integer of [[0,100]], whose UV index is 5, whose forecast is cut to the
    first 24 hours and 7 days of the response, and which holds at most two
    alerts; an hour beyond the end of a series carries no value for it
    instead of failing.  In every other case it returns [null]. *)
Theorem fresh_weather_data service lat lng parkId (w : World) :
  match Weather.forecast_at service lat lng with
  | fetch_resolved true (Some body) =>
      ∃ fresh,
        fst (fst (Weather.fetchWeatherFromAPI service lat lng parkId w))
        = Some fresh
        ∧ (∃ n : Z,
             CurrentConditions.comfort_index (Weather.current fresh) = inject_Z n
             ∧ 0 ≤ n ≤ 100)
        ∧ CurrentConditions.uv_index (Weather.current fresh) = 5%Q
        ∧ length (Forecast.hourly (Weather.forecast fresh))
          = Nat.min 24 (length (Hourly.time (OpenMeteo.hourly body)))
        ∧ length (Forecast.daily (Weather.forecast fresh))
          = Nat.min 7 (length (Daily.time (OpenMeteo.daily body)))
        ∧ (∀ i entry,
             Forecast.hourly (Weather.forecast fresh) !! i = Some entry →
             Hourly.time (OpenMeteo.hourly body) !! i
             = Some (HourEntry.time entry)
             ∧ HourEntry.temperature entry
               = Hourly.temperature_2m (OpenMeteo.hourly body) !! i
             ∧ HourEntry.precipitation entry
               = Hourly.precipitation (OpenMeteo.hourly body) !! i)
        ∧ (length (Weather.alerts fresh) ≤ 2)%nat
  | _ => fst (fst (Weather.fetchWeatherFromAPI service lat lng parkId w)) = None
  end.
Proof.
  unfold Weather.fetchWeatherFromAPI.
  destruct (Weather.forecast_at service lat lng) as [|[|] [body|]];
    try reflexivity.
  rewrite run_bind, run_ret. cbn [fst]. eexists. split; [reflexivity|].
  cbn [Weather.current Weather.forecast Weather.alerts
       CurrentConditions.comfort_index CurrentConditions.uv_index
       Forecast.hourly Forecast.daily].
  split; [|split; [reflexivity|split; [|split; [|split]]]].
  - unfold calculateComfortIndex, Math.round. cbv zeta.
    rewrite (min_inject_Z 100), (max_inject_Z 0).
    eexists. split; [reflexivity | lia].
  - now rewrite length_imap, length_take.
  - now rewrite length_imap, length_take.
  - intros i entry Hentry. rewrite list_lookup_imap in Hentry.
    destruct (take 24 (Hourly.time (OpenMeteo.hourly body)) !! i) as [t|] eqn:E;
      [|discriminate].
    injection Hentry as <-. cbn [HourEntry.time HourEntry.temperature
                                 HourEntry.precipitation].
    split; [|split; reflexivity].
    apply lookup_take_Some in E. tauto.
  - apply alerts_at_most_two.
Qed.

Lemma fresh_weather_data_witness :
  ∃ fresh,
    fst (fst (Weather.fetchWeatherFromAPI coordinates_service 28.4 (-81.6) None
                (frozen thursday_1245 0.5)))
    = Some fresh
    ∧ length (Forecast.hourly (Weather.forecast fresh)) = 3%nat.
Proof.
  pose proof (fresh_weather_data coordinates_service 28.4 (-81.6) None
                (frozen thursday_1245 0.5)) as H.
  cbn [coordinates_service Weather.forecast_at] in H.
  destruct H as (fresh & Hfresh & _ & _ & Hhours & _).
  exists fresh. split; [exact Hfresh | exact Hhours].
Defined.

Lemma respond_reply uuid weatherData events (w : World) :
  let reply := fst (fst (Weather.respond uuid weatherData events w)) in
  match weatherData with
  | Some fresh =>
      ∃ timestamp,
        reply = {| Weather.status := 200;
                   Weather.json := Weather.success fresh timestamp "1.0.0" uuid |}
  | None =>
      reply = {| Weather.status := 503;
                 Weather.json :=
                   Weather.failure "WEATHER_SERVICE_ERROR"
                     "Failed to fetch weather data" None |}
  end.
Proof.
  cbv zeta. unfold Weather.respond. destruct weatherData; [|reflexivity].
  rewrite run_bind, run_ret. eexists. reflexivity.
Qed.

Lemma internal_error_reply uuid events (w : World) :
  ∃ timestamp,
    fst (fst (Weather.internal_error uuid events w))
    = {| Weather.status := 500;
         Weather.json :=
           Weather.failure "INTERNAL_ERROR" "An unexpected error occurred"
             (Some (timestamp, uuid)) |}.
Proof.
  unfold Weather.internal_error. rewrite run_bind, run_ret. eexists. reflexivity.
Qed.

Lemma respond_well_formed uuid weatherData events (w : World) :
  well_formed uuid (fst (fst (Weather.respond uuid weatherData events w))).
Proof.
  pose proof (respond_reply uuid weatherData events w) as H. cbv zeta in H.
  destruct weatherData; [destruct H as [t ->] | rewrite H];
    unfold well_formed; simpl; auto 10.
Qed.

Lemma internal_error_well_formed uuid events (w : World) :
  well_formed uuid (fst (fst (Weather.internal_error uuid events w))).
Proof.
  destruct (internal_error_reply uuid events w) as [t ->].
  unfold well_formed. simpl. right. right. left. eauto.
Qed.

(** X30. Whatever the request and the collaborators, the reply of the
    weather handler pairs its status with its body: 200 with the data, the
    version "1.0.0" and the request identifier; 400 with VALIDATION_ERROR,
    404 with PARK_NOT_FOUND and 503 with WEATHER_SERVICE_ERROR, without
    meta; 500 with INTERNAL_ERROR and a meta holding the request
    identifier. *)
Theorem weather_reply_is_well_formed service uuid request (w : World) :
  well_formed uuid (fst (fst (Weather.GET service uuid request w))).
Proof.
  unfold Weather.GET.
  repeat first
    [ apply respond_well_formed
    | apply internal_error_well_formed
    | rewrite run_bind; cbv beta
    | match goal with
      | |- context [match ?x with _ => _ end] => destruct x
      end ];
    unfold well_formed; simpl; auto 10.
Qed.
